(** * Revolver / ZOBOV void finder: a shallow embedding of [python_tools/zobov.py]

    The development follows the class [ZobovVoids]:

    - [Py]           exceptions, list indexing and slicing as the interpreter does them;
    - [Np]           the two-dimensional arrays the class keeps its tracers in;
    - [TracerStore]  [write_box_zobov], [delete_tracer_info], [reread_tracer_info]
                     and the presence test of the centre extractors;
    - [Box]          the periodic wrap of [__init__];
    - [Buffers]      the radii of the low-redshift cap and the cube side of
                     [generate_buffer];
    - [Num]          comparisons, extrema, sums and truncation of numbers;
    - [Reweight]     the volume renormalisation of [zobov_wrapper];
    - [Voids]        the pruning loop of [postprocess_voids];
    - [Clusters]     [np.savetxt] and the formats of the catalogue of clusters;
    - [Survey]       the redshift cut and the buffer mocks of [__init__];
    - [VolumeWeights] the weighting of the volumes in [zobov_wrapper];
    - [VoidFiles]    the files [postprocess_voids] writes, read back;
    - [ClusterPrune] the pruning loop of [postprocess_clusters];
    - [ClusterCatalogue] the end of [postprocess_clusters]: the list file
                     written again and the catalogue;
    - [Centres]      [find_void_circumcentres] and [find_void_barycentres];
    - [Adjacency]    the adjacency file read in [find_void_circumcentres].

    The properties follow the definitions, one module of facts for each:
    [StoreFacts], [BoxFacts], [BufferFacts], [ReweightFacts], [VoidFacts],
    then [StoreMore], [SurveyFacts], [WeightFacts], [VoidMore],
    [VoidFileFacts], [ClusterPruneFacts], [CentreFacts], [AdjacencyFacts],
    [ClusterFacts] and [ClusterMore]; [Samples] and [MoreSamples] hold the
    concrete inputs they are tried on.

    Numbers.  Python integers are [Z].  A float64 that is only stored and
    copied (the position file) is its 64-bit IEEE-754 image, a [Z] below
    [2^64].  A float64 that is computed with is an exact rational [Q]:
    rounding, infinities and NaN are outside the model. *)

From Stdlib Require Import String Ascii.
From Stdlib Require Import ZArith QArith Qabs Lqa Lia Bool List.
From Stdlib Require Import Strings.Byte.
Import ListNotations.

Set Implicit Arguments.

(* ================================================================== *)
(** * Python conventions *)

Module Py.

(** The exceptions the modelled code can end with; [SystemExit] is [sys.exit]. *)
Inductive exn : Set := IndexError | ValueError | TypeError | SystemExit.

(** The outcome of a run.  [OutOfFuel] belongs to the model only: a [while]
    loop is unrolled a bounded number of times, and [OutOfFuel] says the
    bound was too small (it never is, see [VoidFacts.prune_not_fuel]). *)
Inductive result (A : Type) : Type :=
| Ok (a : A)
| Raise (e : exn)
| OutOfFuel.

Arguments Ok {A} a.
Arguments Raise {A} e.
Arguments OutOfFuel {A}.

Definition bind {A B : Type} (m : result A) (k : A -> result B) : result B :=
  match m with
  | Ok a => k a
  | Raise e => Raise e
  | OutOfFuel => OutOfFuel
  end.

Fixpoint mapM {A B : Type} (f : A -> result B) (l : list A) : result (list B) :=
  match l with
  | [] => Ok []
  | a :: r =>
      bind (f a) (fun b => bind (mapM f r) (fun bs => Ok (b :: bs)))
  end.

(** [l[i]]: a negative index counts from the end. *)
Definition getitem {A : Type} (l : list A) (i : Z) : result A :=
  let n := Z.of_nat (length l) in
  let j := if (i <? 0)%Z then (i + n)%Z else i in
  if (j <? 0)%Z then Raise IndexError
  else match nth_error l (Z.to_nat j) with
       | Some a => Ok a
       | None => Raise IndexError
       end.

(** A slice bound is brought into [0 .. len]; a slice never raises. *)
Definition bound (n i : Z) : Z :=
  let j := if (i <? 0)%Z then (i + n)%Z else i in
  Z.max 0 (Z.min n j).

(** [l[a:b]] *)
Definition slice {A : Type} (l : list A) (a b : Z) : list A :=
  let n := Z.of_nat (length l) in
  let a' := bound n a in
  let b' := bound n b in
  firstn (Z.to_nat (b' - a')) (skipn (Z.to_nat a') l).

(** [l[:b]] *)
Definition slice_to {A : Type} (l : list A) (b : Z) : list A :=
  firstn (Z.to_nat (bound (Z.of_nat (length l)) b)) l.

(** [x in l] on integers *)
Definition contains (x : Z) (l : list Z) : bool :=
  existsb (Z.eqb x) l.

End Py.

Import Py.

Declare Scope py_scope.
Notation "x <- m ;; k" := (Py.bind m (fun x => k))
  (at level 61, m at next level, right associativity) : py_scope.
Open Scope py_scope.

(* ================================================================== *)
(** * Arrays *)

Module Np.

(** A two-dimensional array of shape [(nrows, ncols)], kept as the list of
    its columns: the class reads and writes its tables by column. *)
Record array2 (A : Type) : Type := Array2 {
  nrows : nat;
  columns : list (list A)
}.

Section Array2.
Variable A : Type.

Definition ncols (t : array2 A) : nat := length (columns t).

(** Every column has [nrows] entries. *)
Definition wf (t : array2 A) : Prop :=
  Forall (fun c => length c = nrows t) (columns t).

(** [t[:, j]] *)
Definition col (t : array2 A) (j : nat) : result (list A) :=
  match nth_error (columns t) j with
  | Some c => Ok c
  | None => Raise IndexError
  end.

Fixpoint list_set (j : nat) (v : A) (l : list A) : list A :=
  match l, j with
  | [], _ => []
  | _ :: r, O => v :: r
  | a :: r, S k => a :: list_set k v r
  end.

Fixpoint list_set_col (j : nat) (v : list A) (l : list (list A)) : list (list A) :=
  match l, j with
  | [], _ => []
  | _ :: r, O => v :: r
  | c :: r, S k => c :: list_set_col k v r
  end.

(** [t[:, j] = v]: [v] has one entry per row, or a single entry that is
    broadcast; any other length is a shape error. *)
Definition set_col (t : array2 A) (j : nat) (v : list A) : result (array2 A) :=
  if (j <? ncols t)%nat then
    if (length v =? nrows t)%nat then
      Ok (Array2 (nrows t) (list_set_col j v (columns t)))
    else
      match v with
      | [x] => Ok (Array2 (nrows t) (list_set_col j (repeat x (nrows t)) (columns t)))
      | _ => Raise ValueError
      end
  else Raise IndexError.

(** [t[mask, j] = f(t[mask, j])], the update in place of the entries of
    column [j]; [f] leaves the entries outside the mask as they are. *)
Definition update_col (f : A -> A) (t : array2 A) (j : nat) : result (array2 A) :=
  match nth_error (columns t) j with
  | Some c => Ok (Array2 (nrows t) (list_set_col j (map f c) (columns t)))
  | None => Raise IndexError
  end.

(** [np.empty((n, m))]: the contents are whatever the memory held, given
    here by [uninit row column]. *)
Definition empty (uninit : nat -> nat -> A) (n m : nat) : array2 A :=
  Array2 n (map (fun j => map (fun i => uninit i j) (seq 0 n)) (seq 0 m)).

(** [np.zeros((n, m))] *)
Definition full (x : A) (n m : nat) : array2 A :=
  Array2 n (repeat (repeat x n) m).

(** [t[i] = v] for a list [v] with one entry per column. *)
Definition set_row (t : array2 A) (i : nat) (v : list A) : result (array2 A) :=
  if (i <? nrows t)%nat then
    if (length v =? ncols t)%nat then
      Ok (Array2 (nrows t)
            (map (fun cv : list A * A => list_set i (snd cv) (fst cv)) (combine (columns t) v)))
    else
      match v with
      | [x] => Ok (Array2 (nrows t) (map (list_set i x) (columns t)))
      | _ => Raise ValueError
      end
  else Raise IndexError.

End Array2.

End Np.

(* ================================================================== *)
(** * The tracer store *)

Module TracerStore.

(** A stored float64, as its 64-bit image. *)
Definition float64 : Type := Z.

Definition is_float64 (w : float64) : Prop := (0 <= w < 2 ^ 64)%Z.

(** ** Little-endian items *)

Definition byte_of_Z (z : Z) : byte :=
  match Byte.of_N (Z.to_N (z mod 256)) with
  | Some b => b
  | None => "000"%byte
  end.

Definition Z_of_byte (b : byte) : Z := Z.of_N (Byte.to_N b).

Fixpoint le_encode (n : nat) (w : Z) : list byte :=
  match n with
  | O => []
  | S k => byte_of_Z w :: le_encode k (w / 256)
  end.

Fixpoint le_decode (bs : list byte) : Z :=
  match bs with
  | [] => 0
  | b :: r => (Z_of_byte b + 256 * le_decode r)%Z
  end.

(** [np.array(n, dtype=np.int32)]: the low 32 bits, read as a signed number. *)
Definition int32_wrap (z : Z) : Z := ((z + 2 ^ 31) mod 2 ^ 32 - 2 ^ 31)%Z.

Definition int32_bytes (z : Z) : list byte := le_encode 4 (z mod 2 ^ 32).

Definition int32_of_bytes (bs : list byte) : Z := int32_wrap (le_decode bs).

(** [a.tofile(F)] for a float64 column. *)
Definition tofile (c : list float64) : list byte := flat_map (le_encode 8) c.

(** [np.fromfile(F, dtype, count)] on the unread part [f] of a file: at most
    [count] whole items of [size] bytes (all of them when [count] is
    negative), and the part left unread. *)
Fixpoint read_items (size : nat) (n : nat) (f : list byte) : list (list byte) * list byte :=
  match n with
  | O => ([], f)
  | S k =>
      if (size <=? length f)%nat then
        let '(items, rest) := read_items size k (skipn size f) in
        (firstn size f :: items, rest)
      else ([], f)
  end.

Definition fromfile (size : nat) (count : Z) (f : list byte) : list (list byte) * list byte :=
  read_items size (if (count <? 0)%Z then length f else Z.to_nat count) f.

(** ** The pipeline object *)

(** [self.tracers] is the table, or the integer [delete_tracer_info] leaves. *)
Inductive tracers_attr : Type :=
| Table (t : Np.array2 float64)
| PyInt (z : Z).

Record zobov : Type := Zobov {
  is_box : bool;
  num_part_total : Z;
  tracers : tracers_attr;
  posn_file : list byte          (* the contents of [self.posn_file] *)
}.

Definition set_tracers (self : zobov) (v : tracers_attr) : zobov :=
  Zobov (is_box self) (num_part_total self) v (posn_file self).

Definition set_posn_file (self : zobov) (f : list byte) : zobov :=
  Zobov (is_box self) (num_part_total self) (tracers self) f.

(** [self.tracers[:, j]]: an integer cannot be indexed. *)
Definition tracers_col (self : zobov) (j : nat) : result (list float64) :=
  match tracers self with
  | Table t => Np.col t j
  | PyInt _ => Raise TypeError
  end.

(** [len(self.tracers)]: an integer has no length. *)
Definition len_tracers (self : zobov) : result Z :=
  match tracers self with
  | Table t => Ok (Z.of_nat (Np.nrows t))
  | PyInt _ => Raise TypeError
  end.

Definition write_box_zobov (self : zobov) : result zobov :=
  let npart := int32_bytes (num_part_total self) in
  c0 <- tracers_col self 0 ;;
  c1 <- tracers_col self 1 ;;
  c2 <- tracers_col self 2 ;;
  if is_box self then
    Ok (set_posn_file self (npart ++ tofile c0 ++ tofile c1 ++ tofile c2))
  else
    c3 <- tracers_col self 3 ;;
    c4 <- tracers_col self 4 ;;
    c5 <- tracers_col self 5 ;;
    Ok (set_posn_file self
          (npart ++ tofile c0 ++ tofile c1 ++ tofile c2
                 ++ tofile c3 ++ tofile c4 ++ tofile c5)).

Definition delete_tracer_info (self : zobov) : zobov :=
  set_tracers self (PyInt 0).

Section Reread.
(** What [np.empty] finds in memory. *)
Variable uninit : nat -> nat -> float64.

Definition read_column (nparts : Z) (j : nat) (st : Np.array2 float64 * list byte)
  : result (Np.array2 float64 * list byte) :=
  let '(items, rest) := fromfile 8 nparts (snd st) in
  t <- Np.set_col (fst st) j (map le_decode items) ;;
  Ok (t, rest).

Definition reread_tracer_info (self : zobov) : result zobov :=
  if (num_part_total self <? 0)%Z then Raise ValueError
  else
    let t0 := Np.empty uninit (Z.to_nat (num_part_total self)) 6 in
    let '(hdr, F) := fromfile 4 1 (posn_file self) in
    nparts <- getitem (map int32_of_bytes hdr) 0 ;;
    if negb (nparts =? num_part_total self)%Z then Raise SystemExit
    else
      s0 <- read_column nparts 0 (t0, F) ;;
      s1 <- read_column nparts 1 s0 ;;
      s2 <- read_column nparts 2 s1 ;;
      if is_box self then Ok (set_tracers self (Table (fst s2)))
      else
        s3 <- read_column nparts 3 s2 ;;
        s4 <- read_column nparts 4 s3 ;;
        s5 <- read_column nparts 5 s4 ;;
        Ok (set_tracers self (Table (fst s5))).

(** The test that opens [find_void_circumcentres], [find_void_barycentres]
    and the centre search of [postprocess_clusters]:
    [if not len(self.tracers) == self.num_part_total: self.reread_tracer_info()]. *)
Definition ensure_tracers (self : zobov) : result zobov :=
  n <- len_tracers self ;;
  if negb (n =? num_part_total self)%Z then reread_tracer_info self
  else Ok self.

End Reread.

End TracerStore.


(* ================================================================== *)
(** * Rational helpers *)

Module Num.

(** [x < y] on floats *)
Definition Qltb (x y : Q) : bool := negb (Qle_bool y x).

Definition qmin (x y : Q) : Q := if Qle_bool x y then x else y.
Definition qmax (x y : Q) : Q := if Qle_bool x y then y else x.

(** [np.min] and [np.max] refuse an empty array. *)
Definition np_min (l : list Q) : result Q :=
  match l with
  | [] => Raise ValueError
  | x :: r => Ok (fold_left qmin r x)
  end.

Definition np_max (l : list Q) : result Q :=
  match l with
  | [] => Raise ValueError
  | x :: r => Ok (fold_left qmax r x)
  end.

(** [np.sum] *)
Definition np_sum (l : list Q) : Q := fold_left Qplus l 0.

(** [int(x)] and [np.asarray(x, dtype=int)] on a float: towards zero. *)
Definition to_int (q : Q) : Z := Z.quot (Qnum q) (Zpos (Qden q)).

End Num.

Import Num.

(* ================================================================== *)
(** * The periodic wrap of [__init__] (box mode) *)

Module Box.

(** [tracers[tracers[:, j] > box_length, j] -= box_length] *)
Definition sub_above (box_length : Q) (x : Q) : Q :=
  if Qltb box_length x then x - box_length else x.

(** [tracers[tracers[:, j] < 0, j] += box_length] *)
Definition add_below (box_length : Q) (x : Q) : Q :=
  if Qltb x 0 then x + box_length else x.

(** Lines 85-95: the length test and the six masked updates, in the order
    of the source. *)
Definition init_box_wrap (box_length : Q) (tracers : Np.array2 Q) : result (Np.array2 Q) :=
  if Qle_bool box_length 0 then Raise SystemExit
  else
    t <- Np.update_col (sub_above box_length) tracers 0 ;;
    t <- Np.update_col (sub_above box_length) t 1 ;;
    t <- Np.update_col (sub_above box_length) t 2 ;;
    t <- Np.update_col (add_below box_length) t 0 ;;
    t <- Np.update_col (add_below box_length) t 1 ;;
    t <- Np.update_col (add_below box_length) t 2 ;;
    Ok t.

(** What the six updates do to one coordinate. *)
Definition wrap_coord (box_length x : Q) : Q :=
  add_below box_length (sub_above box_length x).

(** How many times [box_length] was added to or taken from a coordinate. *)
Definition shifts (box_length x : Q) : nat :=
  ((if Qltb box_length x then 1 else 0)
   + (if Qltb (sub_above box_length x) 0 then 1 else 0))%nat.

End Box.

(* ================================================================== *)
(** * Buffer synthesis: [generate_buffer] *)

Module Buffers.

Section Cosmology.

(** [self.cosmo.get_comoving_distance], an external service. *)
Variable get_comoving_distance : Q -> Q.

(** The float power [**]. *)
Variable pow : Q -> Q -> Q.

(** Step 2, lines 372-381: the radial extent of the low-redshift cap, as
    [(r_low, r_high)]; [None] when no cap is placed ([z_low <= 0]). *)
Definition low_cap_radii (redshifts : list Q) (z_min mean_nn_distance mock_dens_ratio : Q)
  : result (option (Q * Q)) :=
  z_tracers <- np_min redshifts ;;
  z_low <- np_min [z_tracers; z_min] ;;
  if Qltb 0 z_low then
    let r_high :=
      get_comoving_distance z_low - mean_nn_distance * pow mock_dens_ratio (- (1 # 3)) in
    let r_low := r_high - mean_nn_distance in
    let r_high := if Qltb r_high 0 then get_comoving_distance z_low else r_high in
    let r_low := if Qltb r_low 0 then 0 else r_low in
    Ok (Some (r_low, r_high))
  else Ok None.

(** The radii as the specification words them: both clamped at zero. *)
Definition spec_low_cap_radii (z_low mean_nn_distance mock_dens_ratio : Q) : Q * Q :=
  let r_high :=
    get_comoving_distance z_low - mean_nn_distance * pow mock_dens_ratio (- (1 # 3)) in
  let r_low := r_high - mean_nn_distance in
  (qmax r_low 0, qmax r_high 0).

End Cosmology.

(** [np.abs(a[:, :3])], flattened. *)
Definition abs_positions (a : Np.array2 Q) : list Q :=
  map Qabs (concat (firstn 3 (Np.columns a))).

(** Line 470: [self.box_length = 2.0 * np.max(np.abs(buffers[:, :3])) + 1.],
    where [buffers] holds the cap and boundary mocks placed so far. *)
Definition box_length_of (buffers : Np.array2 Q) : result Q :=
  m <- np_max (abs_positions buffers) ;;
  Ok (2 * m + 1).

(** The side as the specification words it: the maximum runs over the
    tracers and the buffers together. *)
Definition spec_box_length (tracers buffers : Np.array2 Q) : result Q :=
  m <- np_max (abs_positions tracers ++ abs_positions buffers) ;;
  Ok (2 * m + 1).

End Buffers.

(* ================================================================== *)
(** * Volume renormalisation: [zobov_wrapper], survey mode *)

Module Reweight.

(** [1.0 / 0.9e30], the volume the tessellator gives an edge cell. *)
Definition edge_sentinel : Q := 1 / inject_Z (9 * 10 ^ 29).

(** [(self.tracer_dens * self.box_length ** 3.) / self.num_part_total] *)
Definition scale_factor (tracer_dens box_length : Q) (num_part_total : Z) : Q :=
  (tracer_dens * box_length ^ 3) / inject_Z num_part_total.

(** [edgemask = modvols == 1.0 / 0.9e30] *)
Definition edgemask_of (modvols : list Q) : list bool :=
  map (fun v => Qeq_bool v edge_sentinel) modvols.

(** [modvols[np.logical_not(edgemask)] *= factor] *)
Definition scale_non_edge (edgemask : list bool) (factor : Q) (modvols : list Q) : list Q :=
  map (fun ev : bool * Q => if fst ev then snd ev else snd ev * factor) (combine edgemask modvols).

(** [np.any(modvols[np.logical_not(edgemask)] == 0)] *)
Definition any_zero_non_edge (edgemask : list bool) (modvols : list Q) : bool :=
  existsb (fun ev : bool * Q => negb (fst ev) && Qeq_bool (snd ev) 0) (combine edgemask modvols).

(** Step 2, lines 700-706. *)
Definition renormalize (tracer_dens box_length : Q) (num_part_total : Z) (modvols : list Q)
  : result (list Q) :=
  let edgemask := edgemask_of modvols in
  let modvols := scale_non_edge edgemask (scale_factor tracer_dens box_length num_part_total) modvols in
  if any_zero_non_edge edgemask modvols then Raise SystemExit
  else Ok modvols.

End Reweight.


(* ================================================================== *)
(** * Watershed pruning: [postprocess_voids] *)

Module Voids.

(** A field of a line of the hierarchy file, by what [int(...)] and
    [float(...)] make of its text: a field written as an integer, or one
    written as a decimal number. *)
Inductive token : Type :=
| TInt (z : Z)
| TFloat (q : Q).

Definition int_of (t : token) : result Z :=
  match t with
  | TInt z => Ok z
  | TFloat _ => Raise ValueError
  end.

Definition float_of (t : token) : result Q :=
  match t with
  | TInt z => Ok (inject_Z z)
  | TFloat q => Ok q
  end.

(** A row of the list file; the method reads columns 0 to 5 and 9. *)
Record candidate : Type := Candidate {
  col0 : Q;      (* zone id *)
  col1 : Q;      (* edge flag *)
  col2 : Q;      (* core particle *)
  col3 : Q;      (* core density *)
  col4 : Q;      (* zone volume *)
  col5 : Q;      (* number of particles of the zone *)
  col9 : Q       (* density ratio *)
}.

(** The parameters hard-coded at the top of the method. *)
Record policy : Type := Policy {
  dont_merge : bool;
  use_r_threshold : bool;
  r_threshold : Q;
  use_link_density_threshold : bool;
  link_density_threshold : Q;
  count_all_voids : bool;
  use_stripping : bool;
  strip_density_threshold : Q
}.

Definition hard_coded : policy := Policy true false 1 false 1 true false 1.

(** A row of the new [_list.txt]. *)
Record list_row : Type := ListRow {
  VoidID : Z;
  CoreParticle : Z;
  CoreDens : Q;
  ZoneNumParts : Z;
  VoidNumZones : Z;
  VoidNumParts : Z;
  VoidVol : Q;
  VoidDensRatio : Q
}.

(** What the loop over the candidates accumulates.  [members] records the
    value of [zonelist] at each accepted seed, from which [member_ids] is
    taken; the method itself keeps only their concatenation
    [counted_zones]. *)
Record out_state : Type := OutState {
  counted_zones : list Z;
  edge_flag : list Z;
  wtd_avg_dens : list Q;
  num__acc : Z;
  Fnewvoid : list (list token);
  Fnewlist : list list_row;
  members : list (list Z)
}.

Definition initial : out_state := OutState [] [] [] 0 [] [] [].

(** The variables of the [while] loop. *)
Record locals : Type := Locals {
  pos : Z;
  num_zones_to_add : Z;
  finalpos : Z;
  rval : Q;
  rstopadd : Q;
  num_adds : Z;
  add_more : bool;
  zonelist : list Z;
  total_vol : Q;
  total_num_parts : Z;
  zonestoadd : list Z
}.

(** [a[mask]] *)
Definition select {A : Type} (mask : list bool) (a : list A) : list A :=
  map snd (filter (fun ma : bool * A => fst ma) (combine mask a)).

(** [np.in1d(a, zones)] *)
Definition in1d (a : list Z) (zones : list Z) : list bool :=
  map (fun z => contains z zones) a.

(** [np.argsort]: the indices that sort [keys] in ascending order.  Equal
    keys stay in file order here; nothing proved below depends on the order
    among them. *)
Fixpoint insert_index (keys : list Q) (i : nat) (sorted : list nat) : list nat :=
  match sorted with
  | [] => [i]
  | j :: r =>
      if Qltb (nth i keys 0) (nth j keys 0) then i :: sorted
      else j :: insert_index keys i r
  end.

Definition argsort (keys : list Q) : list Z :=
  map Z.of_nat
    (fold_left (fun sorted i => insert_index keys i sorted) (seq 0 (length keys)) []).

(** A line the loop can read when nothing is merged: a count and a ratio
    after the seed and, when the count is positive, as many zones, all
    integers, followed by the next count and ratio. *)
Definition wf_line (voidline : list token) : bool :=
  match getitem voidline 1, getitem voidline 2 with
  | Ok (TInt n), Ok _ =>
      if (0 <? n)%Z then
        match mapM int_of (slice voidline 3 (n + 3)),
              getitem voidline (n + 3), getitem voidline (n + 4) with
        | Ok _, Ok (TInt _), Ok _ => true
        | _, _, _ => false
        end
      else true
  | _, _ => false
  end.

Section Prune.

Variable pol : policy.
Variable min_dens_cut : Q.            (* [self.min_dens_cut] *)
Variable void_min_num : Z.            (* [self.void_min_num] *)
Variable meanvol_trc : Q.             (* [box_length ** 3 / num_part_total] *)
Variable voidsread : list candidate.  (* the list file, sorted by core density *)
Variable hierarchy : list (list token). (* the lines of the [.void] file after the first, split *)
Variable zonedata : list Z.           (* the zone of each particle *)
Variable vols : list Q.               (* [.trvol] *)
Variable densities : list Q.          (* [1. / .vol] *)

Definition vid_of (c : candidate) : Z := to_int (col0 c).
Definition edge_of (c : candidate) : Z := to_int (col1 c).
Definition numpart_of (c : candidate) : Z := to_int (col5 c).

Definition vid : list Z := map vid_of voidsread.
Definition edgelist : list Z := map edge_of voidsread.
Definition vollist : list Q := map col4 voidsread.
Definition numpartlist : list Z := map numpart_of voidsread.
Definition rlist : list Q := map col9 voidsread.

(** The correction of [strip_density_threshold] made when stripping is on. *)
Definition strip_threshold : Q :=
  if use_stripping pol
     && (Qltb (strip_density_threshold pol) min_dens_cut
         || Qltb (strip_density_threshold pol) (link_density_threshold pol))
  then qmax min_dens_cut (link_density_threshold pol)
  else strip_density_threshold pol.

(** The test of lines 903-904, with the short-circuit of [or] and [and]. *)
Definition cannot_add (dens : Q) (rsublist : list Q) : result bool :=
  if dont_merge pol then Ok true
  else if use_link_density_threshold pol && Qltb (link_density_threshold pol) dens then Ok true
  else if use_r_threshold pol then
    m <- np_max rsublist ;;
    Ok (Qltb (r_threshold pol) m)
  else Ok false.

(** One turn of the [while] loop, lines 898-919. *)
Definition merge_turn (voidline : list token) (coredens : Q) (l : locals) : result locals :=
  let n := num_zones_to_add l in
  zs <- mapM int_of (slice voidline (pos l + 2) (pos l + n + 2)) ;;
  let dens := rval l * coredens in
  let rsublist := select (in1d vid zs) rlist in
  let volsublist := select (in1d vid zs) vollist in
  let partsublist := select (in1d vid zs) numpartlist in
  stop <- cannot_add dens rsublist ;;
  let pos' := (pos l + n + 2)%Z in
  tn <- getitem voidline pos' ;;
  n' <- int_of tn ;;
  tr <- getitem voidline (pos' + 1) ;;
  rval' <- float_of tr ;;
  if stop then
    Ok (Locals pos' n' (finalpos l - (n + 1)) rval' (rval l) (num_adds l) false
               (zonelist l) (total_vol l) (total_num_parts l) zs)
  else
    Ok (Locals pos' n' (pos' + n' + 1) rval' (rstopadd l) (num_adds l + n) true
               (zonelist l ++ zs) (total_vol l + np_sum volsublist)
               (total_num_parts l + fold_left Z.add partsublist 0)%Z zs).

(** [while num_zones_to_add > 0 and add_more], unrolled at most [fuel] times. *)
Fixpoint while_loop (fuel : nat) (voidline : list token) (coredens : Q) (l : locals)
  : result locals :=
  if (0 <? num_zones_to_add l)%Z && add_more l then
    match fuel with
    | O => OutOfFuel
    | S f =>
        l' <- merge_turn voidline coredens l ;;
        while_loop f voidline coredens l'
    end
  else Ok l.

(** The test of lines 888-889. *)
Definition passes (c : candidate) (rval : Q) (counted : list Z) : bool :=
  Qle_bool 1 rval
  && Qltb (col3 c) min_dens_cut
  && (void_min_num <=? numpart_of c)%Z
  && (count_all_voids pol || negb (contains (vid_of c) counted)).

(** [member_ids], lines 922-926. *)
Definition member_ids (zones : list Z) : list bool :=
  if use_stripping pol then
    map (fun dm : Q * bool => Qltb (fst dm) strip_threshold && snd dm)
        (combine densities (in1d zonedata zones))
  else in1d zonedata zones.

(** Lines 921-958: what an accepted seed adds to the outputs.  (A weighted
    density over a zero sum of volumes, [nan] for numpy, is 0 here.) *)
Definition record_void (st : out_state) (c : candidate) (voidline : list token) (l : locals)
  : out_state :=
  let ids := member_ids (zonelist l) in
  let total_vol := if use_stripping pol then np_sum (select ids vols) else total_vol l in
  let total_num_parts :=
    if use_stripping pol then Z.of_nat (length (select ids vols)) else total_num_parts l in
  let flag := if contains 1 (select (in1d vid (zonestoadd l)) edgelist) then 1%Z else 0%Z in
  let w_a_d :=
    np_sum (map (fun vd : Q * Q => fst vd * snd vd)
                (combine (select ids vols) (select ids densities)))
    / np_sum (select ids vols) in
  let newvoidline :=
    slice_to voidline (finalpos l)
      ++ (if add_more l then [] else [TInt 0])
      ++ [TFloat (rstopadd l)] in
  let rstop := if Qltb (inject_Z (10 ^ 20)) (rstopadd l) then - (1) else rstopadd l in
  OutState (counted_zones st ++ zonelist l)
           (edge_flag st ++ [flag])
           (wtd_avg_dens st ++ [w_a_d])
           (num__acc st + 1)
           (Fnewvoid st ++ [newvoidline])
           (Fnewlist st ++ [ListRow (vid_of c) (to_int (col2 c)) (col3 c) (to_int (col5 c))
                                    (num_adds l + 1) total_num_parts
                                    (total_vol * meanvol_trc) rstop])
           (members st ++ [zonelist l]).

(** The body of [for i in range(num_voids)] for the sorted row [c], whose
    line of the hierarchy is [hierarchy[k]] with [k = sorted_order[i]]. *)
Definition candidate_step (st : out_state) (ck : candidate * Z) : result out_state :=
  let c := fst ck in
  let coredens := col3 c in
  voidline <- getitem hierarchy (snd ck) ;;
  tn <- getitem voidline 1 ;;
  n <- int_of tn ;;
  tr <- getitem voidline 2 ;;
  r <- float_of tr ;;
  if passes c r (counted_zones st) then
    l <- while_loop (length voidline) voidline coredens
           (Locals 1 n (1 + n + 1) r (col9 c) 0 true
                   [vid_of c] (col4 c) (numpart_of c) []) ;;
    Ok (record_void st c voidline l)
  else Ok st.

(** The loop over the candidates. *)
Fixpoint prune (todo : list (candidate * Z)) (st : out_state) : result out_state :=
  match todo with
  | [] => Ok st
  | ck :: rest =>
      st' <- candidate_step st ck ;;
      prune rest st'
  end.

(** ** Reading the outcome back

    The quantities the properties below are stated with. *)

(** [(n1, r1)]: the count and the ratio of the first merge step of line [k]. *)
Definition first_step (k : Z) : result (Z * Q) :=
  voidline <- getitem hierarchy k ;;
  tn <- getitem voidline 1 ;;
  n <- int_of tn ;;
  tr <- getitem voidline 2 ;;
  r <- float_of tr ;;
  Ok (n, r).

(** The zones named by the first merge step of line [k]; none when the
    line has no merge step. *)
Definition first_step_zones (k : Z) : list Z :=
  match getitem hierarchy k, first_step k with
  | Ok voidline, Ok (n, _) =>
      if (0 <? n)%Z then
        match mapM int_of (slice voidline 3 (n + 3)) with
        | Ok zs => zs
        | _ => []
        end
      else []
  | _, _ => []
  end.

(** The three tests of a seed: first ratio at least 1, core density below
    the cut, enough particles in the zone. *)
Definition seed_accepted (ck : candidate * Z) : bool :=
  match first_step (snd ck) with
  | Ok (_, r1) =>
      Qle_bool 1 r1
      && Qltb (col3 (fst ck)) min_dens_cut
      && (void_min_num <=? numpart_of (fst ck))%Z
  | _ => false
  end.

(** The ratio at which a seed stops when nothing is merged: that of its
    first merge step, or the one of the list file when it has none. *)
Definition stop_ratio (ck : candidate * Z) : Q :=
  match first_step (snd ck) with
  | Ok (n1, r1) => if (0 <? n1)%Z then r1 else col9 (fst ck)
  | _ => col9 (fst ck)
  end.

(** The line of the new [.void] file of a seed that keeps its own zone
    only: the seed, a count of 0 and the stop ratio.  (When the line has
    no merge step its own count, which is then 0, is kept.) *)
Definition seed_line (ck : candidate * Z) : list token :=
  match getitem hierarchy (snd ck), first_step (snd ck) with
  | Ok voidline, Ok (n1, r1) =>
      if (0 <? n1)%Z then slice_to voidline 1 ++ [TInt 0; TFloat r1]
      else slice_to voidline (1 + n1 + 1) ++ [TFloat (col9 (fst ck))]
  | _, _ => []
  end.

(** The row of [_list.txt] of a seed that keeps its own zone only. *)
Definition seed_row (ck : candidate * Z) : list_row :=
  let c := fst ck in
  ListRow (vid_of c) (to_int (col2 c)) (col3 c) (to_int (col5 c)) 1 (numpart_of c)
          (col4 c * meanvol_trc)
          (if Qltb (inject_Z (10 ^ 20)) (stop_ratio ck) then - (1) else stop_ratio ck).

(** The edge flag the method gives a seed: 1 when a candidate whose zone is
    named by the first merge step of the seed's line has edge flag 1. *)
Definition neighbour_edge_flag (ck : candidate * Z) : Z :=
  if existsb (fun c => contains (vid_of c) (first_step_zones (snd ck)) && (edge_of c =? 1)%Z)
             voidsread
  then 1%Z else 0%Z.

(** The edge flag as the specification words it: 1 when a candidate whose
    zone is in the absorbed set [zones] has edge flag 1. *)
Definition spec_edge_flag (zones : list Z) : Z :=
  if existsb (fun c => contains (vid_of c) zones && (edge_of c =? 1)%Z) voidsread
  then 1%Z else 0%Z.

End Prune.

(** The method from the loaded files: [listfile] is the list file in file
    order, [voidfile] the lines of the hierarchy file, the first being the
    count.  The particle files are taken as read: the checks of their
    headers against [num_tracers] are not modelled.

    [np.loadtxt] squeezes what it reads: a list file of a single row comes
    back as a one-dimensional array, and one without rows as an empty
    one-dimensional array, on which [voidsread[:, 3]] of line 827 raises
    [IndexError]. *)
Definition postprocess_voids (pol : policy) (min_dens_cut : Q) (void_min_num : Z)
    (meanvol_trc : Q) (listfile : list candidate) (voidfile : list (list token))
    (zonedata : list Z) (vols densities : list Q) : result out_state :=
  if (length listfile <? 2)%nat then Raise IndexError
  else
  let sorted_order := argsort (map col3 listfile) in
  voidsread <- mapM (getitem listfile) sorted_order ;;
  let num_voids := Z.of_nat (length voidsread) in
  first <- getitem voidfile 0 ;;
  nvoids <- match first with
            | [t] => int_of t
            | _ => Raise ValueError
            end ;;
  if negb (nvoids =? num_voids)%Z then Raise SystemExit
  else
    prune pol min_dens_cut void_min_num meanvol_trc voidsread (tl voidfile)
          zonedata vols densities (combine voidsread sorted_order) initial.

End Voids.


(* ================================================================== *)
(** * Writing the catalogue of clusters: [np.savetxt] and its formats *)

Module Clusters.

(** The formats of the two [np.savetxt] calls that close
    [postprocess_clusters], lines 1581 and 1586. *)
Definition fmt_box : string :=
  "%d %0.6f %0.6f %0.6f %0.6f %0.6f %0.6f %0.6f %0.6f %d %d".

Definition fmt_survey : string :=
  "%d %0.6f %0.6f %0.6f %0.6f %0.6f %0.6f %0.6f %0.6f %0.6f %d".

(** [fmt.count('%')] *)
Fixpoint count_percent (fmt : string) : nat :=
  match fmt with
  | EmptyString => O
  | String c r => ((if Ascii.eqb c "%" then 1 else 0) + count_percent r)%nat
  end.

(** numpy's [savetxt] on a two-dimensional array, as far as its check of a
    format given as one string goes: a single specifier is used for every
    column, otherwise the number of specifiers must be the number of
    columns ("fmt has wrong number of % formats").  The text written is
    not modelled. *)
Definition savetxt (X : Np.array2 Q) (fmt : string) : result unit :=
  let ncol := Np.ncols X in
  let n_fmt_chars := count_percent fmt in
  if (n_fmt_chars =? 1)%nat then Ok tt
  else if negb (n_fmt_chars =? ncol)%nat then Raise ValueError
  else Ok tt.

End Clusters.


(* ================================================================== *)
(** * Survey mode in [__init__]: the redshift cut and the buffer mocks *)

Module Survey.

(** [t[mask, :]] for a mask with one entry per row. *)
Definition take_rows {A : Type} (mask : list bool) (t : Np.array2 A) : result (Np.array2 A) :=
  if (length mask =? Np.nrows t)%nat then
    Ok (Np.Array2 (length (filter (fun m : bool => m) mask))
                  (map (Voids.select mask) (Np.columns t)))
  else Raise IndexError.

(** Lines 116-119: the galaxies are cut to the redshift limits when one of
    them lies outside. *)
Definition redshift_cut (z_min z_max : Q) (tracers : Np.array2 Q) : result (Np.array2 Q) :=
  z <- Np.col tracers 5 ;;
  lo <- np_min z ;;
  outside <- (if Qltb lo z_min then Ok true
              else hi <- np_max z ;; Ok (Qltb z_max hi)) ;;
  if outside then
    take_rows (map (fun x => Qltb z_min x && Qltb x z_max) z) tracers
  else Ok tracers.

(** [np.vstack([a, b])] *)
Definition vstack {A : Type} (a b : Np.array2 A) : result (Np.array2 A) :=
  if (Np.ncols a =? Np.ncols b)%nat then
    Ok (Np.Array2 (Np.nrows a + Np.nrows b)
                  (map (fun cc : list A * list A => fst cc ++ snd cc)
                       (combine (Np.columns a) (Np.columns b))))
  else Raise ValueError.

(** [t[:, :3] += s] *)
Definition shift_positions (s : Q) (t : Np.array2 Q) : Np.array2 Q :=
  Np.Array2 (Np.nrows t)
            (map (map (fun x => x + s)) (firstn 3 (Np.columns t)) ++ skipn 3 (Np.columns t)).

(** Lines 186-198, for a file of mocks computed earlier: the side of the
    box is taken from the mocks, they are joined to the galaxies, and all
    positions are moved from observer to box coordinates.  The result is
    [(self.box_length, self.tracers)]. *)
Definition attach_mocks (tracers buffers : Np.array2 Q) : result (Q * Np.array2 Q) :=
  box_length <- Buffers.box_length_of buffers ;;
  all <- vstack tracers buffers ;;
  Ok (box_length, shift_positions ((1 # 2) * box_length) all).

End Survey.

(* ================================================================== *)
(** * Volume weights: [zobov_wrapper], survey mode, steps 2 to 7 *)

Module VolumeWeights.

Import Reweight.

(** [a[mask]]: the mask must have the length of [a]. *)
Definition bool_index {A : Type} (mask : list bool) (a : list A) : result (list A) :=
  if (length mask =? length a)%nat then Ok (Voids.select mask a)
  else Raise IndexError.

(** The entries of [a] under the mask multiplied, in order, by [factors]. *)
Fixpoint scatter_mul (mask : list bool) (a factors : list Q) : list Q :=
  match mask, a with
  | m :: mask', x :: a' =>
      if m then
        match factors with
        | f :: fs => x * f :: scatter_mul mask' a' fs
        | [] => x :: scatter_mul mask' a' []
        end
      else x :: scatter_mul mask' a' factors
  | _, _ => a
  end.

(** [a[mask] *= factors]: one factor for each selected entry, or a single
    factor for all of them. *)
Definition imul_masked (mask : list bool) (a factors : list Q) : result (list Q) :=
  if negb (length mask =? length a)%nat then Raise IndexError
  else
    let k := length (filter (fun m : bool => m) mask) in
    if (length factors =? k)%nat then Ok (scatter_mul mask a factors)
    else
      match factors with
      | [f] => Ok (scatter_mul mask a (repeat f k))
      | _ => Raise ValueError
      end.

(** [0.9e30], the volume the cluster finder is given for an edge cell. *)
Definition edge_volume : Q := inject_Z (9 * 10 ^ 29).

(** [modvols[edgemask] = 0.9e30] *)
Definition fill_edges (edgemask : list bool) (modvols : list Q) : result (list Q) :=
  if negb (length edgemask =? length modvols)%nat then Raise IndexError
  else Ok (map (fun ev : bool * Q => if fst ev then edge_volume else snd ev)
               (combine edgemask modvols)).

(** What the steps leave: the volumes written to [.vol], those written to
    [c.vol] when clusters are looked for, and [self.num_non_edge]. *)
Record weighted : Type := Weighted {
  vol_file : list Q;
  cvol_file : option (list Q);
  num_non_edge : Z
}.

Section Survey.

(** The selection function after smoothing and interpolation (line 717). *)
Variable selfn : Q -> Q.

Variables use_z_wts use_ang_wts find_clusters : bool.
Variable num_tracers : Z.

(** Step 3, lines 709-723.  The smoothing grid runs from the smallest to
    the largest redshift, so there must be one. *)
Definition z_weights (redshifts : list Q) (edgemask : list bool) (modvols : list Q)
  : result (list Q) :=
  if use_z_wts then
    _ <- np_min redshifts ;;
    _ <- np_max redshifts ;;
    zs <- bool_index (map negb edgemask) redshifts ;;
    modvols <- imul_masked (map negb edgemask) modvols (map selfn zs) ;;
    if any_zero_non_edge edgemask modvols then Raise SystemExit
    else Ok modvols
  else Ok modvols.

(** Step 4, lines 726-737; [mask_at ra dec] is the value of the survey mask
    at the pixel of that sky position. *)
Variable mask_at : Q -> Q -> Q.

Definition ang_weights (ra dec : list Q) (edgemask : list bool) (modvols : list Q)
  : result (list Q) :=
  if use_ang_wts then
    let modfactors := map (fun rd : Q * Q => mask_at (fst rd) (snd rd)) (combine ra dec) in
    ws <- bool_index (map negb edgemask) modfactors ;;
    modvols <- imul_masked (map negb edgemask) modvols ws ;;
    if any_zero_non_edge edgemask modvols then Raise SystemExit
    else Ok modvols
  else Ok modvols.

(** Steps 2 to 7, lines 700-753.  [tracers] is [self.tracers]; the volumes
    are those read from [.vol] in step 1. *)
Definition reweight (tracer_dens box_length : Q) (num_part_total : Z)
    (tracers : Np.array2 Q) (modvols : list Q) : result weighted :=
  let edgemask := edgemask_of modvols in
  modvols <- renormalize tracer_dens box_length num_part_total modvols ;;
  modvols <-
    (if use_z_wts then
       z <- Np.col tracers 5 ;;
       z_weights (slice_to z num_tracers) edgemask modvols
     else Ok modvols) ;;
  modvols <-
    (if use_ang_wts then
       ra <- Np.col tracers 3 ;;
       dec <- Np.col tracers 4 ;;
       ang_weights (slice_to ra num_tracers) (slice_to dec num_tracers) edgemask modvols
     else Ok modvols) ;;
  cvol <-
    (if find_clusters then
       c <- fill_edges edgemask modvols ;;
       Ok (Some c)
     else Ok None) ;;
  Ok (Weighted modvols cvol
        (num_tracers - Z.of_nat (length (filter (fun e : bool => e) edgemask)))).

End Survey.

End VolumeWeights.

(* ================================================================== *)
(** * The files [postprocess_voids] writes, read back *)

Module VoidFiles.

Import Voids.

(** What [np.loadtxt] and [np.savetxt] handle: an array of one or of two
    dimensions. *)
Inductive ndarray : Type :=
| Arr1 (v : list Q)
| Arr2 (t : Np.array2 Q).

Section ListFile.

(** A float written with [%f] and read back: the value to six decimals. *)
Variable printed : Q -> Q.

(** The eight fields of a row of the new [_list.txt], as they are read. *)
Definition fields (r : list_row) : list Q :=
  [inject_Z (VoidID r); inject_Z (CoreParticle r); printed (CoreDens r);
   inject_Z (ZoneNumParts r); inject_Z (VoidNumZones r); inject_Z (VoidNumParts r);
   printed (VoidVol r); printed (VoidDensRatio r)].

(** [np.loadtxt(new_list_file)]: one row of the array for each line.  The
    result is squeezed: a file of one line gives the one-dimensional array
    of its eight fields, and an empty file an empty one-dimensional array. *)
Definition loadtxt (rows : list list_row) : ndarray :=
  match rows with
  | [] => Arr1 []
  | [r] => Arr1 (fields r)
  | _ =>
      Arr2 (Np.Array2 (length rows)
              (map (fun j => map (fun r => nth j (fields r) 0) rows) (seq 0 8)))
  end.

(** The format of line 972. *)
Definition list_fmt : string := "%d %d %0.6f %d %d %d %0.6f %0.6f".

(** [np.savetxt] writes a one-dimensional array as a single column. *)
Definition savetxt (X : ndarray) (fmt : string) : result unit :=
  match X with
  | Arr1 v => Clusters.savetxt (Np.Array2 (length v) [v]) fmt
  | Arr2 t => Clusters.savetxt t fmt
  end.

(** Lines 969-972: the list file is loaded and written again under its header. *)
Definition rewrite_list_file (rows : list list_row) : result ndarray :=
  let listdata := loadtxt rows in
  _ <- savetxt listdata list_fmt ;;
  Ok listdata.

(** Lines 824-972: the loop over the candidates, then the list file. *)
Definition postprocess_voids_files (pol : policy) (min_dens_cut : Q) (void_min_num : Z)
    (meanvol_trc : Q) (listfile : list candidate) (voidfile : list (list token))
    (zonedata : list Z) (vols densities : list Q) : result (out_state * ndarray) :=
  st <- postprocess_voids pol min_dens_cut void_min_num meanvol_trc listfile voidfile
          zonedata vols densities ;;
  listdata <- rewrite_list_file (Fnewlist st) ;;
  Ok (st, listdata).

End ListFile.

(** The [while add_zones] loop of [find_void_barycentres] (lines 1227-1232)
    and of [postprocess_clusters] (lines 1534-1539), entered with
    [add_zones] true and unrolled at most [fuel] times. *)
Fixpoint add_zones (fuel : nat) (structline : list token) (pos : Z) (member_zones : list Z)
  : result (list Z) :=
  match fuel with
  | O => OutOfFuel
  | S f =>
      tn <- getitem structline pos ;;
      num_zones_to_add <- int_of tn ;;
      zonestoadd <- mapM int_of (slice structline (pos + 2) (pos + num_zones_to_add + 2)) ;;
      let member_zones := member_zones ++ zonestoadd in
      let pos := (pos + num_zones_to_add + 2)%Z in
      tn <- getitem structline pos ;;
      n <- int_of tn ;;
      if (0 <? n)%Z then add_zones f structline pos member_zones
      else Ok member_zones
  end.

(** Lines 1223-1232: the member zones of a structure, from its line of the
    new [.void] file. *)
Definition member_zones (structline : list token) : result (list Z) :=
  t1 <- getitem structline 1 ;;
  n1 <- int_of t1 ;;
  t0 <- getitem structline 0 ;;
  z0 <- int_of t0 ;;
  if (0 <? n1)%Z then add_zones (length structline) structline 1 [z0]
  else Ok [z0].

End VoidFiles.

(* ================================================================== *)
(** * Watershed pruning of clusters: [postprocess_clusters] *)

Module ClusterPrune.

Import Voids.

(** The parameters hard-coded at the top of the method; the field
    [count_all_voids] stands for [count_all_clusters]. *)
Definition hard_coded : policy := Policy true false 2 false 1 true false 1.

Section Prune.

Variable pol : policy.
Variable max_dens_cut : Q.               (* [self.max_dens_cut] *)
Variable cluster_min_num : Z.            (* [self.cluster_min_num] *)
Variable meanvol_trc : Q.
Variable clustersread : list candidate.  (* the list file, sorted by core density *)
Variable hierarchy : list (list token).
Variable zonedata : list Z.
Variable vols : list Q.
Variable densities : list Q.

(** The correction of lines 1351-1354. *)
Definition strip_threshold : Q :=
  if use_stripping pol
     && (Qltb max_dens_cut (strip_density_threshold pol)
         || Qltb (link_density_threshold pol) (strip_density_threshold pol))
  then qmax max_dens_cut (link_density_threshold pol)
  else strip_density_threshold pol.

(** The test of lines 1452-1453. *)
Definition cannot_add (dens : Q) (rsublist : list Q) : result bool :=
  if dont_merge pol then Ok true
  else if use_link_density_threshold pol && Qltb dens (link_density_threshold pol) then Ok true
  else if use_r_threshold pol then
    m <- np_max rsublist ;;
    Ok (Qltb (r_threshold pol) m)
  else Ok false.

(** One turn of the [while] loop, lines 1447-1468.  (A ratio [rval] of
    zero, for which numpy gives an infinite density, is outside the
    model.) *)
Definition merge_turn (clustline : list token) (coredens : Q) (l : locals) : result locals :=
  let n := num_zones_to_add l in
  zs <- mapM int_of (slice clustline (pos l + 2) (pos l + n + 2)) ;;
  let dens := coredens / rval l in
  let rsublist := select (in1d (vid clustersread) zs) (rlist clustersread) in
  let volsublist := select (in1d (vid clustersread) zs) (vollist clustersread) in
  let partsublist := select (in1d (vid clustersread) zs) (numpartlist clustersread) in
  stop <- cannot_add dens rsublist ;;
  let pos' := (pos l + n + 2)%Z in
  tn <- getitem clustline pos' ;;
  n' <- int_of tn ;;
  tr <- getitem clustline (pos' + 1) ;;
  rval' <- float_of tr ;;
  if stop then
    Ok (Locals pos' n' (finalpos l - (n + 1)) rval' (rval l) (num_adds l) false
               (zonelist l) (total_vol l) (total_num_parts l) zs)
  else
    Ok (Locals pos' n' (pos' + n' + 1) rval' (rstopadd l) (num_adds l + n) true
               (zonelist l ++ zs) (total_vol l + np_sum volsublist)
               (total_num_parts l + fold_left Z.add partsublist 0)%Z zs).

(** [while num_zones_to_add > 0 and add_more], unrolled at most [fuel] times. *)
Fixpoint while_loop (fuel : nat) (clustline : list token) (coredens : Q) (l : locals)
  : result locals :=
  if (0 <? num_zones_to_add l)%Z && add_more l then
    match fuel with
    | O => OutOfFuel
    | S f =>
        l' <- merge_turn clustline coredens l ;;
        while_loop f clustline coredens l'
    end
  else Ok l.

(** The test of lines 1437-1438. *)
Definition passes (c : candidate) (rval : Q) (counted : list Z) : bool :=
  Qle_bool 1 rval
  && Qltb max_dens_cut (col3 c)
  && (cluster_min_num <=? numpart_of c)%Z
  && (count_all_voids pol || negb (contains (vid_of c) counted)).

(** [member_ids], lines 1471-1473: the test on the density is made when
    [use_stripping] is off. *)
Definition member_ids (zones : list Z) : list bool :=
  map (fun dm : Q * bool => (use_stripping pol || Qltb strip_threshold (fst dm)) && snd dm)
      (combine densities (in1d zonedata zones)).

(** Lines 1470-1503: what an accepted seed adds to the outputs. *)
Definition record_cluster (st : out_state) (c : candidate) (clustline : list token)
    (l : locals) : out_state :=
  let ids := member_ids (zonelist l) in
  let total_vol := if use_stripping pol then np_sum (select ids vols) else total_vol l in
  let total_num_parts :=
    if use_stripping pol then Z.of_nat (length (select ids vols)) else total_num_parts l in
  let flag :=
    if contains 1 (select (in1d (vid clustersread) (zonestoadd l)) (edgelist clustersread))
    then 1%Z else 0%Z in
  let w_a_d :=
    np_sum (map (fun vd : Q * Q => fst vd * snd vd)
                (combine (select ids vols) (select ids densities)))
    / np_sum (select ids vols) in
  let newclustline :=
    slice_to clustline (finalpos l)
      ++ (if add_more l then [] else [TInt 0])
      ++ [TFloat (rstopadd l)] in
  let rstop := if Qltb (inject_Z (10 ^ 20)) (rstopadd l) then - (1) else rstopadd l in
  OutState (counted_zones st ++ zonelist l)
           (edge_flag st ++ [flag])
           (wtd_avg_dens st ++ [w_a_d])
           (num__acc st + 1)
           (Fnewvoid st ++ [newclustline])
           (Fnewlist st ++ [ListRow (vid_of c) (to_int (col2 c)) (col3 c) (to_int (col5 c))
                                    (num_adds l + 1) total_num_parts
                                    (total_vol * meanvol_trc) rstop])
           (members st ++ [zonelist l]).

(** The body of [for i in range(num_clusters)]. *)
Definition candidate_step (st : out_state) (ck : candidate * Z) : result out_state :=
  let c := fst ck in
  let coredens := col3 c in
  clustline <- getitem hierarchy (snd ck) ;;
  tn <- getitem clustline 1 ;;
  n <- int_of tn ;;
  tr <- getitem clustline 2 ;;
  r <- float_of tr ;;
  if passes c r (counted_zones st) then
    l <- while_loop (length clustline) clustline coredens
           (Locals 1 n (1 + n + 1) r (col9 c) 0 true
                   [vid_of c] (col4 c) (numpart_of c) []) ;;
    Ok (record_cluster st c clustline l)
  else Ok st.

Fixpoint prune (todo : list (candidate * Z)) (st : out_state) : result out_state :=
  match todo with
  | [] => Ok st
  | ck :: rest =>
      st' <- candidate_step st ck ;;
      prune rest st'
  end.

End Prune.

(** Lines 1369-1503, from the loaded files; the list is sorted by the
    inverse of the core density.  (A core density of zero, whose inverse is
    infinite for numpy, is outside the model.)  As in [postprocess_voids],
    a list file of fewer than two rows is loaded as a one-dimensional array
    and [clustersread[:, 3]] of line 1372 raises [IndexError]. *)
Definition postprocess_clusters (pol : policy) (max_dens_cut : Q) (cluster_min_num : Z)
    (meanvol_trc : Q) (listfile : list candidate) (clustfile : list (list token))
    (zonedata : list Z) (vols densities : list Q) : result out_state :=
  if (length listfile <? 2)%nat then Raise IndexError
  else
  let sorted_order := argsort (map (fun c => 1 / col3 c) listfile) in
  clustersread <- mapM (getitem listfile) sorted_order ;;
  let num_clusters := Z.of_nat (length clustersread) in
  first <- getitem clustfile 0 ;;
  nclusters <- match first with
               | [t] => int_of t
               | _ => Raise ValueError
               end ;;
  if negb (nclusters =? num_clusters)%Z then Raise SystemExit
  else
    prune pol max_dens_cut cluster_min_num meanvol_trc clustersread (tl clustfile)
          zonedata vols densities (combine clustersread sorted_order) initial.

End ClusterPrune.

(* ================================================================== *)
(** * The catalogue of clusters: the end of [postprocess_clusters] *)

Module ClusterCatalogue.

Import Voids VoidFiles.

(** [np.pi], the float next to the number. *)
Definition np_pi : Q := 884279719003555 # 281474976710656.

(** [a[i, j]] on what [np.loadtxt] returned; an array of one dimension has
    no second index. *)
Definition at2 (a : ndarray) (i : Z) (j : nat) : result Q :=
  match a with
  | Arr1 _ => Raise IndexError
  | Arr2 t => c <- Np.col t j ;; getitem c i
  end.

(** [t[k]], a row of a two-dimensional array; a negative index counts from
    the last row. *)
Definition row (t : Np.array2 Q) (k : Z) : result (list Q) :=
  let n := Z.of_nat (Np.nrows t) in
  let j := if (k <? 0)%Z then (k + n)%Z else k in
  if (j <? 0)%Z || (n <=? j)%Z then Raise IndexError
  else Ok (map (fun c => nth (Z.to_nat j) c 0) (Np.columns t)).

(** The functions of numpy and of the cosmology that the loop calls on
    floats, taken as given. *)
Record library : Type := Library {
  pow : Q -> Q -> Q;            (* [x ** y] *)
  norm : list Q -> Q;           (* [np.linalg.norm] *)
  get_redshift : Q -> Q;        (* [self.cosmo.get_redshift] *)
  degrees : Q -> Q;             (* [np.degrees] *)
  arccos : Q -> Q;              (* [np.arccos] *)
  arctan2 : Q -> Q -> Q         (* [np.arctan2] *)
}.

Section Catalogue.

Variable printed : Q -> Q.               (* a float written with [%f] or [%0.6f], read back *)
Variable lib : library.
Variable pol : policy.
Variable strip_density_threshold : Q.    (* as corrected at the top of the method *)
Variable is_box : bool.                  (* [self.is_box] *)
Variable box_length : Q.
Variable meanvol_trc : Q.
Variable positions : Np.array2 Q.        (* [self.tracers[:self.num_tracers, :3]] *)
Variable zonedata : list Z.
Variable vols : list Q.
Variable densities : list Q.

(** Lines 1542-1545. *)
Definition member_ids (member_zones : list Z) : list bool :=
  if use_stripping pol then
    map (fun dm : Q * bool => Qltb strip_density_threshold (fst dm) && snd dm)
        (combine densities (in1d zonedata member_zones))
  else in1d zonedata member_zones.

(** Lines 1546-1558.  (Over a zero sum of volumes the weighted density is
    [nan] for numpy and 0 here.) *)
Definition cluster_vol (member_zones : list Z) : Q :=
  np_sum (select (member_ids member_zones) vols) * meanvol_trc.

Definition eff_rad (member_zones : list Z) : Q :=
  pow lib (3 * cluster_vol member_zones / (4 * np_pi)) (1 / 3).

Definition wtd_avg_dens_of (member_zones : list Z) : Q :=
  let member_vol := select (member_ids member_zones) vols in
  let member_dens := select (member_ids member_zones) densities in
  np_sum (map (fun dv : Q * Q => fst dv * snd dv) (combine member_dens member_vol))
  / np_sum member_vol.

(** The body of the loop of lines 1528-1575 for the cluster [i], whose line
    of the new [.void] file is [structline]: the list assigned to
    [info_output[i]]. *)
Definition info_row (list_array : ndarray) (edge_flag : list Z) (structline : list token)
    (i : Z) : result (list Q) :=
  zones <- member_zones structline ;;
  core <- at2 list_array i 1 ;;
  centre <- row positions (to_int core) ;;
  let eff_rad := eff_rad zones in
  let wtd_avg_dens := wtd_avg_dens_of zones in
  if is_box then
    id <- at2 list_array i 0 ;;
    x <- getitem centre 0 ;;
    y <- getitem centre 1 ;;
    z <- getitem centre 2 ;;
    dens <- at2 list_array i 2 ;;
    ratio <- at2 list_array i 7 ;;
    Ok [id; x; y; z; eff_rad; dens; wtd_avg_dens;
        (wtd_avg_dens - 1) * pow lib eff_rad (16 # 10); ratio]
  else
    let centre_obs := map (fun c => c - box_length / 2) centre in
    let rdist := norm lib centre_obs in
    let centre_redshift := get_redshift lib rdist in
    c2 <- getitem centre_obs 2 ;;
    let centre_dec := 90 - degrees lib (arccos lib (c2 / rdist)) in
    c1 <- getitem centre_obs 1 ;;
    c0 <- getitem centre_obs 0 ;;
    let centre_ra := degrees lib (arctan2 lib c1 c0) in
    let centre_ra := if Qltb centre_ra 0 then centre_ra + 360 else centre_ra in
    let eff_ang_rad := degrees lib (eff_rad / rdist) in
    id <- at2 list_array i 0 ;;
    dens <- at2 list_array i 2 ;;
    ratio <- at2 list_array i 7 ;;
    flag <- getitem edge_flag i ;;
    Ok [id; centre_ra; centre_dec; centre_redshift; eff_rad; dens; wtd_avg_dens;
        (wtd_avg_dens - 1) * pow lib eff_rad (16 # 10); ratio; eff_ang_rad; inject_Z flag].

(** [for i in range(num__acc): ... info_output[i] = [...]].  The lines are
    read one after the other from the new [.void] file; past its end
    [readline] gives an empty line. *)
Fixpoint fill (list_array : ndarray) (edge_flag : list Z) (lines : list (list token))
    (todo : list nat) (info_output : Np.array2 Q) : result (Np.array2 Q) :=
  match todo with
  | [] => Ok info_output
  | i :: rest =>
      r <- info_row list_array edge_flag (nth i lines []) (Z.of_nat i) ;;
      info_output' <- Np.set_row info_output i r ;;
      fill list_array edge_flag lines rest info_output'
  end.

(** Lines 1521-1575: the list file is loaded again, the array is allocated
    with 9 columns in box mode and 11 in survey mode, and filled.  The
    floats of the list file have by now been written and read twice. *)
Definition catalogue_rows (st : out_state) : result (Np.array2 Q) :=
  let list_array := loadtxt (fun q => printed (printed q)) (Fnewlist st) in
  let n := Z.to_nat (num__acc st) in
  fill list_array (edge_flag st) (Fnewvoid st) (seq 0 n)
       (Np.full 0 n (if is_box then 9 else 11)%nat).

(** Lines 1505-1587, from what the loop over the candidates has left: the
    list file is loaded and written again under its header (lines
    1514-1518, the statements of lines 969-972), the rows of the catalogue
    are computed, and the catalogue is written. *)
Definition write_catalogue (st : out_state) : result unit :=
  _ <- rewrite_list_file printed (Fnewlist st) ;;
  info_output <- catalogue_rows st ;;
  Clusters.savetxt info_output (if is_box then Clusters.fmt_box else Clusters.fmt_survey).

End Catalogue.

(** The method from the loaded files, lines 1369-1587. *)
Definition postprocess_clusters_files (printed : Q -> Q) (lib : library) (pol : policy)
    (is_box : bool) (box_length : Q) (positions : Np.array2 Q) (max_dens_cut : Q)
    (cluster_min_num : Z) (meanvol_trc : Q) (listfile : list candidate)
    (clustfile : list (list token)) (zonedata : list Z) (vols densities : list Q)
  : result unit :=
  st <- ClusterPrune.postprocess_clusters pol max_dens_cut cluster_min_num meanvol_trc
          listfile clustfile zonedata vols densities ;;
  write_catalogue printed lib pol (ClusterPrune.strip_threshold pol max_dens_cut) is_box
                  box_length meanvol_trc positions zonedata vols densities st.

(** ** What the properties are stated with *)

(** A line of the hierarchy starts as the tessellator writes it: the zone,
    an integer, and a count of zones that is not negative. *)
Definition starts_well (line : list token) : bool :=
  match line with
  | TInt _ :: TInt n :: _ => (0 <=? n)%Z
  | _ => false
  end.

End ClusterCatalogue.

(* ================================================================== *)
(** * Void centres: [find_void_circumcentres] and [find_void_barycentres] *)

Module Centres.

(** [np.sign] *)
Definition sign (x : Q) : Q :=
  if Qltb x 0 then - (1) else if Qltb 0 x then 1 else 0.

(** [np.copysign(a, b)]: the size of [a] with the sign of [b]. *)
Definition copysign (a b : Q) : Q :=
  if Qltb b 0 then - Qabs a else Qabs a.

(** Lines 1102-1107 and 1266-1271, one coordinate:
    [if c < 0 or c > box_length: c -= box_length * np.sign(c)]. *)
Definition wrap_centre (box_length c : Q) : Q :=
  if Qltb c 0 || Qltb box_length c then c - box_length * sign c else c.

(** Lines 1081-1089, one coordinate of one vertex; [v0] is the coordinate
    of the core particle, the first vertex. *)
Definition shift_vertex (box_length v0 v : Q) : Q :=
  if Qltb (box_length / 2) (Qabs (v0 - v)) then v + box_length * sign (v0 - v) else v.

(** Lines 1247-1256, one coordinate of one member particle, given
    relative to the core particle: the entry of [shift_vec] is added. *)
Definition shift_member (box_length m : Q) : Q :=
  m + (if Qltb (box_length / 2) (Qabs m) then - copysign box_length m else 0).

(** ** The barycentre *)

(** Lines 1239-1271 for one of the three coordinates: [pos] is that column
    of [positions], [core] the core particle [int(list_array[i, 1])].  (A
    sum of volumes of zero, for which numpy gives [nan], is outside the
    model.) *)
Definition barycentre_coord (is_box : bool) (box_length : Q) (member_ids : list bool)
    (pos vols : list Q) (core : Z) : result Q :=
  xs <- VolumeWeights.bool_index member_ids pos ;;
  x0 <- getitem pos core ;;
  let member_x := map (fun x => x - x0) xs in
  member_vols <- VolumeWeights.bool_index member_ids vols ;;
  let member_x := if is_box then map (shift_member box_length) member_x else member_x in
  let centre :=
    np_sum (map (fun mv : Q * Q => fst mv * snd mv / np_sum member_vols)
                (combine member_x member_vols)) + x0 in
  Ok (if is_box then wrap_centre box_length centre else centre).

(** ** The vertices of the circumcentre *)

(** [np.argmin]: the first index of the smallest entry. *)
Fixpoint argmin_from (l : list Q) (i : nat) (best : Q) (best_i : nat) : nat :=
  match l with
  | [] => best_i
  | x :: r => if Qltb x best then argmin_from r (S i) x i else argmin_from r (S i) best best_i
  end.

Definition argmin (l : list Q) : result nat :=
  match l with
  | [] => Raise ValueError
  | x :: r => Ok (argmin_from r 1 x 0)
  end.

(** [a[idx]] for a list of indices. *)
Definition take {A : Type} (a : list A) (idx : list Z) : result (list A) :=
  mapM (getitem a) idx.

(** [np.unique]: the values in ascending order, each once. *)
Fixpoint insert_sorted (x : Z) (l : list Z) : list Z :=
  match l with
  | [] => [x]
  | y :: r =>
      if (x <? y)%Z then x :: l
      else if (x =? y)%Z then l
      else y :: insert_sorted x r
  end.

Definition unique (l : list Z) : list Z := fold_right insert_sorted [] l.

(** [np.intersect1d]: the values found in both, in ascending order, each once. *)
Definition intersect1d (a b : list Z) : list Z :=
  filter (fun x => contains x b) (unique a).

(** The outcome of lines 1054-1072: the three neighbours, or none when the
    core particle has no two neighbours adjacent to each other. *)
Inductive tetrahedron : Type :=
| Degenerate
| Vertices (first_nbr second_nbr third_nbr : Z).

Definition select_vertices (partadjs : list (list Z)) (densities : list Q) (core : Z)
  : result tetrahedron :=
  coreadjs <- getitem partadjs core ;;
  adj_dens <- take densities coreadjs ;;
  k <- argmin adj_dens ;;
  first_nbr <- getitem coreadjs (Z.of_nat k) ;;
  adjs1 <- getitem partadjs first_nbr ;;
  let mutualadjs := intersect1d coreadjs adjs1 in
  if (length mutualadjs =? 0)%nat then Ok Degenerate
  else
    mutualadj_dens <- take densities mutualadjs ;;
    k <- argmin mutualadj_dens ;;
    second_nbr <- getitem mutualadjs (Z.of_nat k) ;;
    adjs2 <- getitem partadjs second_nbr ;;
    let finaladjs := intersect1d mutualadjs adjs2 in
    if (length finaladjs =? 0)%nat then Ok Degenerate
    else
      finaladj_dens <- take densities finaladjs ;;
      k <- argmin finaladj_dens ;;
      third_nbr <- getitem finaladjs (Z.of_nat k) ;;
      Ok (Vertices first_nbr second_nbr third_nbr).

(** ** The circumcentre *)

(** A position, and the array [circumcentre] with its element type:
    [np.empty(3)] holds floats, [np.asarray([0, 0, 0])] integers. *)
Definition point : Type := (Q * Q * Q)%type.

Inductive dtype : Type := Float64 | Int64.

Record centre_array : Type := CentreArray {
  dt : dtype;
  coords : point
}.

(** A value stored in an array of type [d]: an integer array keeps the
    integer part. *)
Definition cast (d : dtype) (x : Q) : Q :=
  match d with
  | Float64 => x
  | Int64 => inject_Z (to_int x)
  end.

(** [circumcentre[:] = p] *)
Definition assign (a : centre_array) (p : point) : centre_array :=
  let '(x, y, z) := p in
  CentreArray (dt a) (cast (dt a) x, cast (dt a) y, cast (dt a) z).

(** The three tests of lines 1102-1107. *)
Definition wrap_array (box_length : Q) (a : centre_array) : centre_array :=
  let '(x, y, z) := coords a in
  let w := fun c =>
    if Qltb c 0 || Qltb box_length c then cast (dt a) (c - box_length * sign c) else c in
  CentreArray (dt a) (w x, w y, w z).

(** Lines 1081-1089 on the four vertices. *)
Definition adjust_vertices (box_length : Q) (vs : list point) : list point :=
  match vs with
  | [] => []
  | (x0, y0, z0) :: _ =>
      map (fun v : point =>
             let '(x, y, z) := v in
             (shift_vertex box_length x0 x, shift_vertex box_length y0 y,
              shift_vertex box_length z0 z))
          vs
  end.

Section Circumcentres.

(** [np.dot(bary_coords, vertex_pos)] for the solution of the linear
    system of lines 1093-1097. *)
Variable circumcentre_of : list point -> point.

Variable is_box : bool.
Variable box_length : Q.
Variable positions : list point.      (* [self.tracers[:self.num_tracers, :3]] *)
Variable partadjs : list (list Z).
Variable densities : list Q.

(** The body of the loop, lines 1054-1107, for the core particle [core]:
    the array [circumcentre] it leaves, and whether the void was flagged
    ([edge_flag[i] = 2]). *)
Definition void_centre (circumcentre : centre_array) (core : Z)
  : result (centre_array * bool) :=
  sel <- select_vertices partadjs densities core ;;
  found <-
    match sel with
    | Degenerate => Ok (CentreArray Int64 (0, 0, 0), true)
    | Vertices first_nbr second_nbr third_nbr =>
        p0 <- getitem positions core ;;
        p1 <- getitem positions first_nbr ;;
        p2 <- getitem positions second_nbr ;;
        p3 <- getitem positions third_nbr ;;
        let vertex_pos := [p0; p1; p2; p3] in
        let vertex_pos := if is_box then adjust_vertices box_length vertex_pos
                          else vertex_pos in
        Ok (assign circumcentre (circumcentre_of vertex_pos), false)
    end ;;
  Ok (if is_box then wrap_array box_length (fst found) else fst found, snd found).

(** [for i in range(num_struct)], as far as the centres go. *)
Fixpoint void_centres (circumcentre : centre_array) (coreparts : list Z)
  : result (list (centre_array * bool)) :=
  match coreparts with
  | [] => Ok []
  | core :: rest =>
      r <- void_centre circumcentre core ;;
      rs <- void_centres (fst r) rest ;;
      Ok (r :: rs)
  end.

End Circumcentres.

(** ** What the properties are stated with *)

(** A position inside the box. *)
Definition in_box (box_length : Q) (p : point) : Prop :=
  let '(x, y, z) := p in
  0 <= x <= box_length /\ 0 <= y <= box_length /\ 0 <= z <= box_length.

(** Two positions at most [h] apart along each axis. *)
Definition within (h : Q) (p q : point) : Prop :=
  let '(x, y, z) := p in
  let '(x', y', z') := q in
  Qabs (x - x') <= h /\ Qabs (y - y') <= h /\ Qabs (z - z') <= h.

(** [w] is [v] or its periodic image one box length away. *)
Definition image_of (box_length v w : Q) : Prop :=
  w == v \/ w == v + box_length \/ w == v - box_length.

Definition periodic_image (box_length : Q) (p q : point) : Prop :=
  let '(x, y, z) := p in
  let '(x', y', z') := q in
  image_of box_length x x' /\ image_of box_length y y' /\ image_of box_length z z'.

(** A whole number, and a position of whole numbers. *)
Definition whole (q : Q) : Prop := exists n : Z, q = inject_Z n.

Definition whole_point (p : point) : Prop :=
  let '(x, y, z) := p in whole x /\ whole y /\ whole z.

End Centres.

(* ================================================================== *)
(** * The adjacencies: [find_void_circumcentres], lines 1019-1043 *)

Module Adjacency.

(** [l[a:b] = v] on a Python list. *)
Definition set_slice {A : Type} (l : list A) (a b : Z) (v : list A) : list A :=
  let n := Z.of_nat (length l) in
  let a' := bound n a in
  let b' := Z.max a' (bound n b) in
  firstn (Z.to_nat a') l ++ v ++ skipn (Z.to_nat b') l.

(** [l[i] = x], on a list or an array: a negative index counts from the
    end. *)
Definition setitem {A : Type} (l : list A) (i : Z) (x : A) : result (list A) :=
  let n := Z.of_nat (length l) in
  let j := if (i <? 0)%Z then (i + n)%Z else i in
  if (j <? 0)%Z || (n <=? j)%Z then Raise IndexError
  else Ok (Np.list_set (Z.to_nat j) x l).

(** [for index in adjpartnumbers: partadjs[index].append(i)] *)
Fixpoint append_each (i : Z) (adjpartnumbers : list Z) (partadjs : list (list Z))
  : result (list (list Z)) :=
  match adjpartnumbers with
  | [] => Ok partadjs
  | index :: rest =>
      own <- getitem partadjs index ;;
      partadjs <- setitem partadjs index (own ++ [i]) ;;
      append_each i rest partadjs
  end.

(** [a[idx] = vals], entry by entry. *)
Fixpoint store_each (idx : list Z) (vals : list Z) (a : list Z) : result (list Z) :=
  match idx, vals with
  | i :: idx', v :: vals' =>
      a <- setitem a i v ;;
      store_each idx' vals' a
  | _, _ => Ok a
  end.

(** [partadjcount[adjpartnumbers] += 1] on an array of 32-bit integers: the
    entries are read, one is added to each, and the sums are stored; an
    index that comes twice is counted once. *)
Definition increment_at (adjpartnumbers : list Z) (partadjcount : list Z) : result (list Z) :=
  vals <- Centres.take partadjcount adjpartnumbers ;;
  store_each adjpartnumbers (map (fun v => TracerStore.int32_wrap (v + 1)) vals) partadjcount.

(** What the two reads of a turn of the loop return: the count
    [numtomatch] and the particle numbers [adjpartnumbers] that follow. *)
Record entry : Type := Entry {
  numtomatch : Z;
  adjpartnumbers : list Z
}.

(** The body of the loop for particle [i], lines 1029-1043. *)
Definition load_entry (i : Z) (e : entry) (st : list (list Z) * list Z)
  : result (list (list Z) * list Z) :=
  let '(partadjs, partadjcount) := st in
  if (0 <? numtomatch e)%Z then
    oldcount <- getitem partadjcount i ;;
    let newcount := (oldcount + Z.of_nat (length (adjpartnumbers e)))%Z in
    partadjcount <- setitem partadjcount i (TracerStore.int32_wrap newcount) ;;
    own <- getitem partadjs i ;;
    partadjs <- setitem partadjs i (set_slice own oldcount newcount (adjpartnumbers e)) ;;
    partadjs <- append_each i (adjpartnumbers e) partadjs ;;
    partadjcount <- increment_at (adjpartnumbers e) partadjcount ;;
    Ok (partadjs, partadjcount)
  else Ok st.

(** [for i in range(npfromadj)], from particle [i] on. *)
Fixpoint load_from (i : Z) (entries : list entry) (st : list (list Z) * list Z)
  : result (list (list Z) * list Z) :=
  match entries with
  | [] => Ok st
  | e :: rest =>
      st <- load_entry i e st ;;
      load_from (i + 1) rest st
  end.

(** Lines 1024-1043: the lists of adjacencies for [npfromadj] particles,
    from the entries read for them. *)
Definition load_adjacencies (npfromadj : nat) (entries : list entry)
  : result (list (list Z)) :=
  st <- load_from 0 entries (repeat [] npfromadj, repeat 0%Z npfromadj) ;;
  Ok (fst st).

(** The particles a file names as adjacent to particle [p], one way or the
    other: those of its own entry, and those whose entry names [p]. *)
Definition recorded (entries : list entry) (p q : nat) : Prop :=
  (exists e, nth_error entries p = Some e /\ In (Z.of_nat q) (adjpartnumbers e))
  \/ (exists e, nth_error entries q = Some e /\ In (Z.of_nat p) (adjpartnumbers e)).

(** The number of particle numbers in the file. *)
Definition adjacency_count (entries : list entry) : nat :=
  fold_right (fun e s => (length (adjpartnumbers e) + s)%nat) 0%nat entries.

(** An entry as the tessellator writes it for [n] particles: as many
    particle numbers as announced, each of them a particle, none twice. *)
Definition well_formed (n : nat) (e : entry) : Prop :=
  numtomatch e = Z.of_nat (length (adjpartnumbers e))
  /\ Forall (fun index => (0 <= index < Z.of_nat n)%Z) (adjpartnumbers e)
  /\ NoDup (adjpartnumbers e).

(** The state of the loop after the entries [done]: the lists hold what
    these entries record, one way and the other, and the counters hold
    their lengths. *)
Definition loaded (n : nat) (done : list entry) (st : list (list Z) * list Z) : Prop :=
  let '(partadjs, partadjcount) := st in
  length partadjs = n /\ length partadjcount = n
  /\ forall p, (p < n)%nat ->
       nth p partadjcount 0%Z = Z.of_nat (length (nth p partadjs []))
       /\ (length (nth p partadjs []) <= 2 * adjacency_count done)%nat
       /\ forall q, In q (nth p partadjs []) <->
            (exists e, nth_error done p = Some e /\ In q (adjpartnumbers e))
            \/ (exists i e, nth_error done i = Some e /\ q = Z.of_nat i
                            /\ In (Z.of_nat p) (adjpartnumbers e)).

End Adjacency.

(* ================================================================== *)
(** * Sample inputs *)

Module Samples.

(** A box of one tracer at (1.0, 2.0, 3.0), as the images of the floats. *)
Definition box_store : TracerStore.zobov :=
  TracerStore.Zobov true 1
    (TracerStore.Table (Np.Array2 1 [[4607182418800017408%Z]; [4611686018427387904%Z];
                                     [4613937818241073152%Z]]))
    [].

(** A survey of two particles with their six columns. *)
Definition survey_store : TracerStore.zobov :=
  TracerStore.Zobov false 2
    (TracerStore.Table (Np.Array2 2 [[1%Z; 2%Z]; [3%Z; 4%Z]; [5%Z; 6%Z];
                                     [7%Z; 8%Z]; [9%Z; 10%Z]; [11%Z; 12%Z]]))
    [].

(** A box of side 2500 with one tracer, at (2500, 7500, -3000). *)
Definition stray_tracer : Np.array2 Q := Np.Array2 1 [[2500]; [7500]; [-3000]].

(** A box of side 10 with two tracers, at (12, -1, 3) and (5, 10, 0). *)
Definition two_tracers : Np.array2 Q := Np.Array2 2 [[12; 5]; [-1; 10]; [3; 0]].

(** The distance-redshift relation of the nearby universe, in Mpc/h:
    [c z / H0] with [c / H0 = 3000]. *)
Definition hubble (z : Q) : Q := 3000 * z.

(** The float power on the base 1, the only base the samples use. *)
Definition unit_power (b e : Q) : Q := 1.

(** One tracer on the z axis at distance 100 and one cap mock at
    (60, 60, 60), which lies farther out (at distance 103.9). *)
Definition axis_tracer : Np.array2 Q :=
  Np.Array2 1 [[0]; [0]; [100]; [0]; [90]; [1 # 30]].

Definition diagonal_mock : Np.array2 Q :=
  Np.Array2 1 [[60]; [60]; [60]; [45]; [35]; [-1]].

(** Three cells: an edge cell between two ordinary ones. *)
Definition three_volumes : list Q := [2; Reweight.edge_sentinel; 1 # 2].

(** Two candidate zones.  Zone 5 is clean and would first merge with
    zone 8 at ratio 1.5; zone 8 touches the edge and has no merge step. *)
Definition zone5 : Voids.candidate :=
  Voids.Candidate 5 0 40 (1 # 5) 3 10 (3 # 2).

Definition zone8 : Voids.candidate :=
  Voids.Candidate 8 1 41 (1 # 2) 2 7 (6 # 5).

Definition listfile : list Voids.candidate := [zone5; zone8].

Definition voidfile : list (list Voids.token) :=
  [ [Voids.TInt 2];
    [Voids.TInt 5; Voids.TInt 1; Voids.TFloat (3 # 2); Voids.TInt 8;
     Voids.TInt 0; Voids.TFloat 3];
    [Voids.TInt 8; Voids.TInt 0; Voids.TFloat (6 # 5)] ].

(** The zone of each of four particles, their volumes and densities. *)
Definition zonedata : list Z := [5; 5; 8; 8]%Z.
Definition vols : list Q := [2; 1; 1; 1].
Definition densities : list Q := [1 # 5; 1 # 2; 1 # 2; 1].

(** The candidates in sorted order with the index of their line, and what
    the loop makes of them. *)
Definition todo : list (Voids.candidate * Z) := combine listfile [0%Z; 1%Z].

Definition pruned_state : Voids.out_state :=
  Eval vm_compute in
    match Voids.prune Voids.hard_coded 1 1 100 listfile (tl voidfile) zonedata vols
                      densities todo Voids.initial with
    | Ok st => st
    | _ => Voids.initial
    end.

End Samples.

(* ================================================================== *)
(** * Further sample inputs *)

Module MoreSamples.

(** Three galaxies of a survey: positions, right ascension, declination
    and redshift. *)
Definition galaxies : Np.array2 Q :=
  Np.Array2 3 [[10; 20; 30]; [1; 2; 3]; [4; 5; 6];
               [150; 160; 170]; [-5; 0; 5]; [1 # 2; 3 # 5; 13 # 20]].

(** A selection function that grows with the redshift, and a mask that is
    complete below a declination of 3 degrees and half complete above. *)
Definition selfn (z : Q) : Q := 2 * z.

Definition mask_at (ra dec : Q) : Q := if Qle_bool dec 3 then 1 else 1 # 2.

(** The volumes [Samples.three_volumes] after all the steps, with
    [tracer_dens = 1/2], [box_length = 2] and 8 particles in the box. *)
Definition weighted_volumes : VolumeWeights.weighted :=
  Eval vm_compute in
    match VolumeWeights.reweight selfn true true true 3 mask_at (1 # 2) 2 8 galaxies
                                 Samples.three_volumes with
    | Ok out => out
    | _ => VolumeWeights.Weighted [] None 0
    end.

(** A mask with a hole around right ascension 160. *)
Definition holed_mask (ra dec : Q) : Q := if Qeq_bool ra 160 then 0 else 1.

(** The galaxies cut to the redshifts between 0.43 and 0.6: the third lies
    above the limits, the second exactly on the upper one. *)
Definition cut_galaxies : Np.array2 Q :=
  Eval vm_compute in
    match Survey.redshift_cut (43 # 100) (3 # 5) galaxies with
    | Ok t => t
    | _ => galaxies
    end.

(** Two buffer mocks, as loaded from a mock file. *)
Definition mocks : Np.array2 Q :=
  Np.Array2 2 [[60; -80]; [60; 0]; [60; 100]; [45; 180]; [35; 50]; [-1; -1]].

(** A box of side 10: three particles along one axis, the first two being
    members of a void whose core particle is the first. *)
Definition barycentre_x : Q :=
  Eval vm_compute in
    match Centres.barycentre_coord true 10 [true; true; false] [1; 9; 2] [1; 1; 2] 0 with
    | Ok c => c
    | _ => 0
    end.

(** Four particles adjacent to one another, and their densities. *)
Definition tetra_adjs : list (list Z) :=
  [[1; 2; 3]; [0; 2; 3]; [0; 1; 3]; [0; 1; 2]]%Z.

Definition tetra_dens : list Q := [1 # 10; 1 # 2; 3 # 10; 2 # 5].

(** Five particles in a box of side 10.  Particle 0 has the single
    neighbour 4, so that a void with this core particle has no
    circumcentre; particles 1 to 4 are adjacent to one another. *)
Definition chain_adjs : list (list Z) :=
  [[4]; [2; 3; 4]; [1; 3; 4]; [1; 2; 4]; [0; 1; 2; 3]]%Z.

Definition chain_dens : list Q := [1 # 10; 1 # 5; 3 # 10; 2 # 5; 1 # 2].

Definition chain_positions : list Centres.point :=
  [(1, 1, 1); (2, 2, 2); (3, 2, 2); (2, 3, 2); (2, 2, 3)].

(** A solver standing for the linear system: the mean of the vertices. *)
Definition mean_vertex (vs : list Centres.point) : Centres.point :=
  let n := inject_Z (Z.of_nat (length vs)) in
  (np_sum (map (fun v : Centres.point => fst (fst v)) vs) / n,
   np_sum (map (fun v : Centres.point => snd (fst v)) vs) / n,
   np_sum (map (fun v : Centres.point => snd v) vs) / n).

(** The centres of two voids with core particles 0 and 1. *)
Definition chain_centres : list (Centres.centre_array * bool) :=
  Eval vm_compute in
    match Centres.void_centres mean_vertex true 10 chain_positions chain_adjs chain_dens
                               (Centres.CentreArray Centres.Float64 (0, 0, 0)) [0; 1]%Z with
    | Ok outs => outs
    | _ => []
    end.

(** The adjacencies of three particles adjacent to one another, each pair
    written once. *)
Definition adjacency_entries : list Adjacency.entry :=
  [Adjacency.Entry 2 [1; 2]%Z; Adjacency.Entry 1 [2]%Z; Adjacency.Entry 0 []].

(** The two zones of [Samples], looked at as cluster candidates with a
    cut on the core density at 1/10. *)
Definition pruned_clusters : Voids.out_state :=
  Eval vm_compute in
    match ClusterPrune.postprocess_clusters ClusterPrune.hard_coded (1 # 10) 1 100
            Samples.listfile Samples.voidfile Samples.zonedata Samples.vols
            Samples.densities with
    | Ok st => st
    | _ => Voids.initial
    end.

(** Four particles in two zones, looked at as cluster candidates: the
    particles 0 and 1 make up zone 5, whose core particle is 0, and the
    particles 2 and 3 zone 8, whose core particle is 2. *)
Definition cluster_listfile : list Voids.candidate :=
  [Voids.Candidate 5 0 0 (1 # 5) 3 2 (3 # 2); Voids.Candidate 8 1 2 (1 # 2) 2 2 (6 # 5)].

Definition cluster_positions : Np.array2 Q :=
  Np.Array2 4 [[1; 2; 6; 7]; [1; 1; 5; 5]; [3; 3; 4; 4]].

(** Functions standing for those of numpy and of the cosmology. *)
Definition sample_library : ClusterCatalogue.library :=
  ClusterCatalogue.Library (fun b e => b) (fun v => 1 + np_sum (map Qabs v))
                           (fun r => r / 3000) (fun x => x) (fun x => x)
                           (fun y x => y - x).

(** What the pruning leaves of the two candidates with a cut on the core
    density at 1/10, which both pass, and at 3/10, which zone 8 alone
    passes. *)
Definition two_clusters : Voids.out_state :=
  Eval vm_compute in
    match ClusterPrune.postprocess_clusters ClusterPrune.hard_coded (1 # 10) 1 100
            cluster_listfile Samples.voidfile Samples.zonedata Samples.vols
            Samples.densities with
    | Ok st => st
    | _ => Voids.initial
    end.

Definition one_cluster : Voids.out_state :=
  Eval vm_compute in
    match ClusterPrune.postprocess_clusters ClusterPrune.hard_coded (3 # 10) 1 100
            cluster_listfile Samples.voidfile Samples.zonedata Samples.vols
            Samples.densities with
    | Ok st => st
    | _ => Voids.initial
    end.

End MoreSamples.


(* ================================================================== *)
(** * Properties of the tracer store *)

Module StoreFacts.

Import TracerStore.

Lemma Z_of_byte_of_Z (z : Z) : Z_of_byte (byte_of_Z z) = (z mod 256)%Z.
Proof.
  unfold Z_of_byte, byte_of_Z.
  assert (B : (0 <= z mod 256 < 256)%Z) by (apply Z.mod_pos_bound; lia).
  destruct (Byte.of_N (Z.to_N (z mod 256))) as [b|] eqn:E.
  - apply Byte.to_of_N in E. rewrite E. apply Z2N.id. lia.
  - apply Byte.of_N_None_iff in E. lia.
Qed.

Lemma le_encode_length (n : nat) (w : Z) : length (le_encode n w) = n.
Proof.
  revert w. induction n as [|n IH]; intro w; simpl; [reflexivity|].
  now rewrite IH.
Qed.

Lemma le_decode_encode (n : nat) (w : Z) :
  le_decode (le_encode n w) = (w mod 256 ^ Z.of_nat n)%Z.
Proof.
  revert w. induction n as [|n IH]; intro w.
  - simpl. now rewrite Z.mod_1_r.
  - cbn [le_encode le_decode]. rewrite Z_of_byte_of_Z, IH.
    rewrite Nat2Z.inj_succ, Z.pow_succ_r by lia.
    rewrite Z.rem_mul_r by lia. reflexivity.
Qed.

Lemma le_decode_float64 (w : float64) :
  is_float64 w -> le_decode (le_encode 8 w) = w.
Proof.
  intro H. rewrite le_decode_encode. apply Z.mod_small. exact H.
Qed.

Lemma decode_column (c : list float64) :
  Forall is_float64 c -> map le_decode (map (le_encode 8) c) = c.
Proof.
  induction 1 as [|w c Hw _ IH]; cbn [map]; [reflexivity|].
  now rewrite le_decode_float64, IH.
Qed.

Lemma read_items_tofile (size : nat) (c : list Z) (rest : list byte) :
  read_items size (length c) (flat_map (le_encode size) c ++ rest)
  = (map (le_encode size) c, rest).
Proof.
  induction c as [|w c IH]; [reflexivity|].
  cbn [length flat_map map read_items]. rewrite <- app_assoc.
  set (more := flat_map (le_encode size) c ++ rest) in *.
  pose proof (le_encode_length size w) as L.
  assert (Hle : (size <=? length (le_encode size w ++ more))%nat = true)
    by (apply Nat.leb_le; rewrite length_app; lia).
  assert (Hs : skipn size (le_encode size w ++ more) = more).
  { rewrite skipn_app, L, Nat.sub_diag, skipn_all2 by lia. reflexivity. }
  assert (Hf : firstn size (le_encode size w ++ more) = le_encode size w).
  { rewrite firstn_app, L, Nat.sub_diag, firstn_all2 by lia. apply app_nil_r. }
  rewrite Hle, Hs, Hf, IH. reflexivity.
Qed.

Lemma fromfile_column (c : list float64) (rest : list byte) :
  fromfile 8 (Z.of_nat (length c)) (tofile c ++ rest) = (map (le_encode 8) c, rest).
Proof.
  unfold fromfile, tofile.
  replace (Z.of_nat (length c) <? 0)%Z with false by (symmetry; apply Z.ltb_ge; lia).
  rewrite Nat2Z.id. apply read_items_tofile.
Qed.

Lemma fromfile_header (n : Z) (rest : list byte) :
  (0 <= n < 2 ^ 31)%Z ->
  fromfile 4 1 (int32_bytes n ++ rest) = ([int32_bytes n], rest)
  /\ int32_of_bytes (int32_bytes n) = n.
Proof.
  intro H. split.
  - unfold fromfile, int32_bytes. simpl (if (1 <? 0)%Z then _ else _).
    change (Z.to_nat 1) with (length [n mod 2 ^ 32]%Z).
    pose proof (read_items_tofile 4 [n mod 2 ^ 32]%Z rest) as R.
    cbn [flat_map map] in R. rewrite app_nil_r in R. exact R.
  - unfold int32_of_bytes, int32_bytes, int32_wrap.
    rewrite le_decode_encode.
    change (256 ^ Z.of_nat 4)%Z with (2 ^ 32)%Z.
    rewrite Z.mod_mod by lia.
    rewrite (Z.mod_small n) by lia.
    rewrite Z.mod_small by lia. lia.
Qed.

Lemma read_column_ok (t : Np.array2 float64) (c : list float64)
    (rest : list byte) (j : nat) :
  Forall is_float64 c -> length c = Np.nrows t -> (j < Np.ncols t)%nat ->
  read_column (Z.of_nat (length c)) j (t, tofile c ++ rest)
  = Ok (Np.Array2 (Np.nrows t) (Np.list_set_col j c (Np.columns t)), rest).
Proof.
  intros Hc Hl Hj. unfold read_column. cbn [fst snd].
  rewrite fromfile_column, decode_column by exact Hc.
  unfold Np.set_col.
  apply Nat.ltb_lt in Hj. rewrite Hj.
  apply Nat.eqb_eq in Hl. rewrite Hl. reflexivity.
Qed.

(** The columns of a table that has at least three, or six. *)
Lemma three_columns (A : Type) (l : list A) :
  (3 <= length l)%nat -> exists a b c r, l = a :: b :: c :: r.
Proof.
  destruct l as [|a [|b [|c r]]]; simpl; try lia. intros _. now exists a, b, c, r.
Qed.

Ltac ncols_tac :=
  unfold Np.ncols, Np.empty;
  cbn [Np.columns Np.list_set_col map seq length]; lia.

(** C4 (amended).  Writing the position file and reading it back succeeds
    for every table that has one row per particle, fewer than [2^31] rows
    and the columns the mode stores (x, y, z in box mode; x, y, z, RA, Dec,
    redshift in survey mode).  The table read back has the same number of
    rows and always six columns; each stored column is identical, image
    for image; in survey mode a six-column table is reproduced as it was. *)
Theorem reread_restores_stored_columns (uninit : nat -> nat -> float64)
    (self : zobov) (t : Np.array2 float64) :
  tracers self = Table t ->
  Np.wf t ->
  Forall (Forall is_float64) (Np.columns t) ->
  num_part_total self = Z.of_nat (Np.nrows t) ->
  (num_part_total self < 2 ^ 31)%Z ->
  ((if is_box self then 3 else 6) <= Np.ncols t)%nat ->
  exists self1 self2 t',
    write_box_zobov self = Ok self1
    /\ reread_tracer_info uninit (delete_tracer_info self1) = Ok self2
    /\ tracers self2 = Table t'
    /\ Np.nrows t' = Np.nrows t
    /\ Np.ncols t' = 6%nat
    /\ (forall j, (j < (if is_box self then 3 else 6))%nat ->
          nth_error (Np.columns t') j = nth_error (Np.columns t) j)
    /\ (is_box self = false -> Np.ncols t = 6%nat -> t' = t).
Proof.
  intros Ht Hwf Hfl Hn Hlt Hcols.
  destruct self as [box n tr file]. cbn [tracers num_part_total is_box] in *. subst tr.
  destruct t as [m cols]. unfold Np.wf, Np.ncols in *. cbn [Np.nrows Np.columns] in *.
  assert (H3 : (3 <= length cols)%nat) by (destruct box; lia).
  destruct (three_columns cols H3) as (c0 & c1 & c2 & r & ->).
  repeat match goal with
         | H : Forall _ (_ :: _) |- _ => inversion H; clear H; subst
         end.
  assert (Hr : (0 <= Z.of_nat (length c0) < 2 ^ 31)%Z) by (split; [apply Nat2Z.is_nonneg | exact Hlt]).
  assert (Hhdr := fun rest => @fromfile_header (Z.of_nat (length c0)) rest Hr).
  destruct box.
  - (* box mode *)
    eexists _, _, _. split; [reflexivity|].
    unfold reread_tracer_info, delete_tracer_info.
    cbn [num_part_total posn_file set_tracers set_posn_file is_box tracers].
    replace (Z.of_nat (length c0) <? 0)%Z with false by (symmetry; apply Z.ltb_ge; lia).
    destruct (Hhdr (tofile c0 ++ tofile c1 ++ tofile c2)) as [-> E].
    cbn [map getitem bind Z.ltb Z.compare Z.to_nat nth_error length Z.of_nat].
    rewrite E, Z.eqb_refl. cbn [negb].
    rewrite Nat2Z.id.
    rewrite read_column_ok; [| assumption | reflexivity | ncols_tac ].
    cbn [bind Np.nrows Np.columns Np.empty].
    replace (length c0) with (length c1) at 1 by congruence.
    rewrite read_column_ok; [| assumption | cbn; congruence | ncols_tac ].
    cbn [bind Np.nrows Np.columns].
    rewrite <- (app_nil_r (tofile c2)).
    replace (length c0) with (length c2) at 1 by congruence.
    rewrite read_column_ok; [| assumption | cbn; congruence | ncols_tac ].
    cbn [bind fst]. split; [reflexivity|].
    split; [reflexivity|]. split; [reflexivity|]. split; [reflexivity|].
    split; [|discriminate].
    intros [|[|[|j]]] Hj; try reflexivity; lia.
  - (* survey mode *)
    destruct r as [|c3 [|c4 [|c5 r]]]; simpl in Hcols; try lia.
    repeat match goal with
           | H : Forall _ (_ :: _) |- _ => inversion H; clear H; subst
           end.
    eexists _, _, _. split; [reflexivity|].
    unfold reread_tracer_info, delete_tracer_info.
    cbn [num_part_total posn_file set_tracers set_posn_file is_box tracers].
    replace (Z.of_nat (length c0) <? 0)%Z with false by (symmetry; apply Z.ltb_ge; lia).
    destruct (Hhdr (tofile c0 ++ tofile c1 ++ tofile c2 ++ tofile c3 ++ tofile c4 ++ tofile c5))
      as [-> E].
    cbn [map getitem bind Z.ltb Z.compare Z.to_nat nth_error length Z.of_nat].
    rewrite E, Z.eqb_refl. cbn [negb].
    rewrite Nat2Z.id.
    rewrite read_column_ok; [| assumption | reflexivity | ncols_tac ].
    cbn [bind Np.nrows Np.columns Np.empty].
    replace (length c0) with (length c1) at 1 by congruence.
    rewrite read_column_ok; [| assumption | cbn; congruence | ncols_tac ].
    cbn [bind Np.nrows Np.columns].
    replace (length c0) with (length c2) at 1 by congruence.
    rewrite read_column_ok; [| assumption | cbn; congruence | ncols_tac ].
    cbn [bind Np.nrows Np.columns].
    replace (length c0) with (length c3) at 1 by congruence.
    rewrite read_column_ok; [| assumption | cbn; congruence | ncols_tac ].
    cbn [bind Np.nrows Np.columns].
    replace (length c0) with (length c4) at 1 by congruence.
    rewrite read_column_ok; [| assumption | cbn; congruence | ncols_tac ].
    cbn [bind Np.nrows Np.columns].
    rewrite <- (app_nil_r (tofile c5)).
    replace (length c0) with (length c5) at 1 by congruence.
    rewrite read_column_ok; [| assumption | cbn; congruence | ncols_tac ].
    cbn [bind fst]. split; [reflexivity|].
    split; [reflexivity|]. split; [reflexivity|]. split; [reflexivity|].
    split.
    + intros [|[|[|[|[|[|j]]]]]] Hj; try reflexivity; lia.
    + intros _ Hsix. destruct r; [|simpl in Hsix; lia].
      simpl. f_equal.
Qed.

Ltac in_range := split; [apply Z.leb_le | apply Z.ltb_lt]; reflexivity.

Lemma reread_restores_survey_sample :
  exists self1 self2 t',
    write_box_zobov Samples.survey_store = Ok self1
    /\ reread_tracer_info (fun _ _ => 0%Z) (delete_tracer_info self1) = Ok self2
    /\ tracers self2 = Table t'
    /\ Np.nrows t' = 2%nat
    /\ Np.ncols t' = 6%nat
    /\ (forall j, (j < 6)%nat ->
          nth_error (Np.columns t') j
          = nth_error [[1; 2]; [3; 4]; [5; 6]; [7; 8]; [9; 10]; [11; 12]]%Z j)
    /\ (false = false -> 6%nat = 6%nat ->
          t' = Np.Array2 2 [[1; 2]; [3; 4]; [5; 6]; [7; 8]; [9; 10]; [11; 12]]%Z).
Proof.
  apply (@reread_restores_stored_columns (fun _ _ => 0%Z) Samples.survey_store
           (Np.Array2 2 [[1; 2]; [3; 4]; [5; 6]; [7; 8]; [9; 10]; [11; 12]]%Z)).
  - reflexivity.
  - repeat constructor.
  - repeat (constructor; try in_range).
  - reflexivity.
  - reflexivity.
  - unfold Np.ncols. simpl. lia.
Defined.

(** C4, the claim as stated fails in box mode: a table of three columns
    comes back with six, whatever [np.empty] found in memory. *)
Lemma box_reread_has_six_columns :
  exists self1,
    write_box_zobov Samples.box_store = Ok self1
    /\ Np.ncols (Np.Array2 1 [[4607182418800017408%Z]; [4611686018427387904%Z];
                              [4613937818241073152%Z]]) = 3%nat
    /\ forall uninit, exists self2 t',
         reread_tracer_info uninit (delete_tracer_info self1) = Ok self2
         /\ tracers self2 = Table t'
         /\ Np.ncols t' = 6%nat
         /\ tracers self2 <> tracers Samples.box_store.
Proof.
  eexists. split; [reflexivity|]. split; [reflexivity|].
  intro uninit. eexists _, _.
  split; [vm_compute; reflexivity|].
  split; [reflexivity|]. split; [reflexivity|].
  cbn. intro H. inversion H.
Qed.

(** With the table in memory the presence test leaves the object alone. *)
Lemma ensure_tracers_present (uninit : nat -> nat -> float64) (self : zobov)
    (t : Np.array2 float64) :
  tracers self = Table t ->
  num_part_total self = Z.of_nat (Np.nrows t) ->
  ensure_tracers uninit self = Ok self.
Proof.
  intros Ht Hn. unfold ensure_tracers, len_tracers. rewrite Ht. cbn [Py.bind].
  rewrite Hn, Z.eqb_refl. reflexivity.
Qed.

(** C9.  After [delete_tracer_info] the presence test of the centre
    extractors does not reload the table: [len] of the integer left in
    [self.tracers] raises [TypeError], for every state of the object and
    whatever the position file holds. *)
Theorem ensure_tracers_after_delete (uninit : nat -> nat -> float64) (self : zobov) :
  ensure_tracers uninit (delete_tracer_info self) = Raise TypeError.
Proof.
  unfold ensure_tracers, delete_tracer_info, len_tracers.
  destruct self; reflexivity.
Qed.

End StoreFacts.


(* ================================================================== *)
(** * Properties of the periodic wrap *)

Module BoxFacts.

Import Box.

Lemma Qltb_lt (x y : Q) : Qltb x y = true <-> x < y.
Proof.
  unfold Qltb. rewrite negb_true_iff. split; intro H.
  - apply Qnot_le_lt. intro Hle. apply Qle_bool_iff in Hle. congruence.
  - destruct (Qle_bool y x) eqn:E; [|reflexivity].
    apply Qle_bool_iff in E. exfalso. apply (Qlt_not_le _ _ H E).
Qed.

Lemma Qltb_ge (x y : Q) : Qltb x y = false <-> y <= x.
Proof.
  unfold Qltb. rewrite negb_false_iff. apply Qle_bool_iff.
Qed.

(** One coordinate: which shift it gets, and where it lands. *)
Lemma wrap_coord_cases (L x : Q) :
  0 < L ->
  (L < x -> wrap_coord L x = x - L /\ shifts L x = 1%nat)
  /\ (x < 0 -> wrap_coord L x = x + L /\ shifts L x = 1%nat)
  /\ (0 <= x <= L -> wrap_coord L x = x /\ shifts L x = 0%nat)
  /\ (- L <= x <= 2 * L -> 0 <= wrap_coord L x <= L).
Proof.
  intro HL. unfold wrap_coord, shifts, add_below, sub_above.
  destruct (Qltb L x) eqn:E1.
  - apply Qltb_lt in E1.
    assert (E2 : Qltb (x - L) 0 = false) by (apply Qltb_ge; lra).
    rewrite E2. repeat split; try reflexivity; intros; lra.
  - apply Qltb_ge in E1.
    destruct (Qltb x 0) eqn:E2.
    + apply Qltb_lt in E2. repeat split; try reflexivity; intros; lra.
    + apply Qltb_ge in E2. repeat split; try reflexivity; intros; lra.
Qed.

(** C5 (amended).  For a positive box length and a table with its three
    position columns the wrap returns; it keeps the shape of the table and
    replaces every coordinate [x] of the three columns by [wrap_coord L x].
    A coordinate above [L] has [L] taken from it once, a coordinate below 0
    has [L] added once, and a coordinate of the closed interval [[0, L]]
    (the end [L] included) is left alone; every coordinate that starts in
    [[-L, 2L]] ends in the closed interval [[0, L]]. *)
Theorem init_box_wrap_closed_box (L : Q) (t : Np.array2 Q) :
  0 < L ->
  (3 <= Np.ncols t)%nat ->
  exists t',
    init_box_wrap L t = Ok t'
    /\ Np.nrows t' = Np.nrows t
    /\ Np.ncols t' = Np.ncols t
    /\ (forall j c, (j < 3)%nat -> nth_error (Np.columns t) j = Some c ->
          nth_error (Np.columns t') j = Some (map (wrap_coord L) c))
    /\ (forall j, (3 <= j)%nat ->
          nth_error (Np.columns t') j = nth_error (Np.columns t) j)
    /\ (forall x,
          (L < x -> wrap_coord L x = x - L /\ shifts L x = 1%nat)
          /\ (x < 0 -> wrap_coord L x = x + L /\ shifts L x = 1%nat)
          /\ (0 <= x <= L -> wrap_coord L x = x /\ shifts L x = 0%nat)
          /\ (- L <= x <= 2 * L -> 0 <= wrap_coord L x <= L)).
Proof.
  intros HL Hc. destruct t as [n cols]. unfold Np.ncols in *. cbn [Np.columns Np.nrows] in *.
  destruct (StoreFacts.three_columns cols Hc) as (c0 & c1 & c2 & r & ->).
  assert (E : Qle_bool L 0 = false).
  { destruct (Qle_bool L 0) eqn:E; [|reflexivity].
    apply Qle_bool_iff in E. exfalso. apply (Qlt_not_le _ _ HL E). }
  unfold init_box_wrap. rewrite E.
  unfold Np.update_col. cbn [Np.columns Np.nrows nth_error bind Np.list_set_col].
  eexists. split; [reflexivity|].
  cbn [Np.columns Np.nrows length].
  split; [reflexivity|]. split; [reflexivity|]. split; [|split].
  - intros [|[|[|j]]] c Hj Hnth; try lia; cbn [nth_error] in *;
      injection Hnth as <-; rewrite map_map; reflexivity.
  - intros [|[|[|j]]] Hj; try lia. reflexivity.
  - intro x. apply wrap_coord_cases. exact HL.
Qed.

Lemma init_box_wrap_two_tracers :
  exists t',
    init_box_wrap 10 Samples.two_tracers = Ok t'
    /\ Np.nrows t' = 2%nat
    /\ Np.ncols t' = 3%nat
    /\ (forall j c, (j < 3)%nat -> nth_error (Np.columns Samples.two_tracers) j = Some c ->
          nth_error (Np.columns t') j = Some (map (wrap_coord 10) c))
    /\ (forall j, (3 <= j)%nat ->
          nth_error (Np.columns t') j = nth_error (Np.columns Samples.two_tracers) j)
    /\ (forall x,
          (10 < x -> wrap_coord 10 x = x - 10 /\ shifts 10 x = 1%nat)
          /\ (x < 0 -> wrap_coord 10 x = x + 10 /\ shifts 10 x = 1%nat)
          /\ (0 <= x <= 10 -> wrap_coord 10 x = x /\ shifts 10 x = 0%nat)
          /\ (- (10) <= x <= 2 * 10 -> 0 <= wrap_coord 10 x <= 10)).
Proof.
  apply (@init_box_wrap_closed_box 10 Samples.two_tracers).
  - reflexivity.
  - unfold Np.ncols. simpl. lia.
Defined.

(** C5, the claim as stated fails: with [L = 2500] the tracer at
    (2500, 7500, -3000) is wrapped to (2500, 5000, -500).  The first
    coordinate is outside [[0, L)] and is not shifted at all; the other two
    are shifted once and stay outside. *)
Lemma wrap_leaves_coordinates_outside :
  init_box_wrap 2500 Samples.stray_tracer = Ok (Np.Array2 1 [[2500]; [5000]; [-500]])
  /\ shifts 2500 2500 = 0%nat
  /\ shifts 2500 7500 = 1%nat
  /\ shifts 2500 (-3000) = 1%nat
  /\ Qltb 2500 2500 = false
  /\ Qltb 5000 2500 = false
  /\ Qle_bool 0 (-500) = false.
Proof.
  repeat split; reflexivity.
Qed.

End BoxFacts.


(* ================================================================== *)
(** * Properties of the buffer synthesis *)

Module BufferFacts.

Import Buffers.

Lemma qmax_cases (x y : Q) : (qmax x y = x \/ qmax x y = y) /\ x <= qmax x y /\ y <= qmax x y.
Proof.
  unfold qmax. destruct (Qle_bool x y) eqn:E.
  - apply Qle_bool_iff in E. repeat split; auto; lra.
  - assert (y <= x).
    { apply Qlt_le_weak, Qnot_le_lt. intro H. apply Qle_bool_iff in H. congruence. }
    repeat split; auto; lra.
Qed.

(** The running maximum is one of the values met and bounds them all. *)
Lemma fold_qmax (l : list Q) (x : Q) :
  In (fold_left qmax l x) (x :: l)
  /\ forall y, In y (x :: l) -> y <= fold_left qmax l x.
Proof.
  revert x. induction l as [|a l IH]; intro x; cbn [fold_left].
  - split; [now left|]. intros y [<-|[]]. lra.
  - destruct (IH (qmax x a)) as [Hin Hub].
    destruct (qmax_cases x a) as (Hc & Hx & Ha).
    split.
    + destruct Hin as [Hin|Hin]; [|now right; right].
      rewrite <- Hin. destruct Hc as [->| ->]; [now left | now right; left].
    + intros y [<-|[<-|Hy]].
      * apply Qle_trans with (qmax x a); [exact Hx | apply Hub; now left].
      * apply Qle_trans with (qmax x a); [exact Ha | apply Hub; now left].
      * apply Hub. now right.
Qed.

(** C7 (amended).  When at least one cap or boundary mock has been placed,
    the side is [2 m + 1] for [m] the largest absolute coordinate among
    those mocks: [m] is one of their absolute coordinates, and
    [2 |c| + 1] is at most the side for each of their coordinates.  The
    tracers (and the guards, added later) take no part. *)
Theorem box_length_of_mocks (buffers : Np.array2 Q) :
  abs_positions buffers <> [] ->
  exists m,
    box_length_of buffers = Ok (2 * m + 1)
    /\ In m (abs_positions buffers)
    /\ forall x, In x (abs_positions buffers) -> 2 * x + 1 <= 2 * m + 1.
Proof.
  intro Hne. unfold box_length_of.
  destruct (abs_positions buffers) as [|x l]; [congruence|].
  cbn [np_max bind]. exists (fold_left qmax l x).
  destruct (fold_qmax l x) as [Hin Hub].
  split; [reflexivity|]. split; [exact Hin|].
  intros y Hy. specialize (Hub y Hy). lra.
Qed.

Lemma box_length_of_diagonal_mock :
  exists m,
    box_length_of Samples.diagonal_mock = Ok (2 * m + 1)
    /\ In m (abs_positions Samples.diagonal_mock)
    /\ forall x, In x (abs_positions Samples.diagonal_mock) -> 2 * x + 1 <= 2 * m + 1.
Proof.
  apply (@box_length_of_mocks Samples.diagonal_mock).
  discriminate.
Defined.

(** C7, the claim as stated fails: for a tracer at (0, 0, 100) and a mock
    at (60, 60, 60) the side is 121, where the maximum over tracers and
    mocks together gives 201; the side is below [2 * 100 + 1]. *)
Lemma box_length_ignores_tracers :
  box_length_of Samples.diagonal_mock = Ok 121
  /\ spec_box_length Samples.axis_tracer Samples.diagonal_mock = Ok 201
  /\ In 100 (abs_positions Samples.axis_tracer)
  /\ Qltb 121 (2 * 100 + 1) = true.
Proof.
  repeat split; try reflexivity. cbn. tauto.
Qed.

(** C8 (amended).  When the lowest redshift [z_low] is positive, the raw
    radii are [r_hi = comoving(z_low) - s * eta^(-1/3)] and
    [r_lo = r_hi - s]; a negative [r_lo] is replaced by 0, and a negative
    [r_hi] is replaced by [comoving(z_low)], not by 0.  So [r_lo >= 0]
    always, and [r_hi >= 0] as soon as the comoving distance is. *)
Theorem low_cap_radii_guards (get_comoving_distance : Q -> Q) (pow : Q -> Q -> Q)
    (redshifts : list Q) (z_min s eta z_tracers : Q) :
  np_min redshifts = Ok z_tracers ->
  0 < qmin z_tracers z_min ->
  let z_low := qmin z_tracers z_min in
  let raw_hi := get_comoving_distance z_low - s * pow eta (- (1 # 3)) in
  let raw_lo := raw_hi - s in
  exists r_lo r_hi,
    low_cap_radii get_comoving_distance pow redshifts z_min s eta = Ok (Some (r_lo, r_hi))
    /\ (0 <= raw_lo -> r_lo = raw_lo)
    /\ (raw_lo < 0 -> r_lo = 0)
    /\ (0 <= raw_hi -> r_hi = raw_hi)
    /\ (raw_hi < 0 -> r_hi = get_comoving_distance z_low)
    /\ 0 <= r_lo
    /\ (0 <= get_comoving_distance z_low -> 0 <= r_hi).
Proof.
  intros Hmin Hpos z_low raw_hi raw_lo.
  unfold low_cap_radii. rewrite Hmin. cbn [bind np_min fold_left].
  fold z_low. apply BoxFacts.Qltb_lt in Hpos. fold z_low in Hpos. rewrite Hpos.
  fold raw_hi. fold raw_lo.
  eexists _, _. split; [reflexivity|].
  destruct (Qltb raw_lo 0) eqn:Elo; destruct (Qltb raw_hi 0) eqn:Ehi;
    repeat match goal with
           | H : Qltb _ _ = true |- _ => apply BoxFacts.Qltb_lt in H
           | H : Qltb _ _ = false |- _ => apply BoxFacts.Qltb_ge in H
           end;
    repeat split; intros; try reflexivity; try lra.
Qed.

Lemma low_cap_radii_nearby_sample :
  exists r_lo r_hi,
    low_cap_radii Samples.hubble Samples.unit_power [1 # 50; 1 # 10] (1 # 20) 100 1
    = Ok (Some (r_lo, r_hi))
    /\ r_lo = 0
    /\ r_hi = Samples.hubble (qmin (1 # 50) (1 # 20))
    /\ 0 <= r_lo.
Proof.
  destruct (@low_cap_radii_guards Samples.hubble Samples.unit_power
              [1 # 50; 1 # 10] (1 # 20) 100 1 (1 # 50) eq_refl eq_refl)
    as (r_lo & r_hi & E & _ & Hlo & _ & Hhi & Hpos & _).
  exists r_lo, r_hi. split; [exact E|].
  split; [apply Hlo; reflexivity|].
  split; [apply Hhi; reflexivity | exact Hpos].
Defined.

(** C8, the claim as stated fails: at [z_low = 0.02] (comoving distance 60)
    with spacing 100 and density ratio 1 the raw outer radius is -40; the
    method sets it back to 60 (the fraction 3000/50), while a clamp at zero
    gives 0. *)
Lemma negative_outer_radius_is_not_clamped :
  low_cap_radii Samples.hubble Samples.unit_power [1 # 50; 1 # 10] (1 # 20) 100 1
  = Ok (Some (0, 3000 # 50))
  /\ spec_low_cap_radii Samples.hubble Samples.unit_power (1 # 50) 100 1 = (0, 0)
  /\ Qeq_bool (3000 # 50) 0 = false.
Proof.
  repeat split; reflexivity.
Qed.

End BufferFacts.

(* ================================================================== *)
(** * Properties of the volume renormalisation *)

Module ReweightFacts.

Import Reweight.

Lemma scale_non_edge_map (f : Q) (V : list Q) :
  scale_non_edge (edgemask_of V) f V
  = map (fun v => if Qeq_bool v edge_sentinel then v else v * f) V.
Proof.
  unfold scale_non_edge, edgemask_of.
  induction V as [|v V IH]; cbn [map combine fst snd]; [reflexivity|].
  now rewrite IH.
Qed.

(** The test of line 705 finds a zero exactly when the scaled volume of a
    cell off the edge is zero. *)
Lemma any_zero_scaled (f : Q) (V : list Q) :
  any_zero_non_edge (edgemask_of V) (scale_non_edge (edgemask_of V) f V) = true
  <-> exists v, In v V /\ ~ v == edge_sentinel /\ v * f == 0.
Proof.
  rewrite scale_non_edge_map. unfold any_zero_non_edge, edgemask_of.
  induction V as [|v V IH]; cbn [map combine existsb fst snd In].
  - split; [discriminate | intros (v & [] & _)].
  - rewrite orb_true_iff, IH. split.
    + intros [H|(w & Hw & Hne & Hz)].
      * apply andb_prop in H. destruct H as [Hn Hz].
        destruct (Qeq_bool v edge_sentinel) eqn:E; [discriminate|].
        exists v. split; [now left|]. split; [now apply Qeq_bool_neq|].
        now apply Qeq_bool_iff.
      * exists w. split; [now right|]. now split.
    + intros (w & [<-|Hw] & Hne & Hz).
      * left. destruct (Qeq_bool v edge_sentinel) eqn:E.
        -- apply Qeq_bool_iff in E. contradiction.
        -- cbn [negb andb]. now apply Qeq_bool_iff.
      * right. exists w. split; [exact Hw|]. now split.
Qed.

(** The step ends the run as soon as the scaled volume of a cell off the
    edge is zero. *)
Lemma renormalize_exits_on_zero (tracer_dens box_length : Q) (num_part_total : Z)
    (V : list Q) :
  (exists v, In v V /\ ~ v == edge_sentinel
             /\ v * scale_factor tracer_dens box_length num_part_total == 0) ->
  renormalize tracer_dens box_length num_part_total V = Raise SystemExit.
Proof.
  intro H. apply any_zero_scaled in H. unfold renormalize. now rewrite H.
Qed.

(** C6.  When no cell off the edge has a scaled volume of zero (the case
    in which the method exits), the scaling step returns a list of as many
    volumes, in which every volume different from the edge sentinel has
    been multiplied by [(tracer_dens * box_length^3) / num_part_total] and
    every volume equal to the sentinel is as it was. *)
Theorem renormalize_frame (tracer_dens box_length : Q) (num_part_total : Z) (V : list Q) :
  let f := (tracer_dens * box_length ^ 3) / inject_Z num_part_total in
  (forall v, In v V -> ~ v == edge_sentinel -> ~ v * f == 0) ->
  exists V',
    renormalize tracer_dens box_length num_part_total V = Ok V'
    /\ length V' = length V
    /\ (forall i v, nth_error V i = Some v ->
          (~ v == edge_sentinel -> nth_error V' i = Some (v * f))
          /\ (v == edge_sentinel -> nth_error V' i = Some v)).
Proof.
  intros f Hnz.
  exists (scale_non_edge (edgemask_of V) (scale_factor tracer_dens box_length num_part_total) V).
  split.
  - unfold renormalize.
    destruct (any_zero_non_edge _ _) eqn:Z; [|reflexivity].
    apply any_zero_scaled in Z. destruct Z as (v & Hv & Hne & Hz).
    exfalso. exact (Hnz v Hv Hne Hz).
  - rewrite scale_non_edge_map. unfold scale_factor. fold f.
    split; [apply length_map|].
    intros i v Hv. rewrite nth_error_map, Hv. cbn [option_map].
    destruct (Qeq_bool v edge_sentinel) eqn:E.
    + apply Qeq_bool_iff in E. split; [intro H; contradiction | reflexivity].
    + apply Qeq_bool_neq in E. split; [reflexivity | intro H; contradiction].
Qed.

(** Three cells, the one in the middle on the edge, with a factor of
    [((1/2) * 2^3) / 8 = 1/2]: the first and the last are scaled, the one
    in the middle is kept. *)
Lemma renormalize_frame_sample :
  exists V',
    renormalize (1 # 2) 2 8 Samples.three_volumes = Ok V'
    /\ length V' = 3%nat
    /\ nth_error V' 0 = Some (2 * (((1 # 2) * 2 ^ 3) / inject_Z 8))
    /\ nth_error V' 1 = Some edge_sentinel
    /\ nth_error V' 2 = Some ((1 # 2) * (((1 # 2) * 2 ^ 3) / inject_Z 8)).
Proof.
  destruct (@renormalize_frame (1 # 2) 2 8 Samples.three_volumes) as (V' & HV & HL & Hall).
  - intros v [<-|[<-|[<-|[]]]] Hne H.
    + vm_compute in H. discriminate H.
    + apply Hne. reflexivity.
    + vm_compute in H. discriminate H.
  - exists V'. split; [exact HV|]. split; [exact HL|].
    split; [|split].
    + apply (Hall 0%nat 2 eq_refl). intro H. vm_compute in H. discriminate H.
    + apply (Hall 1%nat edge_sentinel eq_refl). reflexivity.
    + apply (Hall 2%nat (1 # 2) eq_refl). intro H. vm_compute in H. discriminate H.
Defined.

(** A cell of volume zero off the edge stops the run. *)
Example renormalize_zero_volume :
  renormalize (1 # 2) 2 8 [2; 0; edge_sentinel] = Raise SystemExit.
Proof.
  apply renormalize_exits_on_zero. exists 0. split; [right; now left|].
  split; [intro H; vm_compute in H; discriminate H | reflexivity].
Qed.

(** Three cells with [tracer_dens = 1/2], [box_length = 2] and 8 particles:
    the factor is 1/2, and the edge cell in the middle keeps its volume. *)
Example renormalize_three_volumes :
  match renormalize (1 # 2) 2 8 Samples.three_volumes with
  | Ok V' => map Qred V' = [1; Qred edge_sentinel; 1 # 4]
  | _ => False
  end.
Proof.
  vm_compute. reflexivity.
Qed.

End ReweightFacts.


(* ================================================================== *)
(** * Properties of the pruning loop *)

Module VoidFacts.

Import Voids.

(** Splits a hypothesis [x <- m ;; k = Ok _] into [m = Ok x] and the rest. *)
Ltac bind_ok H :=
  repeat match type of H with
         | Py.bind ?m _ = Ok _ =>
             let E := fresh "E" in
             destruct m eqn:E; cbn [Py.bind] in H; [ | discriminate H | discriminate H ]
         end.

Lemma getitem_ok_bound (A : Type) (l : list A) (i : Z) (a : A) :
  getitem l i = Ok a -> (0 <= i)%Z -> (i < Z.of_nat (length l))%Z.
Proof.
  unfold getitem. intros H Hi.
  replace (i <? 0)%Z with false in H by (symmetry; apply Z.ltb_ge; lia).
  replace (i <? 0)%Z with false in H by (symmetry; apply Z.ltb_ge; lia).
  destruct (nth_error l (Z.to_nat i)) eqn:E; [|discriminate].
  assert (Hlt : (Z.to_nat i < length l)%nat) by (apply nth_error_Some; congruence).
  lia.
Qed.

Lemma getitem_nonneg (A : Type) (l : list A) (i : Z) :
  (0 <= i)%Z ->
  getitem l i = match nth_error l (Z.to_nat i) with
                | Some a => Ok a
                | None => Raise IndexError
                end.
Proof.
  intro Hi. unfold getitem.
  replace (i <? 0)%Z with false by (symmetry; apply Z.ltb_ge; lia).
  replace (i <? 0)%Z with false by (symmetry; apply Z.ltb_ge; lia).
  reflexivity.
Qed.

Lemma getitem_not_fuel (A : Type) (l : list A) (i : Z) : getitem l i <> OutOfFuel.
Proof.
  unfold getitem. destruct (_ <? 0)%Z; [discriminate|].
  destruct (nth_error _ _); discriminate.
Qed.

Lemma mapM_int_of_not_fuel (ts : list token) : mapM int_of ts <> OutOfFuel.
Proof.
  induction ts as [|t ts IH]; cbn [mapM]; [discriminate|].
  destruct t; cbn [int_of Py.bind]; [|discriminate].
  destruct (mapM int_of ts); cbn [Py.bind]; congruence.
Qed.

Lemma cannot_add_not_fuel (pol : policy) (dens : Q) (rsublist : list Q) :
  cannot_add pol dens rsublist <> OutOfFuel.
Proof.
  unfold cannot_add.
  destruct (dont_merge pol); [discriminate|].
  destruct (_ && _); [discriminate|].
  destruct (use_r_threshold pol); [|discriminate].
  destruct rsublist; cbn; discriminate.
Qed.

Section Loop.

Variable pol : policy.
Variable voidsread : list candidate.

(** A turn of the loop moves [pos] past the step it has read and finds two
    more fields there. *)
Lemma merge_turn_pos (voidline : list token) (coredens : Q) (l l' : locals) :
  merge_turn pol voidsread voidline coredens l = Ok l' ->
  pos l' = (pos l + num_zones_to_add l + 2)%Z
  /\ exists t, getitem voidline (pos l' + 1) = Ok t.
Proof.
  unfold merge_turn. intro H. bind_ok H.
  destruct a0; injection H as <-; cbn [pos]; split; try reflexivity; eauto.
Qed.

Lemma merge_turn_not_fuel (voidline : list token) (coredens : Q) (l : locals) :
  merge_turn pol voidsread voidline coredens l <> OutOfFuel.
Proof.
  unfold merge_turn. intro T.
  repeat match type of T with
         | Py.bind ?m _ = OutOfFuel =>
             let E := fresh "E" in
             destruct m eqn:E; cbn [Py.bind] in T; try discriminate T
         | (if ?b then _ else _) = OutOfFuel => destruct b; discriminate T
         end;
    match goal with
    | E : mapM int_of _ = OutOfFuel |- _ => eapply mapM_int_of_not_fuel; exact E
    | E : cannot_add _ _ _ = OutOfFuel |- _ => eapply cannot_add_not_fuel; exact E
    | E : getitem _ _ = OutOfFuel |- _ => eapply getitem_not_fuel; exact E
    | E : int_of ?t = OutOfFuel |- _ => destruct t; discriminate E
    | E : float_of ?t = OutOfFuel |- _ => destruct t; discriminate E
    end.
Qed.

(** The fuel given to the loop is never used up: [pos] grows by at least
    three fields a turn and stays inside the line. *)
Lemma while_loop_fuel (voidline : list token) (coredens : Q) (fuel : nat) (l : locals) :
  (0 <= pos l < Z.of_nat (length voidline))%Z ->
  (Z.of_nat (length voidline) - pos l <= Z.of_nat fuel)%Z ->
  while_loop pol voidsread fuel voidline coredens l <> OutOfFuel.
Proof.
  revert l. induction fuel as [|f IH]; intros l Hpos Hfuel.
  - lia.
  - cbn [while_loop].
    destruct ((0 <? num_zones_to_add l)%Z && add_more l) eqn:G; [|discriminate].
    apply andb_prop in G. destruct G as [Gn _]. apply Z.ltb_lt in Gn.
    destruct (merge_turn pol voidsread voidline coredens l) as [l'| |] eqn:T;
      cbn [Py.bind]; try discriminate.
    + destruct (merge_turn_pos _ _ _ T) as [Hp [t Ht]].
      apply getitem_ok_bound in Ht; [|lia].
      apply IH; lia.
    + exfalso. eapply merge_turn_not_fuel; exact T.
Qed.

End Loop.
(** [1 in edgelist[np.in1d(vid, zs)]] looks for a candidate with edge flag 1
    among those whose zone is in [zs]. *)
Lemma edge_test (cs : list candidate) (zs : list Z) :
  contains 1 (select (in1d (vid cs) zs) (edgelist cs))
  = existsb (fun c => contains (vid_of c) zs && (edge_of c =? 1)%Z) cs.
Proof.
  unfold vid, edgelist, in1d, select, contains at 1.
  induction cs as [|c cs IH]; [reflexivity|].
  cbn [map combine filter fst existsb].
  destruct (contains (vid_of c) zs); cbn [map snd existsb andb orb].
  - rewrite IH. now rewrite (Z.eqb_sym 1).
  - exact IH.
Qed.

Section Pruned.

Variable min_dens_cut : Q.
Variable void_min_num : Z.
Variable meanvol_trc : Q.
Variable voidsread : list candidate.
Variable hierarchy : list (list token).
Variable zonedata : list Z.
Variables vols densities : list Q.

#[local] Abbreviation step :=
  (candidate_step hard_coded min_dens_cut void_min_num meanvol_trc voidsread hierarchy
                  zonedata vols densities).
#[local] Abbreviation run :=
  (prune hard_coded min_dens_cut void_min_num meanvol_trc voidsread hierarchy
         zonedata vols densities).
#[local] Abbreviation accepted := (seed_accepted min_dens_cut void_min_num hierarchy).
#[local] Abbreviation flag_of := (neighbour_edge_flag voidsread hierarchy).
#[local] Abbreviation line_of := (seed_line hierarchy).
#[local] Abbreviation row_of := (seed_row meanvol_trc hierarchy).
#[local] Abbreviation zone_of := (fun ck : candidate * Z => vid_of (fst ck)).

(** With the hard-coded parameters a candidate that passes the three tests
    adds its own zone, one flag, one line and one row; any other
    candidate changes nothing. *)
Lemma candidate_step_hard_coded (st st' : out_state) (ck : candidate * Z) :
  step st ck = Ok st' ->
  (accepted ck = true ->
     counted_zones st' = counted_zones st ++ [zone_of ck]
     /\ edge_flag st' = edge_flag st ++ [flag_of ck]
     /\ num__acc st' = (num__acc st + 1)%Z
     /\ Fnewvoid st' = Fnewvoid st ++ [line_of ck]
     /\ Fnewlist st' = Fnewlist st ++ [row_of ck]
     /\ members st' = members st ++ [[zone_of ck]])
  /\ (accepted ck = false -> st' = st).
Proof.
  intro H. unfold candidate_step in H.
  destruct (getitem hierarchy (snd ck)) as [voidline| |] eqn:Eline; cbn [Py.bind] in H;
    try discriminate.
  destruct (getitem voidline 1) as [tn| |] eqn:Etn; cbn [Py.bind] in H; try discriminate.
  destruct (int_of tn) as [n| |] eqn:En; cbn [Py.bind] in H; try discriminate.
  destruct (getitem voidline 2) as [tr| |] eqn:Etr; cbn [Py.bind] in H; try discriminate.
  destruct (float_of tr) as [r| |] eqn:Er; cbn [Py.bind] in H; try discriminate.
  assert (Hfs : first_step hierarchy (snd ck) = Ok (n, r)).
  { unfold first_step. rewrite Eline. cbn [Py.bind]. rewrite Etn. cbn [Py.bind].
    rewrite En. cbn [Py.bind]. rewrite Etr. cbn [Py.bind]. rewrite Er. reflexivity. }
  assert (Hacc : passes hard_coded min_dens_cut void_min_num (fst ck) r (counted_zones st)
                 = accepted ck).
  { unfold passes, seed_accepted. rewrite Hfs.
    cbn [count_all_voids hard_coded orb]. apply andb_true_r. }
  rewrite Hacc in H. destruct (accepted ck) eqn:A.
  2:{ split; [discriminate|]. intros _. now injection H. }
  split; [intros _|discriminate].
  assert (Hlen : (2 < Z.of_nat (length voidline))%Z) by (eapply getitem_ok_bound; [exact Etr | lia]).
  destruct (length voidline) as [|f] eqn:L; [lia|].
  cbn [while_loop num_zones_to_add add_more] in H.
  destruct (0 <? n)%Z eqn:Gn; cbn [andb] in H.
  - (* the first merge step is read, and refused *)
    destruct (merge_turn hard_coded voidsread voidline (col3 (fst ck)) _) as [l| |] eqn:T;
      cbn [Py.bind] in H; try discriminate.
    unfold merge_turn, cannot_add in T.
    cbn [pos num_zones_to_add finalpos rval rstopadd num_adds zonelist total_vol
         total_num_parts dont_merge hard_coded] in T.
    destruct (mapM int_of _) as [zs| |] eqn:Ezs; cbn [Py.bind] in T; try discriminate.
    bind_ok T. injection T as <-.
    assert (W : forall l0, add_more l0 = false ->
                while_loop hard_coded voidsread f voidline (col3 (fst ck)) l0 = Ok l0).
    { intros l0 Hl0. destruct f; cbn [while_loop]; rewrite Hl0, andb_false_r; reflexivity. }
    rewrite W in H by reflexivity. cbn [Py.bind] in H. injection H as <-.
    assert (Hz : first_step_zones hierarchy (snd ck) = zs).
    { unfold first_step_zones. rewrite Eline, Hfs, Gn.
      replace (n + 3)%Z with (1 + n + 2)%Z by lia.
      change (1 + 2)%Z with 3%Z in Ezs. now rewrite Ezs. }
    unfold record_void.
    cbn [counted_zones edge_flag num__acc Fnewvoid Fnewlist members use_stripping hard_coded
         zonelist zonestoadd finalpos add_more rstopadd num_adds total_vol total_num_parts].
    repeat split.
    + rewrite edge_test. unfold neighbour_edge_flag. now rewrite Hz.
    + unfold seed_line. rewrite Eline, Hfs, Gn.
      do 2 f_equal. change ([TInt 0; TFloat r]) with ([TInt 0] ++ [TFloat r]).
      f_equal. f_equal. change ((1 + n + 1 - (n + 1))%Z = 1%Z). lia.
    + unfold seed_row, stop_ratio. rewrite Hfs, Gn. reflexivity.
  - (* the line has no merge step *)
    cbn [Py.bind] in H. injection H as <-.
    assert (Hz : first_step_zones hierarchy (snd ck) = []).
    { unfold first_step_zones. now rewrite Eline, Hfs, Gn. }
    unfold record_void.
    cbn [counted_zones edge_flag num__acc Fnewvoid Fnewlist members use_stripping hard_coded
         zonelist zonestoadd finalpos add_more rstopadd num_adds total_vol total_num_parts].
    repeat split.
    + rewrite edge_test. unfold neighbour_edge_flag. now rewrite Hz.
    + unfold seed_line. rewrite Eline, Hfs, Gn. now rewrite app_nil_l.
    + unfold seed_row, stop_ratio. rewrite Hfs, Gn. reflexivity.
Qed.

(** The loop adds, in order, what the accepted candidates add. *)
Lemma prune_hard_coded (todo : list (candidate * Z)) (st st' : out_state) :
  run todo st = Ok st' ->
  counted_zones st' = counted_zones st ++ map zone_of (filter accepted todo)
  /\ edge_flag st' = edge_flag st ++ map flag_of (filter accepted todo)
  /\ num__acc st' = (num__acc st + Z.of_nat (length (filter accepted todo)))%Z
  /\ Fnewvoid st' = Fnewvoid st ++ map line_of (filter accepted todo)
  /\ Fnewlist st' = Fnewlist st ++ map row_of (filter accepted todo)
  /\ members st' = members st ++ map (fun ck => [zone_of ck]) (filter accepted todo).
Proof.
  revert st. induction todo as [|ck todo IH]; intros st H.
  - injection H as <-. cbn [filter map length]. rewrite !app_nil_r, Z.add_0_r. tauto.
  - cbn [prune] in H.
    destruct (step st ck) as [st1| |] eqn:S1; cbn [Py.bind] in H; try discriminate.
    destruct (candidate_step_hard_coded _ _ S1) as [Hyes Hno].
    destruct (IH _ H) as (I1 & I2 & I3 & I4 & I5 & I6).
    cbn [filter]. destruct (accepted ck) eqn:A.
    + destruct (Hyes eq_refl) as (Y1 & Y2 & Y3 & Y4 & Y5 & Y6).
      rewrite I1, I2, I3, I4, I5, I6, Y1, Y2, Y3, Y4, Y5, Y6.
      cbn [map length]. rewrite <- !app_assoc. cbn [app].
      repeat split; try reflexivity. lia.
    + rewrite (Hno eq_refl) in *. tauto.
Qed.


End Pruned.

(** The policy does not matter for the fuel: no run of the loop over the
    candidates ends for want of it. *)
Lemma prune_not_fuel (pol : policy) (min_dens_cut : Q) (void_min_num : Z) (meanvol_trc : Q)
    (voidsread : list candidate) (hierarchy : list (list token)) (zonedata : list Z)
    (vols densities : list Q) (todo : list (candidate * Z)) (st : out_state) :
  prune pol min_dens_cut void_min_num meanvol_trc voidsread hierarchy zonedata vols densities
        todo st <> OutOfFuel.
Proof.
  revert st. induction todo as [|ck todo IH]; intro st; cbn [prune]; [discriminate|].
  destruct (candidate_step _ _ _ _ _ _ _ _ _ st ck) as [st1| |] eqn:S1; cbn [Py.bind];
    [apply IH | discriminate |].
  exfalso. unfold candidate_step in S1.
  destruct (getitem hierarchy (snd ck)) as [voidline| |] eqn:Eline; cbn [Py.bind] in S1;
    try discriminate; [|eapply getitem_not_fuel; exact Eline].
  destruct (getitem voidline 1) as [tn| |] eqn:Etn; cbn [Py.bind] in S1;
    try discriminate; [|eapply getitem_not_fuel; exact Etn].
  destruct tn as [n|q]; cbn [int_of Py.bind] in S1; try discriminate.
  destruct (getitem voidline 2) as [tr| |] eqn:Etr; cbn [Py.bind] in S1;
    try discriminate; [|eapply getitem_not_fuel; exact Etr].
  assert (Er : exists r, float_of tr = Ok r) by (destruct tr; cbn; eauto).
  destruct Er as [r Er]. rewrite Er in S1. cbn [Py.bind] in S1.
  destruct (passes _ _ _ _ _ _); [|discriminate].
  destruct (while_loop pol voidsread (length voidline) voidline (col3 (fst ck)) _)
    as [l| |] eqn:W; cbn [Py.bind] in S1; try discriminate.
  revert W. apply while_loop_fuel; cbn [pos].
  - split; [lia|]. eapply getitem_ok_bound; [exact Etn | lia].
  - lia.
Qed.

(** Keeping some of the candidates keeps their zones distinct. *)
Lemma kept_zones_distinct (keep : candidate * Z -> bool) (todo : list (candidate * Z)) :
  NoDup (map (fun ck => vid_of (fst ck)) todo) ->
  NoDup (map (fun ck => vid_of (fst ck)) (filter keep todo)).
Proof.
  induction todo as [|ck todo IH]; intro Hnd; [constructor|].
  cbn [map filter] in *. apply NoDup_cons_iff in Hnd. destruct Hnd as [Hfresh Hrest].
  destruct (keep ck); [|exact (IH Hrest)].
  cbn [map]. apply NoDup_cons; [|exact (IH Hrest)].
  rewrite in_map_iff. intros (ck' & Hsame & Hkept).
  apply filter_In in Hkept. apply Hfresh.
  rewrite in_map_iff. exists ck'. tauto.
Qed.

(** For a line whose first count is not negative, the line written for a
    seed is the seed, the count 0 and the stop ratio: no zone follows. *)
Lemma seed_line_shape (hierarchy : list (list token)) (ck : candidate * Z) (n1 : Z) (r1 : Q) :
  first_step hierarchy (snd ck) = Ok (n1, r1) ->
  (0 <= n1)%Z ->
  exists voidline seed,
    getitem hierarchy (snd ck) = Ok voidline
    /\ getitem voidline 0 = Ok seed
    /\ seed_line hierarchy ck = [seed; TInt 0; TFloat (stop_ratio hierarchy ck)].
Proof.
  intros Hfs Hn. unfold seed_line, stop_ratio. rewrite Hfs.
  unfold first_step in Hfs.
  destruct (getitem hierarchy (snd ck)) as [voidline| |]; cbn [Py.bind] in Hfs;
    try discriminate.
  destruct (getitem voidline 1) as [tn| |] eqn:Etn; cbn [Py.bind] in Hfs; try discriminate.
  destruct (int_of tn) as [n| |] eqn:En; cbn [Py.bind] in Hfs; try discriminate.
  destruct (getitem voidline 2) as [tr| |] eqn:Etr; cbn [Py.bind] in Hfs; try discriminate.
  destruct (float_of tr) as [r| |]; cbn [Py.bind] in Hfs; try discriminate.
  injection Hfs as -> ->.
  rewrite getitem_nonneg in Etn, Etr by lia.
  destruct voidline as [|v0 [|v1 [|v2 rest]]]; try discriminate.
  cbn in Etn. injection Etn as ->.
  exists (v0 :: tn :: v2 :: rest), v0. split; [reflexivity|]. split; [reflexivity|].
  destruct tn as [z|q]; [|discriminate]. cbn in En. injection En as ->.
  destruct (0 <? n1)%Z eqn:G.
  - unfold slice_to, bound. cbn [length Z.ltb Z.compare].
    replace (Z.to_nat _) with 1%nat by lia. reflexivity.
  - apply Z.ltb_ge in G. assert (n1 = 0%Z) by lia. subst n1.
    unfold slice_to, bound. cbn [length Z.ltb Z.compare Z.add Pos.add].
    replace (Z.to_nat _) with 2%nat by lia. reflexivity.
Qed.

(** The method is the loop, run on the sorted list. *)
Lemma postprocess_voids_prune (pol : policy) (min_dens_cut : Q) (void_min_num : Z)
    (meanvol_trc : Q) (listfile : list candidate) (voidfile : list (list token))
    (zonedata : list Z) (vols densities : list Q) (st : out_state) :
  postprocess_voids pol min_dens_cut void_min_num meanvol_trc listfile voidfile zonedata
                    vols densities = Ok st ->
  exists voidsread,
    mapM (getitem listfile) (argsort (map col3 listfile)) = Ok voidsread
    /\ prune pol min_dens_cut void_min_num meanvol_trc voidsread (tl voidfile) zonedata
             vols densities (combine voidsread (argsort (map col3 listfile))) initial
       = Ok st.
Proof.
  unfold postprocess_voids. intro H.
  destruct (length listfile <? 2)%nat; [discriminate|].
  destruct (mapM (getitem listfile) _) as [voidsread| |]; cbn [Py.bind] in H;
    try discriminate.
  destruct (getitem voidfile 0) as [first| |]; cbn [Py.bind] in H; try discriminate.
  destruct (match first with [t] => int_of t | _ => Raise ValueError end) as [nvoids| |];
    cbn [Py.bind] in H; try discriminate.
  destruct (negb _); [discriminate|].
  exists voidsread. split; [reflexivity | exact H].
Qed.

(** C1.  With the hard-coded parameters a run of the loop that ends writes
    one row of [_list.txt] and one line of [.void] for each candidate that
    passes the three tests, in the order of the sorted list, and for no
    other: the rows are those of the candidates kept by the filter
    [seed_accepted], which holds exactly when the first ratio is at least
    1, the core density is below [min_dens_cut] and the zone has at least
    [void_min_num] particles.  [count_all_voids] being set, the test of the
    method does not depend on the zones counted so far. *)
Theorem seeds_pass_three_tests (min_dens_cut : Q) (void_min_num : Z) (meanvol_trc : Q)
    (voidsread : list candidate) (hierarchy : list (list token)) (zonedata : list Z)
    (vols densities : list Q) (todo : list (candidate * Z)) (st : out_state) :
  prune hard_coded min_dens_cut void_min_num meanvol_trc voidsread hierarchy zonedata vols
        densities todo initial = Ok st ->
  Fnewlist st
  = map (seed_row meanvol_trc hierarchy)
        (filter (seed_accepted min_dens_cut void_min_num hierarchy) todo)
  /\ Fnewvoid st
     = map (seed_line hierarchy)
           (filter (seed_accepted min_dens_cut void_min_num hierarchy) todo)
  /\ num__acc st
     = Z.of_nat (length (filter (seed_accepted min_dens_cut void_min_num hierarchy) todo))
  /\ (forall ck n1 r1,
        first_step hierarchy (snd ck) = Ok (n1, r1) ->
        (seed_accepted min_dens_cut void_min_num hierarchy ck = true
         <-> 1 <= r1 /\ col3 (fst ck) < min_dens_cut
             /\ (void_min_num <= numpart_of (fst ck))%Z))
  /\ (forall c r counted,
        passes hard_coded min_dens_cut void_min_num c r counted
        = Qle_bool 1 r && Qltb (col3 c) min_dens_cut
          && (void_min_num <=? numpart_of c)%Z).
Proof.
  intro H. apply prune_hard_coded in H. destruct H as (_ & _ & Hn & Hv & Hl & _).
  cbn [initial Fnewlist Fnewvoid num__acc app] in *.
  split; [exact Hl|]. split; [exact Hv|]. split; [exact Hn|].
  split; [|intros c r counted; unfold passes;
            cbn [count_all_voids hard_coded orb]; apply andb_true_r].
  intros ck n1 r1 H. split; [intro H0; repeat split|].
  - unfold seed_accepted in H0. rewrite H in H0.
    apply andb_prop in H0. destruct H0 as [H0 _].
    apply andb_prop in H0. destruct H0 as [H0 _]. now apply Qle_bool_iff.
  - unfold seed_accepted in H0. rewrite H in H0.
    apply andb_prop in H0. destruct H0 as [H0 _].
    apply andb_prop in H0. destruct H0 as [_ H0]. now apply BoxFacts.Qltb_lt.
  - unfold seed_accepted in H0. rewrite H in H0.
    apply andb_prop in H0. destruct H0 as [_ H0]. now apply Z.leb_le.
  - intros (H1 & H2 & H3). unfold seed_accepted. rewrite H.
    apply Qle_bool_iff in H1. apply BoxFacts.Qltb_lt in H2. apply Z.leb_le in H3.
    now rewrite H1, H2, H3.
Qed.

Lemma seeds_pass_three_tests_sample :
  num__acc Samples.pruned_state = 2%Z.
Proof.
  destruct (@seeds_pass_three_tests 1 1 100 Samples.listfile (tl Samples.voidfile)
              Samples.zonedata Samples.vols Samples.densities Samples.todo
              Samples.pruned_state eq_refl)
    as (_ & _ & Hn & _).
  exact Hn.
Defined.

(** C2.  With the hard-coded parameters (nothing is merged), for a list
    file that names each zone once, a run of the loop that ends gives every
    accepted seed its own zone as its only member zone; the zones counted
    are these and occur once each, every row of [_list.txt] counts one
    zone, and no zone is a member of two of the voids.  The line written to
    the new [.void] file for a seed names the seed and no further zone. *)
Theorem accepted_voids_are_zone_disjoint (min_dens_cut : Q) (void_min_num : Z)
    (meanvol_trc : Q) (voidsread : list candidate) (hierarchy : list (list token))
    (zonedata : list Z) (vols densities : list Q) (todo : list (candidate * Z))
    (st : out_state) :
  prune hard_coded min_dens_cut void_min_num meanvol_trc voidsread hierarchy zonedata vols
        densities todo initial = Ok st ->
  NoDup (map (fun ck => vid_of (fst ck)) todo) ->
  members st
  = map (fun ck => [vid_of (fst ck)])
        (filter (seed_accepted min_dens_cut void_min_num hierarchy) todo)
  /\ counted_zones st = concat (members st)
  /\ NoDup (counted_zones st)
  /\ Forall (fun row => VoidNumZones row = 1%Z) (Fnewlist st)
  /\ (forall i j zi zj z,
        i <> j ->
        nth_error (members st) i = Some zi ->
        nth_error (members st) j = Some zj ->
        In z zi -> ~ In z zj)
  /\ Fnewvoid st
     = map (seed_line hierarchy)
           (filter (seed_accepted min_dens_cut void_min_num hierarchy) todo)
  /\ (forall ck n1 r1,
        first_step hierarchy (snd ck) = Ok (n1, r1) ->
        (0 <= n1)%Z ->
        exists voidline seed,
          getitem hierarchy (snd ck) = Ok voidline
          /\ getitem voidline 0 = Ok seed
          /\ seed_line hierarchy ck = [seed; TInt 0; TFloat (stop_ratio hierarchy ck)]).
Proof.
  intros H Hnd. apply prune_hard_coded in H.
  destruct H as (Hc & _ & _ & Hv & Hl & Hm).
  cbn [initial counted_zones Fnewvoid Fnewlist members app] in *.
  set (kept := filter (seed_accepted min_dens_cut void_min_num hierarchy) todo) in *.
  assert (Hk : NoDup (map (fun ck => vid_of (fst ck)) kept)) by now apply kept_zones_distinct.
  split; [exact Hm|]. split; [|split; [|split; [|split; [|split; [exact Hv|]]]]].
  5:{ intros ck n1 r1. apply seed_line_shape. }
  - rewrite Hc, Hm. clear. induction kept as [|ck kept IH]; cbn; [reflexivity|].
    now rewrite IH.
  - now rewrite Hc.
  - rewrite Hl. apply Forall_forall. intros row Hrow.
    apply in_map_iff in Hrow. destruct Hrow as (ck & <- & _). reflexivity.
  - intros i j zi zj z Hij Hi Hj Hzi Hzj. rewrite Hm in Hi, Hj.
    rewrite nth_error_map in Hi, Hj.
    destruct (nth_error kept i) as [cki|] eqn:Ei; [|discriminate].
    destruct (nth_error kept j) as [ckj|] eqn:Ej; [|discriminate].
    cbn [option_map] in Hi, Hj. injection Hi as <-. injection Hj as <-.
    destruct Hzi as [Hzi|[]]. destruct Hzj as [Hzj|[]].
    apply Hij. rewrite NoDup_nth_error in Hk. apply Hk.
    + rewrite length_map. apply nth_error_Some. congruence.
    + rewrite !nth_error_map, Ei, Ej. cbn [option_map]. congruence.
Qed.

Lemma accepted_voids_are_zone_disjoint_sample :
  members Samples.pruned_state = [[5%Z]; [8%Z]]
  /\ NoDup (counted_zones Samples.pruned_state).
Proof.
  destruct (@accepted_voids_are_zone_disjoint 1 1 100 Samples.listfile (tl Samples.voidfile)
              Samples.zonedata Samples.vols Samples.densities Samples.todo
              Samples.pruned_state eq_refl)
    as (Hm & _ & Hnd & _).
  - repeat constructor; cbn; intuition discriminate.
  - split; [exact Hm | exact Hnd].
Defined.

(** C3 (amended).  The edge flag written for an accepted void is 1 when a
    candidate whose zone is named by the first merge step of the void's
    line in the hierarchy (a zone that is looked at and, nothing being
    merged, not absorbed) has edge flag 1, and 0 otherwise; the edge flag
    of the seed's own zone is not consulted. *)
Theorem edge_flag_of_first_merge_step (min_dens_cut : Q) (void_min_num : Z)
    (meanvol_trc : Q) (voidsread : list candidate) (hierarchy : list (list token))
    (zonedata : list Z) (vols densities : list Q) (todo : list (candidate * Z))
    (st : out_state) :
  prune hard_coded min_dens_cut void_min_num meanvol_trc voidsread hierarchy zonedata vols
        densities todo initial = Ok st ->
  edge_flag st
  = map (neighbour_edge_flag voidsread hierarchy)
        (filter (seed_accepted min_dens_cut void_min_num hierarchy) todo)
  /\ (forall ck,
        (neighbour_edge_flag voidsread hierarchy ck = 1%Z
         <-> exists c, In c voidsread
                       /\ In (vid_of c) (first_step_zones hierarchy (snd ck))
                       /\ edge_of c = 1%Z)
        /\ (neighbour_edge_flag voidsread hierarchy ck = 1%Z
            \/ neighbour_edge_flag voidsread hierarchy ck = 0%Z)).
Proof.
  intro H. apply prune_hard_coded in H. destruct H as (_ & He & _).
  cbn [initial edge_flag app] in He. split; [exact He|].
  intro ck. unfold neighbour_edge_flag.
  destruct (existsb _ voidsread) eqn:E.
  - split; [|now left]. split; [intros _|reflexivity].
    apply existsb_exists in E. destruct E as (c & Hc & Hb).
    apply andb_prop in Hb. destruct Hb as [Hz He1].
    exists c. split; [exact Hc|]. split; [|now apply Z.eqb_eq].
    unfold contains in Hz. apply existsb_exists in Hz. destruct Hz as (z & Hz & Hzz).
    apply Z.eqb_eq in Hzz. now subst.
  - split; [|now right]. split; [discriminate|].
    intros (c & Hc & Hz & He1). exfalso.
    assert (existsb (fun c0 => contains (vid_of c0) (first_step_zones hierarchy (snd ck))
                               && (edge_of c0 =? 1)%Z) voidsread = true); [|congruence].
    apply existsb_exists. exists c. split; [exact Hc|].
    apply andb_true_intro. split; [|now apply Z.eqb_eq].
    unfold contains. apply existsb_exists. exists (vid_of c). split; [exact Hz|].
    apply Z.eqb_refl.
Qed.

Lemma edge_flag_of_first_merge_step_sample :
  edge_flag Samples.pruned_state = [1%Z; 0%Z].
Proof.
  destruct (@edge_flag_of_first_merge_step 1 1 100 Samples.listfile (tl Samples.voidfile)
              Samples.zonedata Samples.vols Samples.densities Samples.todo
              Samples.pruned_state eq_refl)
    as (He & _).
  exact He.
Defined.

(** C3, the claim as stated fails.  Zone 5 is clean and zone 8 has edge
    flag 1; each is accepted with itself as its only member zone.  The
    method flags the void of zone 5 (its first merge step names zone 8)
    and does not flag the void of zone 8, while the flags taken over the
    absorbed zones are 0 and 1. *)
Lemma edge_flag_is_not_of_absorbed_zones :
  exists st,
    postprocess_voids hard_coded 1 1 100 Samples.listfile Samples.voidfile
                      Samples.zonedata Samples.vols Samples.densities = Ok st
    /\ members st = [[5%Z]; [8%Z]]
    /\ edge_flag st = [1%Z; 0%Z]
    /\ map (spec_edge_flag Samples.listfile) (members st) = [0%Z; 1%Z].
Proof.
  eexists. split; [vm_compute; reflexivity|].
  repeat split.
Qed.

End VoidFacts.

(* ================================================================== *)
(** * Further properties of the tracer store *)

Module StoreMore.

Import TracerStore.

Lemma tofile_length (c : list float64) : length (tofile c) = (8 * length c)%nat.
Proof.
  unfold tofile. induction c as [|w c IH]; [reflexivity|].
  cbn [flat_map length]. rewrite length_app, StoreFacts.le_encode_length, IH. lia.
Qed.

(** Reading more items than the file holds gives the whole items it holds. *)
Lemma read_items_short (size : nat) (c : list Z) (tail : list byte) (n : nat) :
  (length c <= n)%nat ->
  (length tail < size)%nat ->
  fst (read_items size n (flat_map (le_encode size) c ++ tail)) = map (le_encode size) c.
Proof.
  revert n. induction c as [|w c IH]; intros n Hn Ht.
  - cbn [flat_map app map]. destruct n as [|n]; [reflexivity|].
    cbn [read_items].
    replace (size <=? length tail)%nat with false by (symmetry; apply Nat.leb_gt; lia).
    reflexivity.
  - destruct n as [|n]; [cbn in Hn; lia|].
    cbn [length flat_map map read_items] in *. rewrite <- app_assoc.
    set (more := flat_map (le_encode size) c ++ tail) in *.
    pose proof (StoreFacts.le_encode_length size w) as L.
    assert (Hle : (size <=? length (le_encode size w ++ more))%nat = true)
      by (apply Nat.leb_le; rewrite length_app; lia).
    assert (Hs : skipn size (le_encode size w ++ more) = more).
    { rewrite skipn_app, L, Nat.sub_diag, skipn_all2 by lia. reflexivity. }
    assert (Hf : firstn size (le_encode size w ++ more) = le_encode size w).
    { rewrite firstn_app, L, Nat.sub_diag, firstn_all2 by lia. apply app_nil_r. }
    rewrite Hle, Hs, Hf.
    specialize (IH n ltac:(lia) Ht).
    destruct (read_items size n more) as [items rest]. cbn [fst] in *.
    now rewrite IH.
Qed.

(** X1.  The position file of a well-formed table of [N] rows has
    [4 + 24 N] bytes in box mode and [4 + 48 N] in survey mode: the count,
    then three or six columns of eight-byte values. *)
Theorem posn_file_size (self : zobov) (t : Np.array2 float64) :
  tracers self = Table t ->
  Np.wf t ->
  ((if is_box self then 3 else 6) <= Np.ncols t)%nat ->
  exists self1,
    write_box_zobov self = Ok self1
    /\ length (posn_file self1)
       = (4 + 8 * (if is_box self then 3 else 6) * Np.nrows t)%nat
    /\ tracers self1 = tracers self
    /\ num_part_total self1 = num_part_total self.
Proof.
  intros Ht Hwf Hc. destruct self as [box n tr file].
  cbn [tracers is_box num_part_total] in *. subst tr.
  destruct t as [m cols]. unfold Np.wf, Np.ncols in *. cbn [Np.nrows Np.columns] in *.
  assert (H3 : (3 <= length cols)%nat) by (destruct box; lia).
  destruct (StoreFacts.three_columns cols H3) as (c0 & c1 & c2 & r & ->).
  repeat match goal with
         | H : Forall _ (_ :: _) |- _ => inversion H; clear H; subst
         end.
  destruct box.
  - eexists. split; [reflexivity|].
    cbn [posn_file set_posn_file tracers num_part_total is_box].
    split; [|split; reflexivity].
    unfold int32_bytes.
    rewrite !length_app, StoreFacts.le_encode_length, !tofile_length. lia.
  - destruct r as [|c3 [|c4 [|c5 r]]]; cbn [length] in Hc; try lia.
    repeat match goal with
           | H : Forall _ (_ :: _) |- _ => inversion H; clear H; subst
           end.
    eexists. split; [reflexivity|].
    cbn [posn_file set_posn_file tracers num_part_total is_box].
    split; [|split; reflexivity].
    unfold int32_bytes.
    rewrite !length_app, StoreFacts.le_encode_length, !tofile_length. lia.
Qed.

Lemma posn_file_size_survey_sample :
  exists self1,
    write_box_zobov Samples.survey_store = Ok self1
    /\ length (posn_file self1) = 100%nat.
Proof.
  destruct (@posn_file_size Samples.survey_store
              (Np.Array2 2 [[1; 2]; [3; 4]; [5; 6]; [7; 8]; [9; 10]; [11; 12]]%Z)
              eq_refl) as (self1 & Hw & Hl & _).
  - repeat constructor.
  - unfold Np.ncols. simpl. lia.
  - exists self1. split; [exact Hw | exact Hl].
Defined.

(** X2.  A count in the file that differs from [num_part_total] stops the
    run: [reread_tracer_info] ends in [sys.exit] whatever follows the
    count, and no table is built. *)
Theorem reread_count_mismatch (uninit : nat -> nat -> float64) (self : zobov)
    (n : Z) (rest : list byte) :
  posn_file self = int32_bytes n ++ rest ->
  (0 <= n < 2 ^ 31)%Z ->
  (0 <= num_part_total self)%Z ->
  n <> num_part_total self ->
  reread_tracer_info uninit self = Raise SystemExit.
Proof.
  intros Hf Hn Hp Hne. unfold reread_tracer_info.
  replace (num_part_total self <? 0)%Z with false by (symmetry; apply Z.ltb_ge; lia).
  rewrite Hf.
  destruct (StoreFacts.fromfile_header rest Hn) as [-> E].
  cbn [map getitem Py.bind Z.ltb Z.compare Z.to_nat nth_error length Z.of_nat].
  rewrite E.
  replace (n =? num_part_total self)%Z with false by (symmetry; apply Z.eqb_neq; exact Hne).
  reflexivity.
Qed.

Lemma reread_count_mismatch_sample :
  reread_tracer_info (fun _ _ => 0%Z)
    (Zobov true 3 (PyInt 0) (int32_bytes 2 ++ tofile [1; 2; 3; 4; 5; 6]%Z))
  = Raise SystemExit.
Proof.
  apply (@reread_count_mismatch (fun _ _ => 0%Z)
           (Zobov true 3 (PyInt 0) (int32_bytes 2 ++ tofile [1; 2; 3; 4; 5; 6]%Z))
           2%Z (tofile [1; 2; 3; 4; 5; 6]%Z)).
  - reflexivity.
  - split; [apply Z.leb_le | apply Z.ltb_lt]; reflexivity.
  - cbn. lia.
  - cbn. lia.
Defined.

(** X3.  A position file that is too short to hold the count (an empty
    file, for one) is an [IndexError], raised before any comparison. *)
Theorem reread_without_count (uninit : nat -> nat -> float64) (self : zobov) :
  (length (posn_file self) < 4)%nat ->
  (0 <= num_part_total self)%Z ->
  reread_tracer_info uninit self = Raise IndexError.
Proof.
  intros Hl Hp. unfold reread_tracer_info.
  replace (num_part_total self <? 0)%Z with false by (symmetry; apply Z.ltb_ge; lia).
  unfold fromfile. change (if (1 <? 0)%Z then _ else Z.to_nat 1) with 1%nat.
  cbn [read_items].
  replace (4 <=? length (posn_file self))%nat with false
    by (symmetry; apply Nat.leb_gt; exact Hl).
  reflexivity.
Qed.

Lemma reread_without_count_sample :
  reread_tracer_info (fun _ _ => 0%Z) (delete_tracer_info Samples.box_store)
  = Raise IndexError.
Proof.
  apply (@reread_without_count (fun _ _ => 0%Z) (delete_tracer_info Samples.box_store)).
  - cbn. lia.
  - cbn. lia.
Defined.

(** A full column is stored whatever its values are; a value is read back
    as its low 64 bits. *)
Lemma read_column_full (t : Np.array2 float64) (c : list float64)
    (rest : list byte) (j : nat) :
  length c = Np.nrows t -> (j < Np.ncols t)%nat ->
  read_column (Z.of_nat (Np.nrows t)) j (t, tofile c ++ rest)
  = Ok (Np.Array2 (Np.nrows t)
          (Np.list_set_col j (map (fun w => w mod 2 ^ 64)%Z c) (Np.columns t)), rest).
Proof.
  intros Hl Hj. unfold read_column. cbn [fst snd].
  rewrite <- Hl, StoreFacts.fromfile_column.
  unfold Np.set_col. apply Nat.ltb_lt in Hj. rewrite Hj.
  rewrite !length_map.
  match goal with
  | |- context [(?a =? Np.nrows t)%nat] =>
      replace (a =? Np.nrows t)%nat with true by (symmetry; apply Nat.eqb_eq; exact Hl)
  end.
  rewrite map_map. cbn [Py.bind]. rewrite Hl.
  do 4 f_equal. apply map_ext. intro w. apply StoreFacts.le_decode_encode.
Qed.

(** A column cut short is a shape error, unless one value is left of it. *)
Lemma read_column_short (t : Np.array2 float64) (c : list float64)
    (tail : list byte) (j : nat) :
  (length c < Np.nrows t)%nat -> length c <> 1%nat -> (length tail < 8)%nat ->
  (j < Np.ncols t)%nat ->
  read_column (Z.of_nat (Np.nrows t)) j (t, tofile c ++ tail) = Raise ValueError.
Proof.
  intros Hl H1 Ht Hj. unfold read_column, fromfile. cbn [fst snd].
  replace (Z.of_nat (Np.nrows t) <? 0)%Z with false by (symmetry; apply Z.ltb_ge; lia).
  rewrite Nat2Z.id.
  pose proof (@read_items_short 8 c tail (Np.nrows t) (Nat.lt_le_incl _ _ Hl) Ht) as R.
  unfold tofile. destruct (read_items 8 (Np.nrows t) _) as [items rest].
  cbn [fst] in R. subst items.
  unfold Np.set_col. apply Nat.ltb_lt in Hj. rewrite Hj.
  rewrite !length_map.
  match goal with
  | |- context [(?a =? Np.nrows t)%nat] =>
      replace (a =? Np.nrows t)%nat with false
        by (symmetry; apply Nat.eqb_neq; change a with (length c); lia)
  end.
  destruct c as [|x [|y c]]; cbn [map length] in *; try reflexivity. congruence.
Qed.

(** The one value left of a column is copied into every row. *)
Lemma read_column_broadcast (t : Np.array2 float64) (x : float64) (tail : list byte)
    (j : nat) :
  (2 <= Np.nrows t)%nat -> (j < Np.ncols t)%nat -> (length tail < 8)%nat ->
  exists rest,
    read_column (Z.of_nat (Np.nrows t)) j (t, le_encode 8 x ++ tail)
    = Ok (Np.Array2 (Np.nrows t)
            (Np.list_set_col j (repeat (x mod 2 ^ 64)%Z (Np.nrows t)) (Np.columns t)),
          rest).
Proof.
  intros Hn Hj Ht. unfold read_column, fromfile. cbn [fst snd].
  replace (Z.of_nat (Np.nrows t) <? 0)%Z with false by (symmetry; apply Z.ltb_ge; lia).
  rewrite Nat2Z.id.
  assert (H1 : (length [x] <= Np.nrows t)%nat) by (cbn; lia).
  pose proof (@read_items_short 8 [x] tail (Np.nrows t) H1 Ht) as R.
  cbn [flat_map map] in R. rewrite app_nil_r in R.
  destruct (read_items 8 (Np.nrows t) _) as [items rest]. cbn [fst] in R. subst items.
  exists rest. cbn [map].
  unfold Np.set_col. apply Nat.ltb_lt in Hj. rewrite Hj. cbn [length].
  replace (1 =? Np.nrows t)%nat with false by (symmetry; apply Nat.eqb_neq; lia).
  cbn [Py.bind]. rewrite StoreFacts.le_decode_encode. reflexivity.
Qed.

Ltac store_cols :=
  unfold Np.ncols, Np.empty;
  cbn [Np.columns Np.nrows Np.list_set_col map seq length]; lia.

(** X4.  A position file cut inside one of its stored columns is refused:
    when the count is right, the columns before are whole, and the cut
    column has fewer values than rows (and not exactly one), the reload
    ends in a [ValueError]. *)
Theorem reread_cut_column (uninit : nat -> nat -> float64) (self : zobov)
    (cs : list (list float64)) (c : list float64) (tail : list byte) :
  posn_file self
  = int32_bytes (num_part_total self) ++ flat_map tofile cs ++ tofile c ++ tail ->
  (0 <= num_part_total self < 2 ^ 31)%Z ->
  Forall (fun col => Z.of_nat (length col) = num_part_total self) cs ->
  (length cs < (if is_box self then 3 else 6))%nat ->
  (Z.of_nat (length c) < num_part_total self)%Z ->
  length c <> 1%nat ->
  (length tail < 8)%nat ->
  reread_tracer_info uninit self = Raise ValueError.
Proof.
  intros Hf Hn Hcs Hk Hc H1 Ht. unfold reread_tracer_info.
  replace (num_part_total self <? 0)%Z with false by (symmetry; apply Z.ltb_ge; lia).
  rewrite Hf.
  destruct (StoreFacts.fromfile_header
              (flat_map tofile cs ++ tofile c ++ tail) Hn) as [-> E].
  cbn [map getitem Py.bind Z.ltb Z.compare Z.to_nat nth_error length Z.of_nat].
  rewrite E, Z.eqb_refl. cbn [negb].
  set (N := Z.to_nat (num_part_total self)).
  assert (HN : num_part_total self = Z.of_nat N) by (unfold N; lia).
  rewrite HN in *. clearbody N.
  assert (Hshort : forall t j, Np.nrows t = N -> (j < Np.ncols t)%nat ->
            read_column (Z.of_nat N) j (t, tofile c ++ tail) = Raise ValueError).
  { intros t j <- Hj. apply read_column_short; try assumption; lia. }
  assert (Hfull : forall t col rest j, Np.nrows t = N -> Z.of_nat (length col) = Z.of_nat N ->
            (j < Np.ncols t)%nat ->
            read_column (Z.of_nat N) j (t, tofile col ++ rest)
            = Ok (Np.Array2 N (Np.list_set_col j (map (fun w => w mod 2 ^ 64)%Z col)
                                  (Np.columns t)), rest)).
  { intros t col rest j <- Hl Hj. apply read_column_full; [lia | exact Hj]. }
  destruct (is_box self); cbn [length] in Hk.
  - destruct cs as [|c0 [|c1 [|c2 cs]]]; cbn [length flat_map app] in *; try lia;
      repeat match goal with
             | H : Forall _ (_ :: _) |- _ => inversion H; clear H; subst
             | |- context [tofile ?a ++ []] => rewrite (app_nil_r (tofile a))
             | |- context [(tofile ?a ++ ?b) ++ ?d] => rewrite <- (app_assoc (tofile a) b d)
             | |- context [read_column _ _ (_, tofile c ++ tail)] =>
                 rewrite Hshort by (try reflexivity; store_cols); cbn [Py.bind]
             | |- context [read_column _ _ (_, tofile ?col ++ _)] =>
                 rewrite Hfull by (try reflexivity; try assumption; store_cols); cbn [Py.bind]
             end; reflexivity.
  - destruct cs as [|c0 [|c1 [|c2 [|c3 [|c4 [|c5 cs]]]]]]; cbn [length flat_map app] in *;
      try lia;
      repeat match goal with
             | H : Forall _ (_ :: _) |- _ => inversion H; clear H; subst
             | |- context [tofile ?a ++ []] => rewrite (app_nil_r (tofile a))
             | |- context [(tofile ?a ++ ?b) ++ ?d] => rewrite <- (app_assoc (tofile a) b d)
             | |- context [read_column _ _ (_, tofile c ++ tail)] =>
                 rewrite Hshort by (try reflexivity; store_cols); cbn [Py.bind]
             | |- context [read_column _ _ (_, tofile ?col ++ _)] =>
                 rewrite Hfull by (try reflexivity; try assumption; store_cols); cbn [Py.bind]
             end; reflexivity.
Qed.

Lemma reread_cut_column_sample :
  reread_tracer_info (fun _ _ => 0%Z)
    (Zobov true 3 (PyInt 0) (int32_bytes 3 ++ tofile [1; 2; 3]%Z ++ tofile [4; 5]%Z))
  = Raise ValueError.
Proof.
  apply (@reread_cut_column (fun _ _ => 0%Z)
           (Zobov true 3 (PyInt 0) (int32_bytes 3 ++ tofile [1; 2; 3]%Z ++ tofile [4; 5]%Z))
           [[1; 2; 3]%Z] [4; 5]%Z []).
  - reflexivity.
  - cbn. split; [apply Z.leb_le | apply Z.ltb_lt]; reflexivity.
  - repeat constructor.
  - cbn. lia.
  - cbn. lia.
  - cbn. lia.
  - cbn. lia.
Defined.

(** X5.  The cut goes unnoticed when exactly one value is left of the last
    stored column: in box mode, with two whole columns and one value of
    the third, the reload succeeds and every row gets that value as its
    third coordinate. *)
Theorem reread_copies_single_value (uninit : nat -> nat -> float64) (self : zobov)
    (c0 c1 : list float64) (x : float64) (tail : list byte) :
  is_box self = true ->
  posn_file self
  = int32_bytes (num_part_total self) ++ tofile c0 ++ tofile c1 ++ le_encode 8 x ++ tail ->
  (2 <= num_part_total self < 2 ^ 31)%Z ->
  Z.of_nat (length c0) = num_part_total self ->
  Z.of_nat (length c1) = num_part_total self ->
  (length tail < 8)%nat ->
  exists self2 t',
    reread_tracer_info uninit self = Ok self2
    /\ tracers self2 = Table t'
    /\ Np.nrows t' = Z.to_nat (num_part_total self)
    /\ nth_error (Np.columns t') 2
       = Some (repeat (x mod 2 ^ 64)%Z (Z.to_nat (num_part_total self))).
Proof.
  intros Hb Hf Hn H0 H1 Ht. unfold reread_tracer_info.
  replace (num_part_total self <? 0)%Z with false by (symmetry; apply Z.ltb_ge; lia).
  rewrite Hf, Hb.
  assert (Hn' : (0 <= num_part_total self < 2 ^ 31)%Z) by lia.
  destruct (StoreFacts.fromfile_header
              (tofile c0 ++ tofile c1 ++ le_encode 8 x ++ tail) Hn') as [-> E].
  cbn [map getitem Py.bind Z.ltb Z.compare Z.to_nat nth_error length Z.of_nat].
  rewrite E, Z.eqb_refl. cbn [negb].
  set (N := Z.to_nat (num_part_total self)).
  assert (HN : num_part_total self = Z.of_nat N) by (unfold N; lia).
  rewrite HN in *. clearbody N.
  set (t0 := Np.empty uninit N 6).
  change N with (Np.nrows t0) at 1.
  rewrite read_column_full by (try store_cols; cbn; lia).
  subst t0. cbn [Py.bind].
  match goal with
  | |- context [read_column _ 1 (?t, _)] => change (Z.of_nat N) with (Z.of_nat (Np.nrows t)) at 1
  end.
  rewrite read_column_full by (try store_cols; cbn; lia).
  cbn [Py.bind].
  match goal with
  | |- context [read_column _ 2 (?t, _)] =>
      destruct (@read_column_broadcast t x tail 2) as [rest R];
      [cbn; lia | store_cols | exact Ht | ]
  end.
  match type of R with
  | ?lhs = _ =>
      match goal with
      | |- context [read_column ?a 2 ?s] => change (read_column a 2 s) with lhs
      end
  end.
  rewrite R. cbn [Py.bind fst].
  eexists _, _. split; [reflexivity|]. split; [reflexivity|].
  split; reflexivity.
Qed.

Lemma reread_copies_single_value_sample :
  exists self2 t',
    reread_tracer_info (fun _ _ => 0%Z)
      (Zobov true 2 (PyInt 0)
             (int32_bytes 2 ++ tofile [1; 2]%Z ++ tofile [3; 4]%Z ++ le_encode 8 5))
    = Ok self2
    /\ tracers self2 = Table t'
    /\ nth_error (Np.columns t') 2 = Some [5; 5]%Z.
Proof.
  destruct (@reread_copies_single_value (fun _ _ => 0%Z)
              (Zobov true 2 (PyInt 0)
                     (int32_bytes 2 ++ tofile [1; 2]%Z ++ tofile [3; 4]%Z ++ le_encode 8 5))
              [1; 2]%Z [3; 4]%Z 5%Z [] eq_refl)
    as (self2 & t' & R & Ht & _ & Hc).
  - cbn [posn_file num_part_total]. now rewrite app_nil_r.
  - cbn. split; [apply Z.leb_le | apply Z.ltb_lt]; reflexivity.
  - reflexivity.
  - reflexivity.
  - cbn. lia.
  - exists self2, t'. split; [exact R|]. split; [exact Ht | exact Hc].
Defined.

End StoreMore.

(* ================================================================== *)
(** * Properties of the survey preparation *)

Module SurveyFacts.

Import Survey.

Lemma qmin_cases (x y : Q) : (qmin x y = x \/ qmin x y = y) /\ qmin x y <= x /\ qmin x y <= y.
Proof.
  unfold qmin. destruct (Qle_bool x y) eqn:E.
  - apply Qle_bool_iff in E. repeat split; auto; lra.
  - assert (y <= x).
    { apply Qlt_le_weak, Qnot_le_lt. intro H. apply Qle_bool_iff in H. congruence. }
    repeat split; auto; lra.
Qed.

(** The running minimum is below every redshift met. *)
Lemma fold_qmin (l : list Q) (x : Q) :
  forall y, In y (x :: l) -> fold_left qmin l x <= y.
Proof.
  revert x. induction l as [|a l IH]; intro x; cbn [fold_left].
  - intros y [<-|[]]. lra.
  - destruct (qmin_cases x a) as (_ & Hx & Ha).
    intros y [<-|[<-|Hy]].
    + apply Qle_trans with (qmin x a); [apply IH; now left | exact Hx].
    + apply Qle_trans with (qmin x a); [apply IH; now left | exact Ha].
    + apply IH. now right.
Qed.

(** Selecting by a test on the entries themselves is filtering. *)
Lemma select_by_test (p : Q -> bool) (z : list Q) :
  Voids.select (map p z) z = filter p z.
Proof.
  unfold Voids.select. induction z as [|x z IH]; [reflexivity|].
  cbn [map combine filter fst]. destruct (p x); cbn [map snd]; now rewrite IH.
Qed.

(** X6.  After the redshift cut every galaxy has a redshift within the
    limits.  When all redshifts are within the closed interval
    [[z_min, z_max]] the table is left as it is; as soon as one lies
    outside, the galaxies kept are those strictly inside the limits, in
    their order, so that a galaxy at exactly [z_min] or [z_max] is then
    dropped too. *)
Theorem redshift_cut_limits (z_min z_max : Q) (tracers t' : Np.array2 Q) :
  redshift_cut z_min z_max tracers = Ok t' ->
  exists z z',
    Np.col tracers 5 = Ok z
    /\ Np.col t' 5 = Ok z'
    /\ Forall (fun x => z_min <= x <= z_max) z'
    /\ (Forall (fun x => z_min <= x <= z_max) z -> t' = tracers)
    /\ (Exists (fun x => x < z_min \/ z_max < x) z ->
        z' = filter (fun x => Qltb z_min x && Qltb x z_max) z
        /\ Forall (fun x => z_min < x < z_max) z').
Proof.
  unfold redshift_cut. intro H.
  destruct (Np.col tracers 5) as [z| |] eqn:C5; cbn [Py.bind] in H; try discriminate.
  destruct (np_min z) as [lo| |] eqn:Hlo; cbn [Py.bind] in H; try discriminate.
  destruct z as [|x0 z]; [discriminate|]. cbn [np_min] in Hlo. injection Hlo as <-.
  pose proof (@fold_qmin z x0) as Hmin.
  assert (Hstrict : forall zs, Forall (fun x => z_min < x < z_max)
                                 (filter (fun x => Qltb z_min x && Qltb x z_max) zs)).
  { intro zs. rewrite Forall_forall. intros x Hx. apply filter_In in Hx.
    destruct Hx as [_ Hx]. apply andb_prop in Hx. destruct Hx as [H1 H2].
    apply BoxFacts.Qltb_lt in H1, H2. now split. }
  assert (Hcut : take_rows (map (fun x => Qltb z_min x && Qltb x z_max) (x0 :: z)) tracers
                 = Ok t' ->
                 Np.col t' 5 = Ok (filter (fun x => Qltb z_min x && Qltb x z_max) (x0 :: z))).
  { unfold take_rows. destruct (_ =? _)%nat; [|discriminate]. intro E. injection E as <-.
    unfold Np.col in *. cbn [Np.columns]. rewrite nth_error_map.
    destruct (nth_error (Np.columns tracers) 5); [|discriminate].
    injection C5 as ->. cbn [option_map]. rewrite <- select_by_test. reflexivity. }
  assert (Hweak : forall zs, Forall (fun x : Q => z_min < x < z_max) zs ->
                    Forall (fun x => z_min <= x <= z_max) zs).
  { intros zs Hs. eapply Forall_impl; [|exact Hs]. cbn. intros a [? ?]. split; lra. }
  destruct (Qltb (fold_left qmin z x0) z_min) eqn:Elo; cbn [Py.bind] in H.
  - (* the smallest redshift is below the lower limit *)
    apply BoxFacts.Qltb_lt in Elo.
    eexists _, _. split; [reflexivity|]. split; [exact (Hcut H)|].
    split; [apply Hweak, Hstrict|]. split; [|intros _; split; [reflexivity | apply Hstrict]].
    intro Hall.
    assert (Hin : In (fold_left qmin z x0) (x0 :: z)).
    { clear. revert x0. induction z as [|a z IH]; intro x0; cbn [fold_left]; [now left|].
      destruct (IH (qmin x0 a)) as [E|Hin]; [|now right; right].
      rewrite <- E. destruct (qmin_cases x0 a) as ([->| ->] & _); [now left | now right; left]. }
    rewrite Forall_forall in Hall. apply Hall in Hin. lra.
  - apply BoxFacts.Qltb_ge in Elo.
    destruct (np_max (x0 :: z)) as [hi| |] eqn:Hhi; cbn [Py.bind] in H; try discriminate.
    cbn [np_max] in Hhi. injection Hhi as <-.
    destruct (BufferFacts.fold_qmax z x0) as [Hin Hub].
    destruct (Qltb z_max (fold_left qmax z x0)) eqn:Ehi.
    + apply BoxFacts.Qltb_lt in Ehi.
      eexists _, _. split; [reflexivity|]. split; [exact (Hcut H)|].
      split; [apply Hweak, Hstrict|]. split; [|intros _; split; [reflexivity | apply Hstrict]].
      intro Hall. rewrite Forall_forall in Hall. apply Hall in Hin. lra.
    + apply BoxFacts.Qltb_ge in Ehi. injection H as <-.
      assert (Hall : Forall (fun x => z_min <= x <= z_max) (x0 :: z)).
      { rewrite Forall_forall. intros x Hx. split.
        - apply Qle_trans with (fold_left qmin z x0); [exact Elo | now apply Hmin].
        - apply Qle_trans with (fold_left qmax z x0); [now apply Hub | exact Ehi]. }
      eexists _, _. split; [reflexivity|]. split; [exact C5|].
      split; [exact Hall|]. split; [reflexivity|].
      intro Hex. exfalso. apply Exists_exists in Hex. destruct Hex as (x & Hx & Hout).
      rewrite Forall_forall in Hall. apply Hall in Hx. lra.
Qed.

Lemma redshift_cut_limits_sample :
  exists z z',
    Np.col MoreSamples.galaxies 5 = Ok z
    /\ Np.col MoreSamples.cut_galaxies 5 = Ok z'
    /\ Forall (fun x => 43 # 100 <= x <= 3 # 5) z'
    /\ z' = [1 # 2].
Proof.
  destruct (@redshift_cut_limits (43 # 100) (3 # 5) MoreSamples.galaxies
              MoreSamples.cut_galaxies eq_refl)
    as (z & z' & Hz & Hz' & Hin & _ & Hcut).
  exists z, z'. split; [exact Hz|]. split; [exact Hz'|]. split; [exact Hin|].
  cbn in Hz'. injection Hz' as <-. reflexivity.
Defined.

(** A coordinate of one of the first three columns is among the absolute
    positions. *)
Lemma abs_position_of (a : Np.array2 Q) (j : nat) (c : list Q) (x : Q) :
  (j < 3)%nat -> nth_error (Np.columns a) j = Some c -> In x c ->
  In (Qabs x) (Buffers.abs_positions a).
Proof.
  intros Hj Hc Hx. unfold Buffers.abs_positions. apply in_map. apply in_concat.
  exists c. split; [|exact Hx].
  apply nth_error_In with j. rewrite nth_error_firstn.
  replace (j <? 3)%nat with true by (symmetry; apply Nat.ltb_lt; exact Hj). exact Hc.
Qed.

(** A column moved by [t[:, :3] += s]. *)
Lemma shifted_column (s : Q) (t : Np.array2 Q) (j : nat) (c : list Q) :
  (j < 3)%nat ->
  nth_error (Np.columns (Survey.shift_positions s t)) j = Some c ->
  exists c0, nth_error (Np.columns t) j = Some c0 /\ c = map (fun x => x + s) c0.
Proof.
  unfold Survey.shift_positions. cbn [Np.columns]. generalize (Np.columns t).
  intros cols Hj H.
  destruct cols as [|a [|b [|d r]]]; destruct j as [|[|[|j]]]; try lia;
    cbn [firstn skipn map app nth_error] in H; try discriminate;
    injection H as <-; eexists; split; reflexivity.
Qed.

(** X7.  When the buffer mocks come from a file, every position coordinate
    of every mock lies, in box coordinates, inside the box: between [0] and
    [box_length], the ends included.  (The side of the box is twice the
    largest absolute coordinate of the mocks, plus one; the margin this
    leaves in exact arithmetic is not claimed, rounding can take from it,
    while the closed box is kept by rounding too.  The galaxies take no
    part in the side of the box; nothing of the kind holds for them.) *)
Theorem mocks_lie_inside_the_box (tracers buffers t : Np.array2 Q) (box_length : Q)
    (j : nat) (c : list Q) :
  Survey.attach_mocks tracers buffers = Ok (box_length, t) ->
  Np.wf tracers ->
  (j < 3)%nat ->
  nth_error (Np.columns t) j = Some c ->
  Forall (fun x => 0 <= x <= box_length) (skipn (Np.nrows tracers) c).
Proof.
  unfold Survey.attach_mocks, Survey.vstack, Buffers.box_length_of.
  intros H Hwf Hj Hc.
  destruct (Buffers.abs_positions buffers) as [|a0 l] eqn:Habs; [discriminate|].
  cbn [np_max Py.bind] in H.
  destruct (Np.ncols tracers =? Np.ncols buffers)%nat; [|discriminate].
  cbn [Py.bind] in H. injection H as <- <-.
  destruct (BufferFacts.fold_qmax l a0) as [_ Hub]. rewrite <- Habs in Hub.
  set (m := fold_left qmax l a0) in *.
  apply shifted_column in Hc; [|exact Hj]. destruct Hc as (c0 & Hc & ->).
  cbn [Np.columns] in Hc. rewrite nth_error_map in Hc.
  destruct (nth_error (combine (Np.columns tracers) (Np.columns buffers)) j)
    as [[ct cb]|] eqn:Hcc; [|discriminate].
  cbn [option_map fst snd] in Hc. injection Hc as <-.
  assert (Hct : nth_error (Np.columns tracers) j = Some ct
                /\ nth_error (Np.columns buffers) j = Some cb).
  { clear -Hcc. revert Hcc. generalize (Np.columns tracers), (Np.columns buffers).
    intros l1. revert j. induction l1 as [|a l1 IH]; intros [|j] [|b l2] H;
      try discriminate; cbn [combine nth_error] in *.
    - injection H as -> ->. now split.
    - now apply IH. }
  destruct Hct as [Hct Hcb].
  assert (Lct : length ct = Np.nrows tracers).
  { unfold Np.wf in Hwf. rewrite Forall_forall in Hwf. apply Hwf.
    eapply nth_error_In; exact Hct. }
  rewrite map_app, skipn_app, length_map, Lct, Nat.sub_diag, skipn_all2
    by (rewrite length_map; lia).
  cbn [skipn app]. rewrite Forall_forall. intros y Hy. apply in_map_iff in Hy.
  destruct Hy as (x & <- & Hx).
  assert (Hm : Qabs x <= m).
  { apply Hub. eapply abs_position_of; eassumption. }
  apply Qabs_Qle_condition in Hm. lra.
Qed.

Lemma mocks_lie_inside_the_box_sample :
  Forall (fun x => 0 <= x <= 201) [(1 # 2) * 201 + 60; (1 # 2) * 201 - 80].
Proof.
  assert (H := @mocks_lie_inside_the_box MoreSamples.galaxies MoreSamples.mocks
           (Survey.shift_positions ((1 # 2) * (2 * 100 + 1))
              (Np.Array2 5 [[10; 20; 30; 60; -80]; [1; 2; 3; 60; 0]; [4; 5; 6; 60; 100];
                            [150; 160; 170; 45; 180]; [-5; 0; 5; 35; 50];
                            [1 # 2; 3 # 5; 13 # 20; -1; -1]]))
           (2 * 100 + 1) 0%nat
           (map (fun x => x + (1 # 2) * (2 * 100 + 1)) [10; 20; 30; 60; -80])
           eq_refl).
  cbn [MoreSamples.galaxies Np.nrows skipn map] in H.
  eapply Forall_impl; [|apply H].
  - cbn. intros a Ha. lra.
  - repeat constructor.
  - lia.
  - reflexivity.
Defined.

End SurveyFacts.

(* ================================================================== *)
(** * Properties of the volume weights *)

Module WeightFacts.

Import Reweight VolumeWeights.

Lemma scatter_mul_length (mask : list bool) (a factors : list Q) :
  length (scatter_mul mask a factors) = length a.
Proof.
  revert a factors. induction mask as [|m mask IH]; intros [|x a] factors; try reflexivity.
  cbn [scatter_mul]. destruct m; [destruct factors|]; cbn [length]; now rewrite IH.
Qed.

(** The factor an entry under the mask meets is the one of its own row. *)
Lemma scatter_mul_nth (mask : list bool) (a w : list Q) (i : nat) (m : bool) (x f : Q) :
  nth_error mask i = Some m -> nth_error a i = Some x -> nth_error w i = Some f ->
  nth_error (scatter_mul mask a (Voids.select mask w)) i = Some (if m then x * f else x).
Proof.
  revert a w i. induction mask as [|m0 mask IH]; intros a w i Hm Ha Hw.
  - destruct i; discriminate.
  - destruct a as [|x0 a]; [destruct i; discriminate|].
    destruct w as [|f0 w]; [destruct i; discriminate|].
    unfold Voids.select. cbn [combine filter fst].
    destruct i as [|i]; cbn [nth_error] in *.
    + injection Hm as ->. injection Ha as ->. injection Hw as ->.
      destruct m; cbn [map snd scatter_mul nth_error]; reflexivity.
    + destruct m0; cbn [map snd scatter_mul nth_error]; now apply IH.
Qed.

Lemma select_length (mask : list bool) (w : list Q) :
  length mask = length w ->
  length (Voids.select mask w) = length (filter (fun m : bool => m) mask).
Proof.
  unfold Voids.select. revert w.
  induction mask as [|m mask IH]; intros [|f w] L; try reflexivity; try discriminate.
  cbn [combine filter fst]. injection L as L.
  destruct m; cbn [map length]; now rewrite IH.
Qed.

(** With a factor for every row, [a[mask] *= w[mask]] goes through. *)
Lemma imul_masked_rows (mask : list bool) (a w : list Q) :
  length mask = length a -> length mask = length w ->
  imul_masked mask a (Voids.select mask w) = Ok (scatter_mul mask a (Voids.select mask w)).
Proof.
  intros La Lw. unfold imul_masked.
  rewrite La, Nat.eqb_refl. cbn [negb].
  now rewrite select_length, Nat.eqb_refl.
Qed.

Lemma select_map (g : Q -> Q) (mask : list bool) (w : list Q) :
  map g (Voids.select mask w) = Voids.select mask (map g w).
Proof.
  unfold Voids.select. revert w.
  induction mask as [|m mask IH]; intros [|f w]; try reflexivity.
  cbn [map combine filter fst]. destruct m; cbn [map snd]; now rewrite IH.
Qed.

(** No zero is left among the cells that are not on the edge. *)
Lemma no_zero_non_edge (edgemask : list bool) (modvols : list Q) (i : nat) (v : Q) :
  any_zero_non_edge edgemask modvols = false ->
  nth_error edgemask i = Some false -> nth_error modvols i = Some v ->
  ~ v == 0.
Proof.
  unfold any_zero_non_edge. intros Hz He Hv Hv0.
  assert (Hin : In (false, v) (combine edgemask modvols)).
  { clear Hz Hv0. revert modvols i He Hv. induction edgemask as [|e es IH]; intros [|x xs] [|i] He Hv;
      try discriminate; cbn [nth_error combine In] in *.
    - injection He as ->. injection Hv as ->. now left.
    - right. eapply IH; eassumption. }
  assert (Hex : existsb (fun ev : bool * Q => negb (fst ev) && Qeq_bool (snd ev) 0)
                        (combine edgemask modvols) = true).
  { apply existsb_exists. exists (false, v). split; [exact Hin|].
    cbn [fst snd negb andb]. now apply Qeq_bool_iff. }
  congruence.
Qed.

Lemma zero_non_edge_found (edgemask : list bool) (modvols : list Q) (i : nat) (v : Q) :
  nth_error edgemask i = Some false -> nth_error modvols i = Some v -> v == 0 ->
  any_zero_non_edge edgemask modvols = true.
Proof.
  intros He Hv Hv0.
  destruct (any_zero_non_edge edgemask modvols) eqn:Z; [reflexivity|].
  exfalso. exact (no_zero_non_edge _ _ _ Z He Hv Hv0).
Qed.

Lemma edgemask_nth (V : list Q) (i : nat) (v : Q) :
  nth_error V i = Some v ->
  nth_error (edgemask_of V) i = Some (Qeq_bool v edge_sentinel).
Proof.
  intro H. unfold edgemask_of. now rewrite nth_error_map, H.
Qed.

Lemma slice_to_nth (A : Type) (l : list A) (n : Z) (i : nat) :
  (i < length (slice_to l n))%nat -> nth_error (slice_to l n) i = nth_error l i.
Proof.
  unfold slice_to. intro H. rewrite length_firstn in H.
  rewrite nth_error_firstn. destruct (i <? _)%nat eqn:E; [reflexivity|]. apply Nat.ltb_ge in E. lia.
Qed.

(** One weighting: what [a[not edge] *= w[not edge]] leaves, row by row. *)
Lemma weight_rows (edgemask : list bool) (V w ws V' : list Q) :
  bool_index (map negb edgemask) w = Ok ws ->
  imul_masked (map negb edgemask) V ws = Ok V' ->
  length V' = length V
  /\ length V = length edgemask
  /\ length w = length edgemask
  /\ forall i b v f,
       nth_error edgemask i = Some b -> nth_error V i = Some v -> nth_error w i = Some f ->
       nth_error V' i = Some (if b then v else v * f).
Proof.
  unfold bool_index. intros Hw HV.
  destruct (length (map negb edgemask) =? length w)%nat eqn:Lw; [|discriminate].
  apply Nat.eqb_eq in Lw. injection Hw as <-.
  assert (La : length (map negb edgemask) = length V).
  { unfold imul_masked in HV.
    destruct (length (map negb edgemask) =? length V)%nat eqn:La; [|discriminate].
    now apply Nat.eqb_eq in La. }
  rewrite imul_masked_rows in HV by assumption. injection HV as <-.
  rewrite length_map in Lw, La.
  split; [apply scatter_mul_length|]. split; [now symmetry|]. split; [now symmetry|].
  intros i b v f Hb Hv Hf.
  rewrite (@scatter_mul_nth (map negb edgemask) V w i (negb b) v f); try assumption.
  - now destruct b.
  - now rewrite nth_error_map, Hb.
Qed.

(** The sky position of row [i]. *)
Lemma sky_position (ra dec : list Q) (i : nat) (r d : Q) :
  nth_error ra i = Some r -> nth_error dec i = Some d ->
  nth_error (combine ra dec) i = Some (r, d).
Proof.
  revert dec i. induction ra as [|r0 ra IH]; intros [|d0 dec] [|i] Hr Hd;
    try discriminate; cbn [combine nth_error] in *.
  - injection Hr as ->. injection Hd as ->. reflexivity.
  - now apply IH.
Qed.

Section Steps.

Variable selfn : Q -> Q.
Variable mask_at : Q -> Q -> Q.

Lemma z_weights_rows (redshifts : list Q) (edgemask : list bool) (V V' : list Q) :
  z_weights selfn true redshifts edgemask V = Ok V' ->
  length V' = length V
  /\ length V = length edgemask
  /\ length redshifts = length edgemask
  /\ any_zero_non_edge edgemask V' = false
  /\ forall i b v z,
       nth_error edgemask i = Some b -> nth_error V i = Some v ->
       nth_error redshifts i = Some z ->
       nth_error V' i = Some (if b then v else v * selfn z).
Proof.
  unfold z_weights. intro H. VoidFacts.bind_ok H.
  destruct (any_zero_non_edge edgemask a2) eqn:Z; [discriminate|]. injection H as <-.
  assert (E1' : bool_index (map negb edgemask) (map selfn redshifts) = Ok (map selfn a1)).
  { unfold bool_index in *. rewrite (length_map selfn).
    destruct (length (map negb edgemask) =? length redshifts)%nat; [|discriminate].
    injection E1 as <-. now rewrite select_map. }
  destruct (weight_rows _ _ _ E1' E2) as (L1 & L2 & L3 & Hrows).
  rewrite length_map in L3.
  repeat split; try assumption.
  intros i b v z Hb Hv Hz. apply Hrows; try assumption.
  now rewrite nth_error_map, Hz.
Qed.

Lemma ang_weights_rows (ra dec : list Q) (edgemask : list bool) (V V' : list Q) :
  ang_weights true mask_at ra dec edgemask V = Ok V' ->
  length V' = length V
  /\ length V = length edgemask
  /\ length (combine ra dec) = length edgemask
  /\ any_zero_non_edge edgemask V' = false
  /\ forall i b v r d,
       nth_error edgemask i = Some b -> nth_error V i = Some v ->
       nth_error ra i = Some r -> nth_error dec i = Some d ->
       nth_error V' i = Some (if b then v else v * mask_at r d).
Proof.
  unfold ang_weights. intro H. VoidFacts.bind_ok H.
  destruct (any_zero_non_edge edgemask a0) eqn:Z; [discriminate|]. injection H as <-.
  destruct (weight_rows _ _ _ E E0) as (L1 & L2 & L3 & Hrows).
  rewrite length_map in L3.
  repeat split; try assumption.
  intros i b v r d Hb Hv Hr Hd. apply Hrows; try assumption.
  rewrite nth_error_map.
  now rewrite (sky_position _ _ _ Hr Hd).
Qed.

End Steps.


(** The flag and the volume of cell [i], side by side. *)
Lemma sky_position_of_cell (edgemask : list bool) (V : list Q) (i : nat) (b : bool) (v : Q) :
  nth_error edgemask i = Some b -> nth_error V i = Some v ->
  nth_error (combine edgemask V) i = Some (b, v).
Proof.
  revert V i. induction edgemask as [|e es IH]; intros [|x xs] [|i] He Hv;
    try discriminate; cbn [combine nth_error] in *.
  - injection He as ->. injection Hv as ->. reflexivity.
  - now apply IH.
Qed.

Section Whole.

Variable selfn : Q -> Q.
Variable mask_at : Q -> Q -> Q.
Variables use_z_wts use_ang_wts find_clusters : bool.
Variable num_tracers : Z.
Variables tracer_dens box_length : Q.
Variable num_part_total : Z.
Variable tracers : Np.array2 Q.

#[local] Abbreviation run_steps :=
  (reweight selfn use_z_wts use_ang_wts find_clusters num_tracers mask_at tracer_dens
            box_length num_part_total tracers).
#[local] Abbreviation factor := (scale_factor tracer_dens box_length num_part_total).

Lemma renormalize_rows (V V1 : list Q) :
  renormalize tracer_dens box_length num_part_total V = Ok V1 ->
  length V1 = length V
  /\ any_zero_non_edge (edgemask_of V) V1 = false
  /\ forall i v, nth_error V i = Some v ->
       nth_error V1 i = Some (if Qeq_bool v edge_sentinel then v else v * factor).
Proof.
  unfold renormalize. rewrite ReweightFacts.scale_non_edge_map.
  destruct (any_zero_non_edge _ _) eqn:Z; [discriminate|]. intro H. injection H as <-.
  split; [apply length_map|]. split; [exact Z|].
  intros i v Hv. now rewrite nth_error_map, Hv.
Qed.

Lemma row_of_slice (c : list Q) (n : Z) (i : nat) (len : nat) :
  length (slice_to c n) = len -> (i < len)%nat ->
  exists z, nth_error (slice_to c n) i = Some z /\ nth_error c i = Some z.
Proof.
  intros L Hi.
  destruct (nth_error (slice_to c n) i) as [z|] eqn:E.
  - exists z. split; [reflexivity|]. rewrite <- E. symmetry. apply slice_to_nth. lia.
  - apply nth_error_None in E. lia.
Qed.

(** What the steps make of each cell. *)
Lemma reweight_rows (V : list Q) (out : weighted) :
  run_steps V = Ok out ->
  length (vol_file out) = length V
  /\ any_zero_non_edge (edgemask_of V) (vol_file out) = false
  /\ forall i v, nth_error V i = Some v ->
       exists v' zw aw,
         nth_error (vol_file out) i = Some v'
         /\ (Qeq_bool v edge_sentinel = true -> v' = v)
         /\ (Qeq_bool v edge_sentinel = false -> v' == v * factor * zw * aw)
         /\ (forall c5 z, use_z_wts = true -> Np.col tracers 5 = Ok c5 ->
               nth_error c5 i = Some z -> zw = selfn z)
         /\ (use_z_wts = false -> zw = 1)
         /\ (forall c3 c4 r d, use_ang_wts = true ->
               Np.col tracers 3 = Ok c3 -> Np.col tracers 4 = Ok c4 ->
               nth_error c3 i = Some r -> nth_error c4 i = Some d -> aw = mask_at r d)
         /\ (use_ang_wts = false -> aw = 1).
Proof.
  unfold reweight. intro H.
  destruct (renormalize tracer_dens box_length num_part_total V) as [V1| |] eqn:R;
    cbn [Py.bind] in H; try discriminate.
  pose proof R as R'. apply renormalize_rows in R'. destruct R' as (L1 & Z1 & Rows1).
  (* the redshift weights *)
  assert (Hz : exists V2,
             (if use_z_wts
              then z <- Np.col tracers 5 ;;
                   z_weights selfn use_z_wts (slice_to z num_tracers) (edgemask_of V) V1
              else Ok V1) = Ok V2
             /\ length V2 = length V
             /\ any_zero_non_edge (edgemask_of V) V2 = false
             /\ forall i v, nth_error V i = Some v ->
                  exists v2 zw,
                    nth_error V2 i = Some v2
                    /\ (Qeq_bool v edge_sentinel = true -> v2 = v)
                    /\ (Qeq_bool v edge_sentinel = false -> v2 == v * factor * zw)
                    /\ (forall c5 z, use_z_wts = true -> Np.col tracers 5 = Ok c5 ->
                          nth_error c5 i = Some z -> zw = selfn z)
                    /\ (use_z_wts = false -> zw = 1)).
  { destruct use_z_wts eqn:Uz.
    - destruct (Np.col tracers 5) as [c5| |] eqn:C5; cbn [Py.bind] in H |- *; try discriminate.
      destruct (z_weights selfn true (slice_to c5 num_tracers) (edgemask_of V) V1)
        as [V2| |] eqn:Zw; cbn [Py.bind] in H; try discriminate.
      pose proof Zw as Zw'. apply z_weights_rows in Zw'. destruct Zw' as (L2 & L2' & L2'' & Z2 & Rows2).
      exists V2. split; [reflexivity|]. split; [lia|]. split; [exact Z2|].
      intros i v Hv.
      assert (Hi : (i < length V)%nat) by (apply nth_error_Some; congruence).
      destruct (@row_of_slice c5 num_tracers i (length V)) as (z & Hz1 & Hz2); [lia|exact Hi|].
      exists (if Qeq_bool v edge_sentinel then v else v * factor * selfn z), (selfn z).
      split.
      { erewrite Rows2; [|eapply edgemask_nth; exact Hv|apply Rows1; exact Hv|exact Hz1].
        destruct (Qeq_bool v edge_sentinel); reflexivity. }
      split; [intros ->; reflexivity|]. split; [intros ->; reflexivity|].
      split; [|discriminate].
      intros c5' z' _ Hc5' Hz'. injection Hc5' as <-. congruence.
    - exists V1. split; [reflexivity|]. split; [exact L1|]. split; [exact Z1|].
      intros i v Hv. exists (if Qeq_bool v edge_sentinel then v else v * factor), 1.
      split; [now apply Rows1|].
      split; [intros ->; reflexivity|]. split; [intros ->; ring|].
      split; [discriminate | reflexivity]. }
  destruct Hz as (V2 & EV2 & L2 & Z2 & Rows2). rewrite EV2 in H. cbn [Py.bind] in H.
  (* the angular weights *)
  assert (Ha : exists V3,
             (if use_ang_wts
              then ra <- Np.col tracers 3 ;;
                   dec <- Np.col tracers 4 ;;
                   ang_weights use_ang_wts mask_at (slice_to ra num_tracers)
                               (slice_to dec num_tracers) (edgemask_of V) V2
              else Ok V2) = Ok V3
             /\ length V3 = length V
             /\ any_zero_non_edge (edgemask_of V) V3 = false
             /\ forall i v v2, nth_error V i = Some v -> nth_error V2 i = Some v2 ->
                  exists v3 aw,
                    nth_error V3 i = Some v3
                    /\ (Qeq_bool v edge_sentinel = true -> v3 = v2)
                    /\ (Qeq_bool v edge_sentinel = false -> v3 == v2 * aw)
                    /\ (forall c3 c4 r d, use_ang_wts = true ->
                          Np.col tracers 3 = Ok c3 -> Np.col tracers 4 = Ok c4 ->
                          nth_error c3 i = Some r -> nth_error c4 i = Some d ->
                          aw = mask_at r d)
                    /\ (use_ang_wts = false -> aw = 1)).
  { destruct use_ang_wts eqn:Ua.
    - destruct (Np.col tracers 3) as [c3| |] eqn:C3; cbn [Py.bind] in H |- *; try discriminate.
      destruct (Np.col tracers 4) as [c4| |] eqn:C4; cbn [Py.bind] in H |- *; try discriminate.
      destruct (ang_weights true mask_at (slice_to c3 num_tracers) (slice_to c4 num_tracers)
                            (edgemask_of V) V2) as [V3| |] eqn:Aw;
        cbn [Py.bind] in H; try discriminate.
      pose proof Aw as Aw'. apply ang_weights_rows in Aw'. destruct Aw' as (L3 & L3' & L3'' & Z3 & Rows3).
      exists V3. split; [reflexivity|]. split; [lia|]. split; [exact Z3|].
      intros i v v2 Hv Hv2.
      assert (Hi : (i < length V)%nat) by (apply nth_error_Some; congruence).
      rewrite length_combine in L3''.
      destruct (@row_of_slice c3 num_tracers i (length (slice_to c3 num_tracers)))
        as (r & Hr1 & Hr2); [reflexivity|lia|].
      destruct (@row_of_slice c4 num_tracers i (length (slice_to c4 num_tracers)))
        as (d & Hd1 & Hd2); [reflexivity|lia|].
      exists (if Qeq_bool v edge_sentinel then v2 else v2 * mask_at r d), (mask_at r d).
      split; [eapply Rows3; [eapply edgemask_nth; exact Hv|exact Hv2|exact Hr1|exact Hd1]|].
      split; [intros ->; reflexivity|]. split; [intros ->; reflexivity|].
      split; [|discriminate].
      intros c3' c4' r' d' _ Hc3' Hc4' Hr' Hd'.
      injection Hc3' as <-. injection Hc4' as <-. congruence.
    - exists V2. split; [reflexivity|]. split; [exact L2|]. split; [exact Z2|].
      intros i v v2 Hv Hv2. exists v2, 1.
      split; [exact Hv2|].
      split; [reflexivity|]. split; [intros _; ring|].
      split; [discriminate | reflexivity]. }
  destruct Ha as (V3 & EV3 & L3 & Z3 & Rows3). rewrite EV3 in H. cbn [Py.bind] in H.
  assert (Hout : vol_file out = V3).
  { destruct find_clusters; [|now injection H as <-].
    destruct (fill_edges (edgemask_of V) V3); cbn [Py.bind] in H; try discriminate.
    now injection H as <-. }
  rewrite Hout. split; [exact L3|]. split; [exact Z3|].
  intros i v Hv.
  destruct (Rows2 _ _ Hv) as (v2 & zw & Hv2 & E2 & N2 & Zt & Zf).
  destruct (Rows3 _ _ _ Hv Hv2) as (v3 & aw & Hv3 & E3 & N3 & At & Af).
  exists v3, zw, aw. split; [exact Hv3|].
  split; [intro E; rewrite (E3 E); exact (E2 E)|].
  split; [intro N; rewrite (N3 N), (N2 N); reflexivity|].
  repeat split; assumption.
Qed.

(** The cluster volumes and the count of cells off the edge. *)
Lemma reweight_edges (V : list Q) (out : weighted) :
  run_steps V = Ok out ->
  num_non_edge out
  = (num_tracers - Z.of_nat (length (filter (fun v => Qeq_bool v edge_sentinel) V)))%Z
  /\ cvol_file out
     = if find_clusters
       then Some (map (fun ev : bool * Q => if fst ev then edge_volume else snd ev)
                      (combine (edgemask_of V) (vol_file out)))
       else None.
Proof.
  unfold reweight. intro H. VoidFacts.bind_ok H. injection H as <-.
  cbn [num_non_edge cvol_file vol_file]. split.
  - do 2 f_equal. unfold edgemask_of. clear.
    induction V as [|v V IH]; [reflexivity|]. cbn [map filter].
    destruct (Qeq_bool v edge_sentinel); cbn [length]; now rewrite IH.
  - destruct find_clusters; [|now injection E2 as <-].
    unfold fill_edges in E2. destruct (negb _); [discriminate|].
    cbn [Py.bind] in E2. now injection E2 as <-.
Qed.

End Whole.

(** X8.  The cells on the edge are set apart by every step that ends: the
    volumes written to [.vol] are as many as were read, a cell whose volume
    is the edge value [1/0.9e30] keeps it through all the weightings, the
    volume written for it to [c.vol] (when clusters are looked for) is
    [0.9e30], and [num_non_edge] is [num_tracers] less the number of such
    cells. *)
Theorem edge_cells_are_set_apart (selfn : Q -> Q) (mask_at : Q -> Q -> Q)
    (use_z_wts use_ang_wts find_clusters : bool) (num_tracers : Z)
    (tracer_dens box_length : Q) (num_part_total : Z) (tracers : Np.array2 Q)
    (V : list Q) (out : weighted) :
  reweight selfn use_z_wts use_ang_wts find_clusters num_tracers mask_at tracer_dens
           box_length num_part_total tracers V = Ok out ->
  length (vol_file out) = length V
  /\ num_non_edge out
     = (num_tracers - Z.of_nat (length (filter (fun v => Qeq_bool v edge_sentinel) V)))%Z
  /\ forall i v, nth_error V i = Some v -> v == edge_sentinel ->
       nth_error (vol_file out) i = Some v
       /\ (find_clusters = true ->
           exists c, cvol_file out = Some c /\ nth_error c i = Some edge_volume).
Proof.
  intro H.
  pose proof H as Hr. apply reweight_rows in Hr. destruct Hr as (L & _ & Rows).
  pose proof H as He. apply reweight_edges in He. destruct He as (Hn & Hc).
  split; [exact L|]. split; [exact Hn|].
  intros i v Hv Hedge. apply Qeq_bool_iff in Hedge.
  destruct (Rows _ _ Hv) as (v' & zw & aw & Hv' & E & _).
  rewrite (E Hedge) in Hv'. split; [exact Hv'|].
  intros ->. eexists. split; [exact Hc|].
  rewrite nth_error_map.
  rewrite (@sky_position_of_cell (edgemask_of V) (vol_file out) i true v);
    [reflexivity | | exact Hv'].
  rewrite (@edgemask_nth _ _ _ Hv). now rewrite Hedge.
Qed.

Lemma sample_weights :
  reweight MoreSamples.selfn true true true 3 MoreSamples.mask_at (1 # 2) 2 8
           MoreSamples.galaxies Samples.three_volumes
  = Ok MoreSamples.weighted_volumes.
Proof.
  vm_compute. reflexivity.
Qed.

Lemma edge_cells_are_set_apart_sample :
  length (vol_file MoreSamples.weighted_volumes) = 3%nat
  /\ num_non_edge MoreSamples.weighted_volumes = 2%Z
  /\ nth_error (vol_file MoreSamples.weighted_volumes) 1 = Some edge_sentinel
  /\ exists c, cvol_file MoreSamples.weighted_volumes = Some c
               /\ nth_error c 1 = Some edge_volume.
Proof.
  destruct (@edge_cells_are_set_apart _ _ _ _ _ _ _ _ _ _ _ _ sample_weights)
    as (L & N & Hedge).
  destruct (Hedge 1%nat edge_sentinel eq_refl (Qeq_refl _)) as [Hv Hc].
  split; [exact L|]. split; [exact N|]. split; [exact Hv | exact (Hc eq_refl)].
Defined.

(** X9.  Every cell off the edge comes out of the steps with a volume that
    is not zero: its volume times
    [(tracer_dens * box_length^3) / num_part_total], times the selection
    function at the redshift of its galaxy when redshift weights are used,
    times the completeness of the mask at its sky position when angular
    weights are used.  The cluster file gets the same volume. *)
Theorem non_edge_volumes_are_weighted (selfn : Q -> Q) (mask_at : Q -> Q -> Q)
    (use_z_wts use_ang_wts find_clusters : bool) (num_tracers : Z)
    (tracer_dens box_length : Q) (num_part_total : Z) (tracers : Np.array2 Q)
    (V : list Q) (out : weighted) (c3 c4 c5 : list Q) (i : nat) (v ra dec z : Q) :
  reweight selfn use_z_wts use_ang_wts find_clusters num_tracers mask_at tracer_dens
           box_length num_part_total tracers V = Ok out ->
  Np.col tracers 3 = Ok c3 -> Np.col tracers 4 = Ok c4 -> Np.col tracers 5 = Ok c5 ->
  nth_error c3 i = Some ra -> nth_error c4 i = Some dec -> nth_error c5 i = Some z ->
  nth_error V i = Some v ->
  ~ v == edge_sentinel ->
  exists v',
    nth_error (vol_file out) i = Some v'
    /\ ~ v' == 0
    /\ v' == v * scale_factor tracer_dens box_length num_part_total
              * (if use_z_wts then selfn z else 1)
              * (if use_ang_wts then mask_at ra dec else 1)
    /\ forall c, cvol_file out = Some c -> nth_error c i = Some v'.
Proof.
  intros H C3 C4 C5 Hra Hdec Hz Hv Hedge'.
  assert (Hedge : Qeq_bool v edge_sentinel = false).
  { destruct (Qeq_bool v edge_sentinel) eqn:E; [|reflexivity].
    exfalso. apply Hedge'. now apply Qeq_bool_iff. }
  pose proof H as Hr. apply reweight_rows in Hr. destruct Hr as (L & Z & Rows).
  pose proof H as He. apply reweight_edges in He. destruct He as (_ & Hc).
  destruct (Rows _ _ Hv) as (v' & zw & aw & Hv' & _ & N & Zt & Zf & At & Af).
  exists v'. split; [exact Hv'|]. split.
  { eapply no_zero_non_edge; [exact Z| |exact Hv'].
    rewrite (@edgemask_nth _ _ _ Hv). now rewrite Hedge. }
  split.
  { rewrite (N Hedge).
    assert (Hzw : zw = if use_z_wts then selfn z else 1).
    { destruct use_z_wts; [eapply Zt; [reflexivity | exact C5 | exact Hz] | now apply Zf]. }
    assert (Haw : aw = if use_ang_wts then mask_at ra dec else 1).
    { destruct use_ang_wts;
        [eapply At; [reflexivity | exact C3 | exact C4 | exact Hra | exact Hdec]
        | now apply Af]. }
    rewrite Hzw, Haw. reflexivity. }
  intros c Hcv. rewrite Hc in Hcv. destruct find_clusters; [|discriminate].
  injection Hcv as <-. rewrite nth_error_map.
  rewrite (@sky_position_of_cell (edgemask_of V) (vol_file out) i false v');
    [reflexivity | | exact Hv'].
  rewrite (@edgemask_nth _ _ _ Hv). now rewrite Hedge.
Qed.

(** The third galaxy, at redshift 13/20 and declination 5: its volume 1/2
    becomes [1/2 * 1/2 * 13/10 * 1/2]. *)
Lemma non_edge_volumes_are_weighted_sample :
  exists v',
    nth_error (vol_file MoreSamples.weighted_volumes) 2 = Some v'
    /\ ~ v' == 0
    /\ v' == (1 # 2) * scale_factor (1 # 2) 2 8 * MoreSamples.selfn (13 # 20)
              * MoreSamples.mask_at 170 5
    /\ forall c, cvol_file MoreSamples.weighted_volumes = Some c -> nth_error c 2 = Some v'.
Proof.
  apply (@non_edge_volumes_are_weighted MoreSamples.selfn MoreSamples.mask_at true true true 3
           (1 # 2) 2 8 MoreSamples.galaxies Samples.three_volumes
           MoreSamples.weighted_volumes [150; 160; 170] [-5; 0; 5] [1 # 2; 3 # 5; 13 # 20]
           2%nat (1 # 2) 170 5 (13 # 20));
    try reflexivity.
  intro H. vm_compute in H. discriminate H.
Defined.

(** X10.  A galaxy off the edge that sits on a pixel of zero completeness
    stops the run: the angular weighting makes its volume zero, and the
    step ends with [sys.exit]. *)
Theorem zero_completeness_stops_the_run (mask_at : Q -> Q -> Q) (ra dec : list Q)
    (edgemask : list bool) (V : list Q) (i : nat) (r d : Q) :
  length ra = length edgemask -> length dec = length edgemask ->
  length V = length edgemask ->
  nth_error edgemask i = Some false ->
  nth_error ra i = Some r -> nth_error dec i = Some d ->
  mask_at r d == 0 ->
  ang_weights true mask_at ra dec edgemask V = Raise SystemExit.
Proof.
  intros Lr Ld LV He Hr Hd H0. unfold ang_weights, bool_index.
  rewrite !length_map, length_combine, Lr, Ld, Nat.min_id, Nat.eqb_refl. cbn [Py.bind].
  rewrite imul_masked_rows
    by (rewrite !length_map, ?length_combine; lia).
  cbn [Py.bind].
  destruct (nth_error V i) as [v|] eqn:Hv.
  2:{ apply nth_error_None in Hv. assert (i < length edgemask)%nat
        by (apply nth_error_Some; congruence). lia. }
  erewrite zero_non_edge_found; [reflexivity | exact He | | ].
  - eapply scatter_mul_nth; [now rewrite nth_error_map, He | exact Hv |].
    rewrite nth_error_map. now rewrite (sky_position _ _ _ Hr Hd).
  - cbn [negb fst snd]. rewrite H0. ring.
Qed.

Lemma zero_completeness_stops_the_run_sample :
  ang_weights true MoreSamples.holed_mask [150; 160; 170] [-5; 0; 5]
              [false; false; false] [1; 1; 1]
  = Raise SystemExit.
Proof.
  apply (@zero_completeness_stops_the_run MoreSamples.holed_mask [150; 160; 170] [-5; 0; 5]
           [false; false; false] [1; 1; 1] 1%nat 160 0); reflexivity.
Defined.

Lemma cell_of_pair (edgemask : list bool) (V : list Q) (i : nat) (b : bool) (v : Q) :
  nth_error (combine edgemask V) i = Some (b, v) ->
  nth_error edgemask i = Some b /\ nth_error V i = Some v.
Proof.
  revert V i. induction edgemask as [|e es IH]; intros [|x xs] [|i] Hi;
    try discriminate; cbn [combine nth_error] in *.
  - injection Hi as -> ->. now split.
  - now apply IH.
Qed.

Lemma sky_position_back (ra dec : list Q) (i : nat) (r d : Q) :
  nth_error (combine ra dec) i = Some (r, d) ->
  nth_error ra i = Some r /\ nth_error dec i = Some d.
Proof.
  revert dec i. induction ra as [|r0 ra IH]; intros [|d0 dec] [|i] H;
    try discriminate; cbn [combine nth_error] in *.
  - injection H as -> ->. now split.
  - now apply IH.
Qed.

(** No zero among the cells off the edge, said entry by entry. *)
Lemma no_zero_when_each_is_not (edgemask : list bool) (V : list Q) :
  (forall i v, nth_error edgemask i = Some false -> nth_error V i = Some v -> ~ v == 0) ->
  any_zero_non_edge edgemask V = false.
Proof.
  intro H. unfold any_zero_non_edge.
  destruct (existsb _ _) eqn:E; [|reflexivity]. exfalso.
  apply existsb_exists in E. destruct E as ([e v] & Hin & Hz). cbn [fst snd] in Hz.
  apply andb_prop in Hz. destruct Hz as [He Hz]. apply negb_true_iff in He. subst e.
  apply Qeq_bool_iff in Hz.
  apply (In_nth_error) in Hin. destruct Hin as (i & Hi).
  apply cell_of_pair in Hi. exact (H i v (proj1 Hi) (proj2 Hi) Hz).
Qed.

Lemma slice_to_length (c : list Q) (n : Z) :
  (0 <= n)%Z -> (Z.to_nat n <= length c)%nat -> length (slice_to c n) = Z.to_nat n.
Proof.
  intros Hn Hc. unfold slice_to, bound.
  replace (n <? 0)%Z with false by (symmetry; apply Z.ltb_ge; lia).
  rewrite length_firstn. lia.
Qed.

(** A weighting by factors that are not zero leaves no zero, and goes
    through. *)
Lemma weighting_goes_through (edgemask : list bool) (V w : list Q) :
  length V = length edgemask -> length w = length edgemask ->
  any_zero_non_edge edgemask V = false ->
  (forall i f, nth_error edgemask i = Some false -> nth_error w i = Some f -> ~ f == 0) ->
  exists V',
    bool_index (map negb edgemask) w = Ok (Voids.select (map negb edgemask) w)
    /\ imul_masked (map negb edgemask) V (Voids.select (map negb edgemask) w) = Ok V'
    /\ length V' = length edgemask
    /\ any_zero_non_edge edgemask V' = false.
Proof.
  intros LV Lw HV Hw. unfold bool_index.
  rewrite length_map, Lw, Nat.eqb_refl.
  exists (scatter_mul (map negb edgemask) V (Voids.select (map negb edgemask) w)).
  split; [reflexivity|].
  split; [apply imul_masked_rows; rewrite length_map; lia|].
  split; [rewrite scatter_mul_length; exact LV|].
  apply no_zero_when_each_is_not. intros i v' He Hv'.
  destruct (nth_error V i) as [v|] eqn:Hv.
  2:{ apply nth_error_None in Hv.
      assert (i < length edgemask)%nat by (apply nth_error_Some; congruence). lia. }
  destruct (nth_error w i) as [f|] eqn:Hf.
  2:{ apply nth_error_None in Hf.
      assert (i < length edgemask)%nat by (apply nth_error_Some; congruence). lia. }
  rewrite (@scatter_mul_nth (map negb edgemask) V w i true v f) in Hv';
    [| now rewrite nth_error_map, He | exact Hv | exact Hf].
  injection Hv' as <-. intro H0. apply Qmult_integral in H0. destruct H0 as [H0|H0].
  - exact (no_zero_non_edge _ _ _ HV He Hv H0).
  - exact (Hw i f He Hf H0).
Qed.

(** X11.  The re-weighting of survey mode returns (no exit and no error)
    as soon as its inputs fit together: there is a volume for each of the
    [num_tracers] galaxies, none of them zero, the table holds the galaxies
    in its first rows, the factor [(tracer_dens * box_length^3) /
    num_part_total] is not zero, and, for the weights in use, the
    selection function is not zero at any redshift of the table nor the
    mask at any of its sky positions. *)
Theorem reweighting_goes_through (selfn : Q -> Q) (mask_at : Q -> Q -> Q)
    (use_z_wts use_ang_wts find_clusters : bool) (num_tracers : Z)
    (tracer_dens box_length : Q) (num_part_total : Z) (tracers : Np.array2 Q)
    (V c3 c4 c5 : list Q) :
  Np.col tracers 3 = Ok c3 -> Np.col tracers 4 = Ok c4 -> Np.col tracers 5 = Ok c5 ->
  (0 < num_tracers)%Z ->
  length V = Z.to_nat num_tracers ->
  (Z.to_nat num_tracers <= length c3)%nat ->
  (Z.to_nat num_tracers <= length c4)%nat ->
  (Z.to_nat num_tracers <= length c5)%nat ->
  ~ scale_factor tracer_dens box_length num_part_total == 0 ->
  Forall (fun v => ~ v == 0) V ->
  (use_z_wts = true -> Forall (fun z => ~ selfn z == 0) c5) ->
  (use_ang_wts = true ->
   forall i ra dec, nth_error c3 i = Some ra -> nth_error c4 i = Some dec ->
                    ~ mask_at ra dec == 0) ->
  exists out,
    reweight selfn use_z_wts use_ang_wts find_clusters num_tracers mask_at tracer_dens
             box_length num_part_total tracers V = Ok out.
Proof.
  intros C3 C4 C5 Hn LV L3 L4 L5 Hf HV Hz Ha.
  set (n := Z.to_nat num_tracers) in *.
  assert (Le : length (edgemask_of V) = n) by (unfold edgemask_of; now rewrite length_map).
  unfold reweight.
  (* step 2 *)
  assert (H1 : exists V1, renormalize tracer_dens box_length num_part_total V = Ok V1
                          /\ length V1 = n
                          /\ any_zero_non_edge (edgemask_of V) V1 = false).
  { unfold renormalize. rewrite ReweightFacts.scale_non_edge_map.
    set (V1 := map _ V).
    assert (Z1 : any_zero_non_edge (edgemask_of V) V1 = false).
    { apply no_zero_when_each_is_not. intros i v1 He Hv1. unfold V1 in Hv1.
      rewrite nth_error_map in Hv1.
      destruct (nth_error V i) as [v|] eqn:Hv; [|discriminate]. cbn [option_map] in Hv1.
      rewrite (@edgemask_nth V i v Hv) in He. injection He as He. rewrite He in Hv1.
      injection Hv1 as <-. intro H0. apply Qmult_integral in H0.
      rewrite Forall_forall in HV. destruct H0 as [H0|H0]; [|exact (Hf H0)].
      exact (HV v (nth_error_In _ _ Hv) H0). }
    rewrite Z1. exists V1. split; [reflexivity|]. split; [|exact Z1].
    unfold V1. now rewrite length_map. }
  destruct H1 as (V1 & -> & LV1 & Z1). cbn [Py.bind].
  (* step 3 *)
  assert (H2 : exists V2,
             (if use_z_wts
              then z <- Np.col tracers 5 ;;
                   z_weights selfn use_z_wts (slice_to z num_tracers) (edgemask_of V) V1
              else Ok V1) = Ok V2
             /\ length V2 = n
             /\ any_zero_non_edge (edgemask_of V) V2 = false).
  { destruct use_z_wts; [|now exists V1].
    rewrite C5. cbn [Py.bind]. unfold z_weights.
    assert (Ls : length (slice_to c5 num_tracers) = n) by (apply slice_to_length; lia).
    destruct (slice_to c5 num_tracers) as [|z0 zs] eqn:Es; [cbn [length] in Ls; lia|].
    cbn [np_min np_max Py.bind]. rewrite <- Es in *.
    destruct (@weighting_goes_through (edgemask_of V) V1
                (map selfn (slice_to c5 num_tracers)))
      as (V2 & Hb & Hm & LV2 & Z2); try assumption; try lia.
    - rewrite length_map. lia.
    - intros i f _ Hfi. rewrite nth_error_map in Hfi.
      destruct (nth_error (slice_to c5 num_tracers) i) as [z|] eqn:Ez; [|discriminate].
      injection Hfi as <-. specialize (Hz eq_refl). rewrite Forall_forall in Hz.
      apply Hz. apply nth_error_In with i. rewrite <- Ez. symmetry.
      apply slice_to_nth. apply nth_error_Some. congruence.
    - rewrite <- select_map in Hm.
      unfold bool_index. rewrite length_map, Le, Ls, Nat.eqb_refl. cbn [Py.bind].
      rewrite Hm. cbn [Py.bind]. rewrite Z2. exists V2. split; [reflexivity|].
      split; [lia | exact Z2]. }
  destruct H2 as (V2 & -> & LV2 & Z2). cbn [Py.bind].
  (* step 4 *)
  assert (H3 : exists V3,
             (if use_ang_wts
              then ra <- Np.col tracers 3 ;;
                   dec <- Np.col tracers 4 ;;
                   ang_weights use_ang_wts mask_at (slice_to ra num_tracers)
                               (slice_to dec num_tracers) (edgemask_of V) V2
              else Ok V2) = Ok V3
             /\ length V3 = n).
  { destruct use_ang_wts; [|now exists V2].
    rewrite C3, C4. cbn [Py.bind]. unfold ang_weights.
    assert (Lr : length (slice_to c3 num_tracers) = n) by (apply slice_to_length; lia).
    assert (Ld : length (slice_to c4 num_tracers) = n) by (apply slice_to_length; lia).
    destruct (@weighting_goes_through (edgemask_of V) V2
                (map (fun rd : Q * Q => mask_at (fst rd) (snd rd))
                     (combine (slice_to c3 num_tracers) (slice_to c4 num_tracers))))
      as (V3 & Hb & Hm & LV3 & Z3); try assumption; try lia.
    - rewrite length_map, length_combine. lia.
    - intros i f _ Hfi. rewrite nth_error_map in Hfi.
      destruct (nth_error (combine (slice_to c3 num_tracers) (slice_to c4 num_tracers)) i)
        as [[r d]|] eqn:Ec; [|discriminate].
      injection Hfi as <-. cbn [fst snd].
      apply sky_position_back in Ec. destruct Ec as [Hr Hd].
      assert (Hi : (i < n)%nat).
      { assert (i < length (slice_to c3 num_tracers))%nat
          by (apply nth_error_Some; congruence). lia. }
      rewrite slice_to_nth in Hr by lia. rewrite slice_to_nth in Hd by lia.
      exact (Ha eq_refl i r d Hr Hd).
    - rewrite Hb. cbn [Py.bind]. rewrite Hm. cbn [Py.bind]. rewrite Z3.
      exists V3. split; [reflexivity | lia]. }
  destruct H3 as (V3 & -> & LV3). cbn [Py.bind].
  destruct find_clusters; [|eexists; reflexivity].
  unfold fill_edges. rewrite Le, LV3, Nat.eqb_refl. cbn [negb Py.bind].
  eexists. reflexivity.
Qed.

Lemma reweighting_goes_through_sample :
  exists out,
    reweight MoreSamples.selfn true true true 3 MoreSamples.mask_at (1 # 2) 2 8
             MoreSamples.galaxies Samples.three_volumes = Ok out.
Proof.
  apply (@reweighting_goes_through MoreSamples.selfn MoreSamples.mask_at true true true 3
           (1 # 2) 2 8 MoreSamples.galaxies Samples.three_volumes
           [150; 160; 170] [-5; 0; 5] [1 # 2; 3 # 5; 13 # 20]);
    try reflexivity; try (cbn; lia).
  - intro H. vm_compute in H. discriminate H.
  - repeat constructor; intro H; vm_compute in H; discriminate H.
  - intros _. repeat constructor; intro H; vm_compute in H; discriminate H.
  - intros _ [|[|[|i]]] ra dec Hra Hdec; cbn [nth_error] in Hra, Hdec;
      [ | | | destruct i; discriminate Hra ];
      injection Hra as <-; injection Hdec as <-;
      intro H; vm_compute in H; discriminate H.
Defined.

End WeightFacts.

(* ================================================================== *)
(** * More on the pruning loop: any setting of its switches *)

Module VoidMore.

Import Voids.

Section AnyPolicy.

Variable pol : policy.
Variable min_dens_cut : Q.
Variable void_min_num : Z.
Variable meanvol_trc : Q.
Variable voidsread : list candidate.
Variable hierarchy : list (list token).
Variable zonedata : list Z.
Variables vols densities : list Q.

#[local] Abbreviation step_of :=
  (candidate_step pol min_dens_cut void_min_num meanvol_trc voidsread hierarchy
                  zonedata vols densities).
#[local] Abbreviation run_of :=
  (prune pol min_dens_cut void_min_num meanvol_trc voidsread hierarchy
         zonedata vols densities).
#[local] Abbreviation record_of :=
  (record_void pol min_dens_cut meanvol_trc voidsread zonedata vols densities).

(** The loop only ever adds zones. *)
Lemma while_loop_num_adds (fuel : nat) (voidline : list token) (coredens : Q) (l l' : locals) :
  while_loop pol voidsread fuel voidline coredens l = Ok l' ->
  (0 <= num_adds l)%Z -> (0 <= num_adds l')%Z.
Proof.
  revert l. induction fuel as [|f IH]; intros l H Hl; cbn [while_loop] in H.
  - destruct (_ && _); [discriminate|]. now injection H as <-.
  - destruct ((0 <? num_zones_to_add l)%Z && add_more l) eqn:G.
    2:{ now injection H as <-. }
    apply andb_prop in G. destruct G as [Gn _]. apply Z.ltb_lt in Gn.
    destruct (merge_turn pol voidsread voidline coredens l) as [l1| |] eqn:T;
      cbn [Py.bind] in H; try discriminate.
    apply (IH _ H). unfold merge_turn in T. VoidFacts.bind_ok T.
    destruct a0; injection T as <-; cbn [num_adds]; lia.
Qed.

(** A candidate either leaves the outputs as they are, or passes the test
    and is recorded. *)
Lemma candidate_step_cases (st st' : out_state) (ck : candidate * Z) :
  step_of st ck = Ok st' ->
  st' = st
  \/ exists voidline l r,
       passes pol min_dens_cut void_min_num (fst ck) r (counted_zones st) = true
       /\ (0 <= num_adds l)%Z
       /\ st' = record_of st (fst ck) voidline l.
Proof.
  unfold candidate_step. intro H. VoidFacts.bind_ok H.
  destruct (passes _ _ _ _ _ _) eqn:P; [|left; now injection H].
  VoidFacts.bind_ok H. injection H as <-.
  right. exists a, a4, a3. split; [exact P|]. split; [|reflexivity].
  eapply while_loop_num_adds; [eassumption|]. cbn [num_adds]. lia.
Qed.

#[local] Abbreviation row_within_cuts :=
  (fun row : list_row =>
     CoreDens row < min_dens_cut
     /\ (void_min_num <= ZoneNumParts row)%Z
     /\ (1 <= VoidNumZones row)%Z).

#[local] Abbreviation outputs_agree :=
  (fun st : out_state =>
     num__acc st = Z.of_nat (length (Fnewlist st))
     /\ length (Fnewvoid st) = length (Fnewlist st)
     /\ length (edge_flag st) = length (Fnewlist st)
     /\ length (wtd_avg_dens st) = length (Fnewlist st)).

Lemma passes_cuts (c : candidate) (r : Q) (counted : list Z) :
  passes pol min_dens_cut void_min_num c r counted = true ->
  col3 c < min_dens_cut /\ (void_min_num <= to_int (col5 c))%Z.
Proof.
  unfold passes. intro P.
  apply andb_prop in P. destruct P as [P _].
  apply andb_prop in P. destruct P as [P Pn].
  apply andb_prop in P. destruct P as [_ Pd].
  split; [now apply BoxFacts.Qltb_lt | now apply Z.leb_le].
Qed.

Lemma prune_keeps (todo : list (candidate * Z)) (st st' : out_state) :
  run_of todo st = Ok st' ->
  Forall row_within_cuts (Fnewlist st) -> outputs_agree st ->
  Forall row_within_cuts (Fnewlist st') /\ outputs_agree st'.
Proof.
  revert st. induction todo as [|ck todo IH]; intros st H Hrows Hagree; cbn [prune] in H.
  - injection H as <-. now split.
  - destruct (step_of st ck) as [st1| |] eqn:S1; cbn [Py.bind] in H; try discriminate.
    apply (IH _ H); destruct (candidate_step_cases _ _ S1) as [->|(voidline & l & r & P & Hadds & ->)];
      try assumption.
    + unfold record_void. cbn [Fnewlist]. apply Forall_app. split; [exact Hrows|].
      constructor; [|constructor].
      destruct (passes_cuts _ _ _ P) as [Pd Pn].
      cbn [CoreDens ZoneNumParts VoidNumZones].
      split; [exact Pd|]. split; [exact Pn | lia].
    + destruct Hagree as (A1 & A2 & A3 & A4).
      unfold record_void.
      cbn [Fnewlist Fnewvoid edge_flag wtd_avg_dens num__acc].
      rewrite !length_app. cbn [length]. repeat split; lia.
Qed.

(** The core densities written stay in the order of the candidates. *)
Lemma prune_order (todo : list (candidate * Z)) (st st' : out_state) :
  run_of todo st = Ok st' ->
  ForallOrdPairs Qle (map CoreDens (Fnewlist st) ++ map (fun ck => col3 (fst ck)) todo) ->
  ForallOrdPairs Qle (map CoreDens (Fnewlist st')).
Proof.
  revert st. induction todo as [|ck todo IH]; intros st H Hord; cbn [prune] in H.
  - injection H as <-. now rewrite app_nil_r in Hord.
  - destruct (step_of st ck) as [st1| |] eqn:S1; cbn [Py.bind] in H; try discriminate.
    apply (IH _ H).
    destruct (candidate_step_cases _ _ S1) as [->|(voidline & l & r & _ & _ & ->)].
    + cbn [map] in Hord. revert Hord. generalize (map CoreDens (Fnewlist st)).
      intros dens. induction dens as [|d dens IHd]; cbn [app]; intro Hord.
      * inversion Hord; assumption.
      * inversion Hord as [|? ? Hd Hrest]; subst. constructor.
        -- rewrite Forall_app in *. destruct Hd as [Hd1 Hd2].
           split; [exact Hd1|]. now inversion Hd2.
        -- now apply IHd.
    + unfold record_void. cbn [Fnewlist]. rewrite map_app. cbn [map CoreDens].
      rewrite <- app_assoc. exact Hord.
Qed.

End AnyPolicy.

(** ** The sorted list *)

Section Sorted.

Variable keys : list Q.

#[local] Abbreviation key := (fun i : nat => nth i keys 0).

Lemma insert_index_In (i x : nat) (sorted : list nat) :
  In x (insert_index keys i sorted) <-> x = i \/ In x sorted.
Proof.
  induction sorted as [|j r IH]; cbn [insert_index In]; [intuition|].
  destruct (Qltb (key i) (key j)); cbn [In]; [intuition|].
  rewrite IH. intuition.
Qed.

Lemma insert_index_ordered (i : nat) (sorted : list nat) :
  ForallOrdPairs (fun a b => key a <= key b) sorted ->
  ForallOrdPairs (fun a b => key a <= key b) (insert_index keys i sorted).
Proof.
  induction sorted as [|j r IH]; intro Hs; cbn [insert_index].
  - constructor; constructor.
  - inversion Hs as [|? ? Hj Hr]; subst.
    destruct (Qltb (key i) (key j)) eqn:C.
    + apply BoxFacts.Qltb_lt in C. constructor; [|exact Hs].
      constructor; [now apply Qlt_le_weak|].
      rewrite Forall_forall in *. intros x Hx.
      apply Qle_trans with (key j); [now apply Qlt_le_weak | now apply Hj].
    + apply BoxFacts.Qltb_ge in C. constructor; [|now apply IH].
      rewrite Forall_forall in *. intros x Hx.
      apply insert_index_In in Hx. destruct Hx as [->|Hx]; [exact C | now apply Hj].
Qed.

Lemma sorting_indices (todo sorted : list nat) (n : nat) :
  ForallOrdPairs (fun a b => key a <= key b) sorted ->
  Forall (fun i => (i < n)%nat) sorted -> Forall (fun i => (i < n)%nat) todo ->
  let idx := fold_left (fun sorted i => insert_index keys i sorted) todo sorted in
  ForallOrdPairs (fun a b => key a <= key b) idx /\ Forall (fun i => (i < n)%nat) idx.
Proof.
  revert sorted. induction todo as [|i todo IH]; intros sorted Hs Hn Ht; cbn [fold_left].
  - now split.
  - inversion Ht; subst. apply IH; [now apply insert_index_ordered| |assumption].
    rewrite Forall_forall in *. intros x Hx. apply insert_index_In in Hx.
    destruct Hx as [->|Hx]; [assumption | now apply Hn].
Qed.

End Sorted.

(** The rows taken at the indices [idx] of the list file, and their keys. *)
Lemma rows_at_indices (key_of : candidate -> Q) (listfile : list candidate) (idx : list nat)
    (rows : list candidate) :
  mapM (getitem listfile) (map Z.of_nat idx) = Ok rows ->
  map key_of rows = map (fun i => nth i (map key_of listfile) 0) idx
  /\ length rows = length idx.
Proof.
  revert rows. induction idx as [|i idx IH]; intros rows H; cbn [map mapM] in H.
  - injection H as <-. now split.
  - destruct (getitem listfile (Z.of_nat i)) as [c| |] eqn:E; cbn [Py.bind] in H;
      try discriminate.
    destruct (mapM (getitem listfile) (map Z.of_nat idx)) as [cs| |]; cbn [Py.bind] in H;
      try discriminate.
    injection H as <-. destruct (IH _ eq_refl) as [IH1 IH2]. cbn [map length].
    split; [|now rewrite IH2]. rewrite IH1. f_equal.
    rewrite VoidFacts.getitem_nonneg in E by lia. rewrite Nat2Z.id in E.
    destruct (nth_error listfile i) eqn:N; [|discriminate]. injection E as ->.
    symmetry. erewrite nth_error_nth; [reflexivity|]. now rewrite nth_error_map, N.
Qed.

Lemma ordered_keys (keys : list Q) (idx : list nat) :
  ForallOrdPairs (fun a b => nth a keys 0 <= nth b keys 0) idx ->
  ForallOrdPairs Qle (map (fun i => nth i keys 0) idx).
Proof.
  induction 1 as [|i idx Hi Hrest IH]; cbn [map]; constructor; [|exact IH].
  rewrite Forall_forall in *. intros q Hq. apply in_map_iff in Hq.
  destruct Hq as (j & <- & Hj). now apply Hi.
Qed.

(** The rows taken in the sorted order are in ascending order of the key. *)
Lemma sorted_by_key (key_of : candidate -> Q) (listfile rows : list candidate) :
  mapM (getitem listfile) (argsort (map key_of listfile)) = Ok rows ->
  ForallOrdPairs Qle (map key_of rows)
  /\ length rows = length (argsort (map key_of listfile)).
Proof.
  unfold argsort. intro H. apply (rows_at_indices key_of) in H. destruct H as [-> ->].
  split; [|symmetry; apply length_map].
  apply ordered_keys.
  apply (@sorting_indices (map key_of listfile) (seq 0 (length (map key_of listfile))) []
           (length (map key_of listfile))).
  - constructor.
  - constructor.
  - rewrite Forall_forall. intros i Hi. apply in_seq in Hi. lia.
Qed.

Lemma combine_fst_key (key_of : candidate -> Q) (rows : list candidate) (order : list Z) :
  length rows = length order ->
  map (fun ck : candidate * Z => key_of (fst ck)) (combine rows order) = map key_of rows.
Proof.
  revert order. induction rows as [|c cs IH]; intros [|o os] L; cbn in *;
    try reflexivity; try discriminate.
  f_equal. apply IH. now injection L.
Qed.

Lemma insert_index_length (keys : list Q) (i : nat) (sorted : list nat) :
  length (insert_index keys i sorted) = S (length sorted).
Proof.
  induction sorted as [|j r IH]; cbn [insert_index]; [reflexivity|].
  destruct (Qltb _ _); cbn [length]; [reflexivity | now rewrite IH].
Qed.

Lemma argsort_length (keys : list Q) : length (argsort keys) = length keys.
Proof.
  unfold argsort. rewrite length_map.
  assert (H : forall todo sorted,
             length (fold_left (fun sorted i => insert_index keys i sorted) todo sorted)
             = (length todo + length sorted)%nat).
  { induction todo as [|i todo IH]; intro sorted; cbn [fold_left length]; [reflexivity|].
    rewrite IH, insert_index_length. lia. }
  rewrite H, length_seq. cbn [length]. lia.
Qed.

(** The indices of the sorted order point into the list they sort. *)
Lemma argsort_in_range (keys : list Q) (k : Z) :
  In k (argsort keys) -> (0 <= k < Z.of_nat (length keys))%Z.
Proof.
  unfold argsort. intro H. apply in_map_iff in H. destruct H as (i & <- & Hi).
  destruct (@sorting_indices keys (seq 0 (length keys)) [] (length keys)) as [_ Hlt].
  - constructor.
  - constructor.
  - rewrite Forall_forall. intros j Hj. apply in_seq in Hj. lia.
  - rewrite Forall_forall in Hlt. specialize (Hlt i Hi). lia.
Qed.

(** Every row asked for by the sorted order is there. *)
Lemma sorted_rows_exist (key_of : candidate -> Q) (listfile : list candidate) :
  exists rows,
    mapM (getitem listfile) (argsort (map key_of listfile)) = Ok rows
    /\ length rows = length listfile.
Proof.
  assert (H : forall order,
             (forall k, In k order -> (0 <= k < Z.of_nat (length listfile))%Z) ->
             exists rows, mapM (getitem listfile) order = Ok rows
                          /\ length rows = length order).
  { induction order as [|k order IH]; intro Hin; cbn [mapM].
    - now exists [].
    - destruct IH as (rows & -> & Hlen); [intros; apply Hin; now right|].
      rewrite VoidFacts.getitem_nonneg by (apply Hin; now left).
      destruct (nth_error listfile (Z.to_nat k)) as [c|] eqn:N.
      + cbn [Py.bind]. exists (c :: rows). split; [reflexivity|]. cbn [length]. lia.
      + apply nth_error_None in N. specialize (Hin k (or_introl eq_refl)). lia. }
  destruct (H (argsort (map key_of listfile))) as (rows & Hrows & Hlen).
  - intros k Hk. apply argsort_in_range in Hk. now rewrite length_map in Hk.
  - exists rows. split; [exact Hrows|]. now rewrite Hlen, argsort_length, length_map.
Qed.

Lemma sample_run :
  postprocess_voids hard_coded 1 1 100 Samples.listfile Samples.voidfile Samples.zonedata
                    Samples.vols Samples.densities
  = Ok Samples.pruned_state.
Proof.
  vm_compute. reflexivity.
Qed.

(** X12.  Whatever the switches of the method are set to, every row written
    to the new list file has a core density below [min_dens_cut], a zone of
    at least [void_min_num] particles, and counts at least one zone. *)
Theorem written_rows_respect_cuts (pol : policy) (min_dens_cut : Q) (void_min_num : Z)
    (meanvol_trc : Q) (listfile : list candidate) (voidfile : list (list token))
    (zonedata : list Z) (vols densities : list Q) (st : out_state) :
  postprocess_voids pol min_dens_cut void_min_num meanvol_trc listfile voidfile zonedata
                    vols densities = Ok st ->
  Forall (fun row => CoreDens row < min_dens_cut
                     /\ (void_min_num <= ZoneNumParts row)%Z
                     /\ (1 <= VoidNumZones row)%Z)
         (Fnewlist st).
Proof.
  intro H. apply VoidFacts.postprocess_voids_prune in H. destruct H as (voidsread & _ & H).
  eapply prune_keeps in H; [exact (proj1 H) | constructor |].
  repeat split.
Qed.

Lemma written_rows_respect_cuts_sample :
  Forall (fun row => CoreDens row < 1 /\ (1 <= ZoneNumParts row)%Z /\ (1 <= VoidNumZones row)%Z)
         (Fnewlist Samples.pruned_state).
Proof.
  exact (@written_rows_respect_cuts _ _ _ _ _ _ _ _ _ _ sample_run).
Defined.

(** X13.  The number of voids [num__acc], written on the first line of the
    new [.void] file and in the header of the list file, is the number of
    rows of the list file and of lines of the [.void] file, and the two
    arrays handed to the centre extractor have that many entries. *)
Theorem outputs_have_one_entry_per_void (pol : policy) (min_dens_cut : Q) (void_min_num : Z)
    (meanvol_trc : Q) (listfile : list candidate) (voidfile : list (list token))
    (zonedata : list Z) (vols densities : list Q) (st : out_state) :
  postprocess_voids pol min_dens_cut void_min_num meanvol_trc listfile voidfile zonedata
                    vols densities = Ok st ->
  num__acc st = Z.of_nat (length (Fnewlist st))
  /\ length (Fnewvoid st) = length (Fnewlist st)
  /\ length (edge_flag st) = length (Fnewlist st)
  /\ length (wtd_avg_dens st) = length (Fnewlist st).
Proof.
  intro H. apply VoidFacts.postprocess_voids_prune in H. destruct H as (voidsread & _ & H).
  eapply prune_keeps in H; [exact (proj2 H) | constructor |].
  repeat split.
Qed.

Lemma outputs_have_one_entry_per_void_sample :
  num__acc Samples.pruned_state = 2%Z
  /\ length (Fnewvoid Samples.pruned_state) = 2%nat
  /\ length (edge_flag Samples.pruned_state) = 2%nat
  /\ length (wtd_avg_dens Samples.pruned_state) = 2%nat.
Proof.
  exact (@outputs_have_one_entry_per_void _ _ _ _ _ _ _ _ _ _ sample_run).
Defined.

(** X14.  The rows of the new list file are in ascending order of core
    density: a row never has a larger core density than a row written
    after it. *)
Theorem written_rows_ascend (pol : policy) (min_dens_cut : Q) (void_min_num : Z)
    (meanvol_trc : Q) (listfile : list candidate) (voidfile : list (list token))
    (zonedata : list Z) (vols densities : list Q) (st : out_state) :
  postprocess_voids pol min_dens_cut void_min_num meanvol_trc listfile voidfile zonedata
                    vols densities = Ok st ->
  ForallOrdPairs Qle (map CoreDens (Fnewlist st)).
Proof.
  intro H. apply VoidFacts.postprocess_voids_prune in H.
  destruct H as (voidsread & Hsort & H).
  apply (sorted_by_key col3) in Hsort. destruct Hsort as [Hord Hlen].
  eapply prune_order; [exact H|].
  cbn [initial Fnewlist map app]. now rewrite (combine_fst_key col3).
Qed.

Lemma written_rows_ascend_sample :
  ForallOrdPairs Qle (map CoreDens (Fnewlist Samples.pruned_state)).
Proof.
  exact (@written_rows_ascend _ _ _ _ _ _ _ _ _ _ sample_run).
Defined.

(** X15.  The two checks at the head of the method, in their order.  A
    list file of fewer than two rows is loaded as a one-dimensional array
    and the method ends with [IndexError] at the sort, before the [.void]
    file is looked at.  With two rows or more, a first line of the [.void]
    file that is not the number of rows ends the method with [sys.exit],
    whatever the rest of the file holds. *)
Theorem void_count_mismatch_exits (pol : policy) (min_dens_cut : Q) (void_min_num : Z)
    (meanvol_trc : Q) (listfile : list candidate) (nvoids : Z) (lines : list (list token))
    (zonedata : list Z) (vols densities : list Q) :
  nvoids <> Z.of_nat (length listfile) ->
  postprocess_voids pol min_dens_cut void_min_num meanvol_trc listfile
                    ([TInt nvoids] :: lines) zonedata vols densities
  = if (length listfile <? 2)%nat then Raise IndexError else Raise SystemExit.
Proof.
  intro Hn. unfold postprocess_voids.
  destruct (length listfile <? 2)%nat; [reflexivity|].
  destruct (sorted_rows_exist col3 listfile) as (voidsread & -> & Hlen).
  cbn [Py.bind getitem length Z.of_nat Z.ltb Z.compare Z.to_nat nth_error int_of].
  rewrite Hlen.
  replace (nvoids =? Z.of_nat (length listfile))%Z with false
    by (symmetry; now apply Z.eqb_neq).
  reflexivity.
Qed.

Lemma void_count_mismatch_exits_sample :
  postprocess_voids hard_coded 1 1 100 Samples.listfile ([TInt 3] :: tl Samples.voidfile)
                    Samples.zonedata Samples.vols Samples.densities
  = Raise SystemExit
  /\ postprocess_voids hard_coded 1 1 100 [Samples.zone5] [[TInt 3]]
                       Samples.zonedata Samples.vols Samples.densities
     = Raise IndexError.
Proof.
  split.
  - apply (@void_count_mismatch_exits hard_coded 1 1 100 Samples.listfile 3
             (tl Samples.voidfile) Samples.zonedata Samples.vols Samples.densities).
    discriminate.
  - apply (@void_count_mismatch_exits hard_coded 1 1 100 [Samples.zone5] 3
             [] Samples.zonedata Samples.vols Samples.densities).
    discriminate.
Defined.



(** A single candidate, well formed, with its count on the first line: the
    sort of line 827 fails. *)
Example one_candidate_is_not_processed :
  wf_line [TInt 8; TInt 0; TFloat (6 # 5)] = true
  /\ postprocess_voids hard_coded 1 1 100 [Samples.zone8]
                       [[TInt 1]; [TInt 8; TInt 0; TFloat (6 # 5)]]
                       Samples.zonedata Samples.vols Samples.densities
     = Raise IndexError.
Proof.
  split; reflexivity.
Qed.

End VoidMore.

(* ================================================================== *)
(** * The new list file and [.void] file, read back *)

Module VoidFileFacts.

Import Voids VoidFiles.

(** The reloaded list file has eight columns as soon as it has two rows;
    below that it has a single one. *)
Lemma rewrite_list_file_cases (printed : Q -> Q) (rows : list list_row) :
  rewrite_list_file printed rows
  = if (length rows <? 2)%nat then Raise ValueError else Ok (loadtxt printed rows).
Proof.
  unfold rewrite_list_file.
  destruct rows as [|r0 [|r1 rows]]; reflexivity.
Qed.

(** X17.  The list file is reloaded and written again with a format of
    eight fields.  With two voids or more this succeeds; when the pruning
    accepts one void or none, the reloaded array has one dimension, it is
    written as a single column, and the method ends with [ValueError]
    before any centre is computed. *)
Theorem list_rewrite_needs_two_voids (printed : Q -> Q) (pol : policy) (min_dens_cut : Q)
    (void_min_num : Z) (meanvol_trc : Q) (listfile : list candidate)
    (voidfile : list (list token)) (zonedata : list Z) (vols densities : list Q)
    (st : out_state) :
  postprocess_voids pol min_dens_cut void_min_num meanvol_trc listfile voidfile zonedata
                    vols densities = Ok st ->
  postprocess_voids_files printed pol min_dens_cut void_min_num meanvol_trc listfile voidfile
                          zonedata vols densities
  = if (num__acc st <? 2)%Z then Raise ValueError
    else Ok (st, loadtxt printed (Fnewlist st)).
Proof.
  intro H. unfold postprocess_voids_files. rewrite H. cbn [Py.bind].
  apply VoidFacts.postprocess_voids_prune in H. destruct H as (voidsread & _ & H).
  eapply VoidMore.prune_keeps in H; [| constructor | repeat split].
  destruct H as [_ [Hn _]]. rewrite Hn, rewrite_list_file_cases.
  destruct (length (Fnewlist st) <? 2)%nat eqn:L.
  - apply Nat.ltb_lt in L.
    replace (Z.of_nat (length (Fnewlist st)) <? 2)%Z with true
      by (symmetry; apply Z.ltb_lt; lia).
    reflexivity.
  - apply Nat.ltb_ge in L.
    replace (Z.of_nat (length (Fnewlist st)) <? 2)%Z with false
      by (symmetry; apply Z.ltb_ge; lia).
    reflexivity.
Qed.

(** The sample of two voids passes; with the cut on the core density at
    3/10 only zone 5 is kept, and the method fails. *)
Lemma list_rewrite_needs_two_voids_sample :
  postprocess_voids_files (fun q => q) hard_coded 1 1 100 Samples.listfile Samples.voidfile
                          Samples.zonedata Samples.vols Samples.densities
  = Ok (Samples.pruned_state, loadtxt (fun q => q) (Fnewlist Samples.pruned_state)).
Proof.
  exact (@list_rewrite_needs_two_voids (fun q => q) _ _ _ _ _ _ _ _ _ _ VoidMore.sample_run).
Defined.

Example one_void_is_not_written :
  postprocess_voids_files (fun q => q) hard_coded (3 # 10) 1 100 Samples.listfile
                          Samples.voidfile Samples.zonedata Samples.vols Samples.densities
  = Raise ValueError.
Proof.
  vm_compute. reflexivity.
Qed.

(** The line of a seed that keeps its own zone is read back as that zone. *)
Lemma member_zones_seed_line (z : Z) (r : Q) :
  member_zones [TInt z; TInt 0; TFloat r] = Ok [z].
Proof.
  reflexivity.
Qed.

(** X18.  With the hard-coded switches, the member zones that
    [find_void_barycentres] (and the centre search of
    [postprocess_clusters], which has the same loop) reads from the lines of
    the new [.void] file are the zones the pruning counted for each void:
    its own zone and no other.  The lines of the hierarchy are taken to
    start with the zone of their candidate and a count that is not
    negative. *)
Theorem member_zones_read_back (min_dens_cut : Q) (void_min_num : Z) (meanvol_trc : Q)
    (voidsread : list candidate) (hierarchy : list (list token)) (zonedata : list Z)
    (vols densities : list Q) (todo : list (candidate * Z)) (st : out_state) :
  prune hard_coded min_dens_cut void_min_num meanvol_trc voidsread hierarchy zonedata vols
        densities todo initial = Ok st ->
  (forall ck, In ck todo ->
     exists voidline n,
       getitem hierarchy (snd ck) = Ok voidline
       /\ getitem voidline 0 = Ok (TInt (vid_of (fst ck)))
       /\ getitem voidline 1 = Ok (TInt n)
       /\ (0 <= n)%Z) ->
  mapM member_zones (Fnewvoid st) = Ok (members st).
Proof.
  intros H Hlines. apply VoidFacts.prune_hard_coded in H.
  destruct H as (_ & _ & _ & Hv & _ & Hm). rewrite Hv, Hm. cbn [initial Fnewvoid members app].
  clear Hv Hm st.
  induction todo as [|ck todo IH]; [reflexivity|].
  cbn [filter].
  assert (Hrest : forall ck', In ck' todo ->
            exists voidline n,
              getitem hierarchy (snd ck') = Ok voidline
              /\ getitem voidline 0 = Ok (TInt (vid_of (fst ck')))
              /\ getitem voidline 1 = Ok (TInt n)
              /\ (0 <= n)%Z).
  { intros ck' Hin. apply Hlines. now right. }
  destruct (seed_accepted min_dens_cut void_min_num hierarchy ck) eqn:A; [|exact (IH Hrest)].
  cbn [map mapM]. rewrite (IH Hrest).
  destruct (Hlines ck (or_introl eq_refl)) as (voidline & n & Eline & E0 & E1 & Hn).
  unfold seed_accepted in A.
  destruct (first_step hierarchy (snd ck)) as [[n1 r1]| |] eqn:Hfs; try discriminate.
  assert (n1 = n).
  { unfold first_step in Hfs. rewrite Eline in Hfs. cbn [Py.bind] in Hfs.
    rewrite E1 in Hfs. cbn [Py.bind int_of] in Hfs.
    VoidFacts.bind_ok Hfs. now injection Hfs. }
  subst n1.
  destruct (VoidFacts.seed_line_shape hierarchy ck Hfs Hn)
    as (voidline' & seed & Eline' & Eseed & ->).
  rewrite Eline in Eline'. injection Eline' as <-.
  rewrite E0 in Eseed. injection Eseed as <-.
  rewrite member_zones_seed_line. reflexivity.
Qed.

Lemma member_zones_read_back_sample :
  mapM member_zones (Fnewvoid Samples.pruned_state) = Ok [[5%Z]; [8%Z]].
Proof.
  apply (@member_zones_read_back 1 1 100 Samples.listfile (tl Samples.voidfile)
           Samples.zonedata Samples.vols Samples.densities Samples.todo Samples.pruned_state).
  - vm_compute. reflexivity.
  - intros ck [<-|[<-|[]]].
    + exists [TInt 5; TInt 1; TFloat (3 # 2); TInt 8; TInt 0; TFloat 3], 1%Z.
      repeat split; lia.
    + exists [TInt 8; TInt 0; TFloat (6 # 5)], 0%Z.
      repeat split; lia.
Defined.

End VoidFileFacts.

(* ================================================================== *)
(** * Properties of the pruning of clusters *)

Module ClusterPruneFacts.

Import Voids.

Section AnyPolicy.

Variable pol : policy.
Variable max_dens_cut : Q.
Variable cluster_min_num : Z.
Variable meanvol_trc : Q.
Variable clustersread : list candidate.
Variable hierarchy : list (list token).
Variable zonedata : list Z.
Variables vols densities : list Q.

#[local] Abbreviation cluster_step :=
  (ClusterPrune.candidate_step pol max_dens_cut cluster_min_num meanvol_trc clustersread
                               hierarchy zonedata vols densities).
#[local] Abbreviation cluster_run :=
  (ClusterPrune.prune pol max_dens_cut cluster_min_num meanvol_trc clustersread hierarchy
                      zonedata vols densities).
#[local] Abbreviation cluster_record :=
  (ClusterPrune.record_cluster pol max_dens_cut meanvol_trc clustersread zonedata vols
                               densities).

Lemma cluster_loop_num_adds (fuel : nat) (clustline : list token) (coredens : Q)
    (l l' : locals) :
  ClusterPrune.while_loop pol clustersread fuel clustline coredens l = Ok l' ->
  (0 <= num_adds l)%Z -> (0 <= num_adds l')%Z.
Proof.
  revert l. induction fuel as [|f IH]; intros l H Hl; cbn [ClusterPrune.while_loop] in H.
  - destruct (_ && _); [discriminate|]. now injection H as <-.
  - destruct ((0 <? num_zones_to_add l)%Z && add_more l) eqn:G.
    2:{ now injection H as <-. }
    apply andb_prop in G. destruct G as [Gn _]. apply Z.ltb_lt in Gn.
    destruct (ClusterPrune.merge_turn pol clustersread clustline coredens l) as [l1| |] eqn:T;
      cbn [Py.bind] in H; try discriminate.
    apply (IH _ H). unfold ClusterPrune.merge_turn in T. VoidFacts.bind_ok T.
    destruct a0; injection T as <-; cbn [num_adds]; lia.
Qed.

(** A candidate either leaves the outputs as they are, or passes the test
    and is recorded. *)
Lemma cluster_step_cases (st st' : out_state) (ck : candidate * Z) :
  cluster_step st ck = Ok st' ->
  st' = st
  \/ exists clustline l r,
       ClusterPrune.passes pol max_dens_cut cluster_min_num (fst ck) r (counted_zones st)
       = true
       /\ (0 <= num_adds l)%Z
       /\ st' = cluster_record st (fst ck) clustline l.
Proof.
  unfold ClusterPrune.candidate_step. intro H. VoidFacts.bind_ok H.
  destruct (ClusterPrune.passes _ _ _ _ _ _) eqn:P; [|left; now injection H].
  VoidFacts.bind_ok H. injection H as <-.
  right. exists a, a4, a3. split; [exact P|]. split; [|reflexivity].
  eapply cluster_loop_num_adds; [eassumption|]. cbn [num_adds]. lia.
Qed.

#[local] Abbreviation row_within_cluster_cuts :=
  (fun row : list_row =>
     max_dens_cut < CoreDens row
     /\ (cluster_min_num <= ZoneNumParts row)%Z
     /\ (1 <= VoidNumZones row)%Z).

#[local] Abbreviation cluster_outputs_agree :=
  (fun st : out_state =>
     num__acc st = Z.of_nat (length (Fnewlist st))
     /\ length (Fnewvoid st) = length (Fnewlist st)
     /\ length (edge_flag st) = length (Fnewlist st)).

Lemma cluster_prune_keeps (todo : list (candidate * Z)) (st st' : out_state) :
  cluster_run todo st = Ok st' ->
  Forall row_within_cluster_cuts (Fnewlist st) -> cluster_outputs_agree st ->
  Forall row_within_cluster_cuts (Fnewlist st') /\ cluster_outputs_agree st'.
Proof.
  revert st. induction todo as [|ck todo IH]; intros st H Hrows Hagree;
    cbn [ClusterPrune.prune] in H.
  - injection H as <-. now split.
  - destruct (cluster_step st ck) as [st1| |] eqn:S1; cbn [Py.bind] in H; try discriminate.
    apply (IH _ H);
      destruct (cluster_step_cases _ _ S1) as [->|(clustline & l & r & P & Hadds & ->)];
      try assumption.
    + unfold ClusterPrune.record_cluster. cbn [Fnewlist].
      apply Forall_app. split; [exact Hrows|]. constructor; [|constructor].
      unfold ClusterPrune.passes in P.
      apply andb_prop in P. destruct P as [P _].
      apply andb_prop in P. destruct P as [P Pn].
      apply andb_prop in P. destruct P as [_ Pd].
      cbn [CoreDens ZoneNumParts VoidNumZones].
      split; [now apply BoxFacts.Qltb_lt|]. split; [now apply Z.leb_le | lia].
    + destruct Hagree as (A1 & A2 & A3).
      unfold ClusterPrune.record_cluster. cbn [Fnewlist Fnewvoid edge_flag num__acc].
      rewrite !length_app. cbn [length]. repeat split; lia.
Qed.

(** The core densities written stay in the order of the candidates. *)
Lemma cluster_prune_order (todo : list (candidate * Z)) (st st' : out_state) :
  cluster_run todo st = Ok st' ->
  ForallOrdPairs (fun a b => b <= a)
                 (map CoreDens (Fnewlist st) ++ map (fun ck => col3 (fst ck)) todo) ->
  ForallOrdPairs (fun a b => b <= a) (map CoreDens (Fnewlist st')).
Proof.
  revert st. induction todo as [|ck todo IH]; intros st H Hord; cbn [ClusterPrune.prune] in H.
  - injection H as <-. now rewrite app_nil_r in Hord.
  - destruct (cluster_step st ck) as [st1| |] eqn:S1; cbn [Py.bind] in H; try discriminate.
    apply (IH _ H).
    destruct (cluster_step_cases _ _ S1) as [->|(clustline & l & r & _ & _ & ->)].
    + cbn [map] in Hord. revert Hord. generalize (map CoreDens (Fnewlist st)).
      intros dens. induction dens as [|d dens IHd]; cbn [app]; intro Hord.
      * inversion Hord; assumption.
      * inversion Hord as [|? ? Hd Hrest]; subst. constructor.
        -- rewrite Forall_app in *. destruct Hd as [Hd1 Hd2].
           split; [exact Hd1|]. now inversion Hd2.
        -- now apply IHd.
    + unfold ClusterPrune.record_cluster. cbn [Fnewlist]. rewrite map_app.
      cbn [map CoreDens]. rewrite <- app_assoc. exact Hord.
Qed.

End AnyPolicy.

(** The method is the loop, run on the sorted list. *)
Lemma postprocess_clusters_prune (pol : policy) (max_dens_cut : Q) (cluster_min_num : Z)
    (meanvol_trc : Q) (listfile : list candidate) (clustfile : list (list token))
    (zonedata : list Z) (vols densities : list Q) (st : out_state) :
  ClusterPrune.postprocess_clusters pol max_dens_cut cluster_min_num meanvol_trc listfile
                                    clustfile zonedata vols densities = Ok st ->
  exists clustersread,
    mapM (getitem listfile) (argsort (map (fun c => 1 / col3 c) listfile)) = Ok clustersread
    /\ ClusterPrune.prune pol max_dens_cut cluster_min_num meanvol_trc clustersread
                          (tl clustfile) zonedata vols densities
                          (combine clustersread
                                   (argsort (map (fun c => 1 / col3 c) listfile)))
                          initial
       = Ok st.
Proof.
  unfold ClusterPrune.postprocess_clusters. intro H.
  destruct (length listfile <? 2)%nat; [discriminate|].
  destruct (mapM (getitem listfile) _) as [clustersread| |]; cbn [Py.bind] in H;
    try discriminate.
  destruct (getitem clustfile 0) as [first| |]; cbn [Py.bind] in H; try discriminate.
  destruct (match first with [t] => int_of t | _ => Raise ValueError end) as [nclusters| |];
    cbn [Py.bind] in H; try discriminate.
  destruct (negb _); [discriminate|].
  exists clustersread. split; [reflexivity | exact H].
Qed.

(** X19.  Whatever the switches of the method are set to, every row
    written to the new list file of clusters has a core density above
    [max_dens_cut], a zone of at least [cluster_min_num] particles and
    counts at least one zone; and the number of clusters [num__acc] is the
    number of these rows, of the lines of the new [.void] file and of the
    edge flags. *)
Theorem cluster_rows_respect_cuts (pol : policy) (max_dens_cut : Q) (cluster_min_num : Z)
    (meanvol_trc : Q) (listfile : list candidate) (clustfile : list (list token))
    (zonedata : list Z) (vols densities : list Q) (st : out_state) :
  ClusterPrune.postprocess_clusters pol max_dens_cut cluster_min_num meanvol_trc listfile
                                    clustfile zonedata vols densities = Ok st ->
  Forall (fun row => max_dens_cut < CoreDens row
                     /\ (cluster_min_num <= ZoneNumParts row)%Z
                     /\ (1 <= VoidNumZones row)%Z)
         (Fnewlist st)
  /\ num__acc st = Z.of_nat (length (Fnewlist st))
  /\ length (Fnewvoid st) = length (Fnewlist st)
  /\ length (edge_flag st) = length (Fnewlist st).
Proof.
  intro H. apply postprocess_clusters_prune in H. destruct H as (clustersread & _ & H).
  eapply cluster_prune_keeps in H; [exact H | constructor |].
  repeat split.
Qed.

Lemma sample_clusters :
  ClusterPrune.postprocess_clusters ClusterPrune.hard_coded (1 # 10) 1 100 Samples.listfile
                                    Samples.voidfile Samples.zonedata Samples.vols
                                    Samples.densities
  = Ok MoreSamples.pruned_clusters.
Proof.
  vm_compute. reflexivity.
Qed.

Lemma cluster_rows_respect_cuts_sample :
  Forall (fun row => 1 # 10 < CoreDens row
                     /\ (1 <= ZoneNumParts row)%Z
                     /\ (1 <= VoidNumZones row)%Z)
         (Fnewlist MoreSamples.pruned_clusters)
  /\ num__acc MoreSamples.pruned_clusters = 2%Z.
Proof.
  destruct (@cluster_rows_respect_cuts _ _ _ _ _ _ _ _ _ _ sample_clusters)
    as (Hrows & Hn & _).
  split; [exact Hrows | exact Hn].
Defined.

(** The density of the reciprocal orders the other way. *)
Lemma reciprocal_order (a b : Q) : 0 < a -> 0 < b -> 1 / a <= 1 / b -> b <= a.
Proof.
  intros Ha Hb H. apply Qnot_lt_le. intro Hlt.
  apply (Qinv_lt_contravar a b Ha Hb) in Hlt.
  unfold Qdiv in H. rewrite !Qmult_1_l in H. lra.
Qed.

(** X20.  For candidates of positive core density, the rows of the new
    list file of clusters are in descending order of core density, whatever
    the switches are set to. *)
Theorem cluster_rows_descend (pol : policy) (max_dens_cut : Q) (cluster_min_num : Z)
    (meanvol_trc : Q) (listfile : list candidate) (clustfile : list (list token))
    (zonedata : list Z) (vols densities : list Q) (st : out_state) :
  Forall (fun c => 0 < col3 c) listfile ->
  ClusterPrune.postprocess_clusters pol max_dens_cut cluster_min_num meanvol_trc listfile
                                    clustfile zonedata vols densities = Ok st ->
  ForallOrdPairs (fun a b => b <= a) (map CoreDens (Fnewlist st)).
Proof.
  intros Hpos H. apply postprocess_clusters_prune in H.
  destruct H as (clustersread & Hsort & H).
  assert (Hrows : Forall (fun c => 0 < col3 c) clustersread).
  { clear H. revert clustersread Hsort.
    generalize (argsort (map (fun c => 1 / col3 c) listfile)).
    induction l as [|k l IH]; intros rows Hrows; cbn [mapM] in Hrows.
    - injection Hrows as <-. constructor.
    - destruct (getitem listfile k) as [c| |] eqn:E; cbn [Py.bind] in Hrows;
        try discriminate.
      destruct (mapM (getitem listfile) l) as [cs| |]; cbn [Py.bind] in Hrows;
        try discriminate.
      injection Hrows as <-. constructor; [|now apply IH].
      unfold getitem in E. destruct (_ <? 0)%Z; [discriminate|].
      destruct (nth_error listfile _) eqn:N; [|discriminate]. injection E as ->.
      rewrite Forall_forall in Hpos. apply Hpos. eapply nth_error_In; exact N. }
  apply (VoidMore.sorted_by_key (fun c => 1 / col3 c)) in Hsort.
  destruct Hsort as [Hord Hlen].
  eapply cluster_prune_order; [exact H|].
  cbn [initial Fnewlist map app]. rewrite (VoidMore.combine_fst_key col3) by exact Hlen.
  clear H Hlen. induction clustersread as [|c cs IH]; [constructor|].
  cbn [map] in *. inversion Hord as [|? ? Hc Hcs]; subst.
  inversion Hrows as [|? ? Hc0 Hcs0]; subst.
  constructor; [|now apply IH].
  rewrite Forall_forall in *. intros d Hd. apply in_map_iff in Hd.
  destruct Hd as (c' & <- & Hc').
  apply reciprocal_order; [exact Hc0 | now apply Hcs0|].
  apply Hc. apply in_map_iff. now exists c'.
Qed.

Lemma cluster_rows_descend_sample :
  ForallOrdPairs (fun a b => b <= a) (map CoreDens (Fnewlist MoreSamples.pruned_clusters))
  /\ map CoreDens (Fnewlist MoreSamples.pruned_clusters) = [1 # 2; 1 # 5].
Proof.
  split; [|reflexivity].
  apply (@cluster_rows_descend ClusterPrune.hard_coded (1 # 10) 1 100 Samples.listfile
           Samples.voidfile Samples.zonedata Samples.vols Samples.densities
           MoreSamples.pruned_clusters).
  - repeat constructor.
  - exact sample_clusters.
Defined.

End ClusterPruneFacts.

(* ================================================================== *)
(** * Properties of the void centres *)

Module CentreFacts.

Import Centres.

(** Turns the comparisons met in the goal and the hypotheses into
    inequalities. *)
Ltac order_cases :=
  repeat match goal with
         | |- context [Qltb ?a ?b] =>
             let E := fresh "E" in
             destruct (Qltb a b) eqn:E;
             [apply BoxFacts.Qltb_lt in E | apply BoxFacts.Qltb_ge in E]
         end.

Lemma sign_cases (x : Q) :
  (x < 0 -> sign x = - (1)) /\ (0 < x -> sign x = 1) /\ (x == 0 -> sign x = 0).
Proof.
  unfold sign. order_cases; repeat split; intros; try reflexivity; lra.
Qed.



(** One coordinate of a vertex after the shift. *)
Lemma shift_vertex_near (L v0 v : Q) :
  0 < L -> Qabs (v0 - v) <= L ->
  Qabs (v0 - shift_vertex L v0 v) <= L / 2.
Proof.
  intros HL Hd. unfold shift_vertex.
  assert (Hh : L == 2 * (L / 2)) by field.
  revert Hh. generalize (L / 2). intros h Hh.
  destruct (sign_cases (v0 - v)) as (Sneg & Spos & Szero).
  apply Qabs_Qle_condition in Hd.
  destruct (Qltb h (Qabs (v0 - v))) eqn:E.
  - apply BoxFacts.Qltb_lt in E.
    destruct (Qlt_le_dec (v0 - v) 0) as [Hneg|Hpos].
    + rewrite (Sneg Hneg). rewrite Qabs_neg in E by lra.
      apply Qabs_Qle_condition. split; lra.
    + rewrite Qabs_pos in E by lra.
      rewrite Spos by lra. apply Qabs_Qle_condition. split; lra.
  - apply BoxFacts.Qltb_ge in E. exact E.
Qed.

(** ** The barycentre *)

Lemma np_sum_from (l : list Q) (a : Q) : fold_left Qplus l a == a + np_sum l.
Proof.
  unfold np_sum. revert a. induction l as [|x l IH]; intro a; cbn [fold_left]; [ring|].
  rewrite (IH (a + x)), (IH (0 + x)). ring.
Qed.

Lemma np_sum_cons (x : Q) (l : list Q) : np_sum (x :: l) == x + np_sum l.
Proof.
  unfold np_sum at 1. cbn [fold_left]. rewrite np_sum_from. ring.
Qed.

Lemma term_bound (m h v S : Q) :
  - h <= m <= h -> 0 <= v -> 0 < S ->
  - (h * (v / S)) <= m * v / S <= h * (v / S).
Proof.
  intros Hm Hv HS.
  assert (Hw : 0 <= v / S).
  { unfold Qdiv. apply Qmult_le_0_compat; [exact Hv|].
    apply Qlt_le_weak. now apply Qinv_lt_0_compat. }
  assert (E : m * v / S == m * (v / S)) by (unfold Qdiv; ring).
  rewrite E. generalize dependent (v / S). intros w Hw _. split; nra.
Qed.

(** A mean weighted by volumes stays within the bounds of its terms. *)
Lemma weighted_mean_bound (h S : Q) (ms vs : list Q) :
  0 < S -> length ms = length vs ->
  Forall (fun m => - h <= m <= h) ms -> Forall (fun v => 0 <= v) vs ->
  - (h * (np_sum vs / S))
  <= np_sum (map (fun mv : Q * Q => fst mv * snd mv / S) (combine ms vs))
  <= h * (np_sum vs / S).
Proof.
  intros HS. revert vs. induction ms as [|m ms IH]; intros [|v vs] L Hm Hv;
    try discriminate; cbn [combine map].
  - unfold np_sum. cbn [fold_left]. unfold Qdiv. split; ring_simplify; apply Qle_refl.
  - inversion Hm as [|? ? Hm0 Hms]; subst. inversion Hv as [|? ? Hv0 Hvs]; subst.
    injection L as L. specialize (IH vs L Hms Hvs).
    cbn [fst snd]. rewrite !np_sum_cons.
    assert (E : (v + np_sum vs) / S == v / S + np_sum vs / S) by (unfold Qdiv; ring).
    rewrite E. pose proof (term_bound Hm0 Hv0 HS) as Ht.
    split; lra.
Qed.

Lemma np_sum_positive (vs : list Q) :
  Forall (fun v => 0 < v) vs -> vs <> [] -> 0 < np_sum vs.
Proof.
  intros Hv Hne. destruct vs as [|v vs]; [congruence|]. clear Hne.
  revert v Hv. induction vs as [|u vs IH]; intros v Hv; rewrite np_sum_cons.
  - inversion Hv; subst. unfold np_sum. cbn [fold_left]. lra.
  - inversion Hv as [|? ? Hv0 Hvs]; subst. specialize (IH u Hvs). lra.
Qed.

(** A member within a box length of the core particle is moved to within
    half a box length. *)
Lemma shift_member_near (L m : Q) :
  0 < L -> - L <= m <= L -> - (L / 2) <= shift_member L m <= L / 2.
Proof.
  intros HL Hm. unfold shift_member, copysign.
  assert (Hh : L == 2 * (L / 2)) by field.
  revert Hh. generalize (L / 2). intros h Hh.
  assert (HA : Qabs L == L) by (apply Qabs_pos; lra).
  revert HA. generalize (Qabs L). intros aL HA.
  destruct (Qltb h (Qabs m)) eqn:E.
  - apply BoxFacts.Qltb_lt in E.
    destruct (Qltb m 0) eqn:E0.
    + apply BoxFacts.Qltb_lt in E0. rewrite Qabs_neg in E by lra. split; lra.
    + apply BoxFacts.Qltb_ge in E0. rewrite Qabs_pos in E by lra. split; lra.
  - apply BoxFacts.Qltb_ge in E. apply Qabs_Qle_condition in E. split; lra.
Qed.

Lemma select_keeps (P : Q -> Prop) (mask : list bool) (l : list Q) :
  Forall P l -> Forall P (Voids.select mask l).
Proof.
  unfold Voids.select. revert l. induction mask as [|m mask IH]; intros [|x l] H;
    cbn [combine filter map]; try constructor.
  inversion H; subst. destruct m; cbn [fst map snd]; [constructor; [assumption|]|]; now apply IH.
Qed.

Lemma wrap_centre_range (L c : Q) :
  0 < L -> - L <= c <= 2 * L -> 0 <= wrap_centre L c <= L.
Proof.
  intros HL Hc. unfold wrap_centre.
  destruct (sign_cases c) as (Sneg & Spos & _).
  destruct (Qltb c 0) eqn:E0; cbn [orb].
  - apply BoxFacts.Qltb_lt in E0. rewrite (Sneg E0). split; lra.
  - apply BoxFacts.Qltb_ge in E0. destruct (Qltb L c) eqn:E1.
    + apply BoxFacts.Qltb_lt in E1. rewrite Spos by lra. split; lra.
    + apply BoxFacts.Qltb_ge in E1. split; lra.
Qed.

(** X22.  In a box whose tracers all lie in [[0, box_length]], with
    positive volumes, every coordinate of a barycentre lies in
    [[0, box_length]]: the members are taken at their periodic image
    nearest to the core particle, so that their weighted mean is within
    half a box length of it, and the result is wrapped back into the box. *)
Theorem barycentre_inside_box (box_length : Q) (member_ids : list bool) (pos vols : list Q)
    (core : Z) (c : Q) :
  0 < box_length ->
  Forall (fun x => 0 <= x <= box_length) pos ->
  Forall (fun v => 0 < v) vols ->
  barycentre_coord true box_length member_ids pos vols core = Ok c ->
  0 <= c <= box_length.
Proof.
  intros HL Hpos Hvol H. unfold barycentre_coord, VolumeWeights.bool_index in H.
  destruct (length member_ids =? length pos)%nat eqn:Lp; [|discriminate].
  cbn [Py.bind] in H.
  destruct (getitem pos core) as [x0| |] eqn:Hcore; cbn [Py.bind] in H; try discriminate.
  destruct (length member_ids =? length vols)%nat eqn:Lv; [|discriminate].
  cbn [Py.bind] in H. injection H as <-.
  apply Nat.eqb_eq in Lp, Lv.
  assert (Hx0 : 0 <= x0 <= box_length).
  { unfold getitem in Hcore. destruct (_ <? 0)%Z; [discriminate|].
    destruct (nth_error pos _) eqn:N; [|discriminate]. injection Hcore as ->.
    rewrite Forall_forall in Hpos. apply Hpos. eapply nth_error_In; exact N. }
  set (xs := Voids.select member_ids pos).
  set (vs := Voids.select member_ids vols).
  assert (Hxs : Forall (fun x => 0 <= x <= box_length) xs) by now apply select_keeps.
  assert (Hvs : Forall (fun v => 0 < v) vs) by now apply select_keeps.
  assert (Hlen : length xs = length vs).
  { unfold xs, vs. rewrite !WeightFacts.select_length by assumption. reflexivity. }
  set (ms := map (shift_member box_length) (map (fun x => x - x0) xs)).
  assert (Hms : Forall (fun m => - (box_length / 2) <= m <= box_length / 2) ms).
  { unfold ms. rewrite map_map. rewrite Forall_forall in *. intros m Hm.
    apply in_map_iff in Hm. destruct Hm as (x & <- & Hx).
    apply shift_member_near; [exact HL|]. specialize (Hxs x Hx). lra. }
  apply wrap_centre_range; [exact HL|].
  destruct vs as [|v0 vs'] eqn:Evs.
  - (* no member: the centre is the core particle *)
    assert (xs = []) by (destruct xs; [reflexivity | discriminate]).
    unfold ms. rewrite H. cbn [map combine]. unfold np_sum. cbn [fold_left]. split; lra.
  - rewrite <- Evs in *.
    assert (HS : 0 < np_sum vs) by (apply np_sum_positive; [exact Hvs | congruence]).
    assert (Hms' : length ms = length vs) by (unfold ms; now rewrite !length_map).
    assert (Hvs' : Forall (fun v => 0 <= v) vs).
    { eapply Forall_impl; [|exact Hvs]. cbn. intros; lra. }
    pose proof (weighted_mean_bound HS Hms' Hms Hvs') as Hb.
    assert (E1 : np_sum vs / np_sum vs == 1) by (field; lra).
    rewrite E1 in Hb.
    assert (Hh : box_length == 2 * (box_length / 2)) by field.
    revert Hb Hh. generalize (box_length / 2). intros h Hb Hh. split; lra.
Qed.

Lemma barycentre_inside_box_sample :
  0 <= MoreSamples.barycentre_x <= 10.
Proof.
  apply (@barycentre_inside_box 10 [true; true; false] [1; 9; 2] [1; 1; 2] 0
           MoreSamples.barycentre_x).
  - reflexivity.
  - repeat constructor; discriminate.
  - repeat constructor.
  - reflexivity.
Defined.

(** ** The vertices *)

Lemma shift_vertex_image (L v0 v : Q) : image_of L v (shift_vertex L v0 v).
Proof.
  unfold image_of, shift_vertex, sign.
  destruct (Qltb (L / 2) (Qabs (v0 - v))); [|left; reflexivity].
  destruct (Qltb (v0 - v) 0); [right; right; ring|].
  destruct (Qltb 0 (v0 - v)); [right; left; ring | left; ring].
Qed.

Lemma shift_vertex_self (L v0 : Q) : 0 < L -> shift_vertex L v0 v0 = v0.
Proof.
  intro HL. unfold shift_vertex.
  replace (Qltb (L / 2) (Qabs (v0 - v0))) with false; [reflexivity|].
  symmetry. apply BoxFacts.Qltb_ge.
  assert (E : v0 - v0 == 0) by ring. rewrite E.
  assert (Hh : L == 2 * (L / 2)) by field.
  revert Hh. generalize (L / 2). intros h Hh. cbn. lra.
Qed.

(** X23.  In a box whose tracers lie in [[0, box_length]], the vertices
    used for the circumcentre are the core particle itself and, for each of
    its three neighbours, the neighbour or its periodic image one box
    length away along an axis, whichever is within half a box length of
    the core particle along that axis. *)
Theorem vertices_next_to_core (box_length : Q) (p0 : point) (vs : list point) :
  0 < box_length ->
  in_box box_length p0 ->
  Forall (in_box box_length) vs ->
  exists ws,
    adjust_vertices box_length (p0 :: vs) = p0 :: ws
    /\ Forall2 (fun v w => periodic_image box_length v w /\ within (box_length / 2) p0 w)
               vs ws.
Proof.
  intros HL H0 Hvs. destruct p0 as [[x0 y0] z0].
  exists (map (fun v : point =>
                 let '(x, y, z) := v in
                 (shift_vertex box_length x0 x, shift_vertex box_length y0 y,
                  shift_vertex box_length z0 z)) vs).
  split.
  - cbn [adjust_vertices map]. now rewrite !shift_vertex_self.
  - induction Hvs as [|[[x y] z] vs Hv Hvs IH]; cbn [map]; constructor; [|exact IH].
    cbn [in_box] in H0, Hv. destruct H0 as (Hx0 & Hy0 & Hz0). destruct Hv as (Hx & Hy & Hz).
    split.
    + cbn [periodic_image]. repeat split; apply shift_vertex_image.
    + cbn [within]. repeat split; apply shift_vertex_near; try exact HL;
        apply Qabs_Qle_condition; split; lra.
Qed.

Lemma vertices_next_to_core_sample :
  exists ws,
    adjust_vertices 10 [(1, 5, 9); (9, 5, 2)] = (1, 5, 9) :: ws
    /\ Forall2 (fun v w => periodic_image 10 v w /\ within (10 / 2) (1, 5, 9) w)
               [(9, 5, 2)] ws.
Proof.
  apply (@vertices_next_to_core 10 (1, 5, 9) [(9, 5, 2)]).
  - reflexivity.
  - cbn. repeat split; discriminate.
  - repeat constructor; discriminate.
Defined.

(** ** The choice of the neighbours *)

Lemma argmin_from_least (l : list Q) (i : nat) (best : Q) (best_i : nat) :
  exists x,
    ((argmin_from l i best best_i = best_i /\ x = best)
     \/ exists j, argmin_from l i best best_i = (i + j)%nat /\ nth_error l j = Some x)
    /\ x <= best
    /\ forall y, In y l -> x <= y.
Proof.
  revert i best best_i. induction l as [|x0 r IH]; intros i best best_i; cbn [argmin_from].
  - exists best. split; [left; now split|]. split; [lra|]. intros y [].
  - destruct (Qltb x0 best) eqn:E.
    + apply BoxFacts.Qltb_lt in E.
      destruct (IH (S i) x0 i) as (x & Hk & Hle & Hall).
      exists x. split; [right|split; [lra|]].
      * destruct Hk as [[-> ->]|(j & -> & Hj)].
        -- exists 0%nat. split; [lia | reflexivity].
        -- exists (S j). split; [lia | exact Hj].
      * intros y [<-|Hy]; [exact Hle | now apply Hall].
    + apply BoxFacts.Qltb_ge in E.
      destruct (IH (S i) best best_i) as (x & Hk & Hle & Hall).
      exists x. split; [|split; [exact Hle|]].
      * destruct Hk as [[-> ->]|(j & -> & Hj)]; [left; now split|].
        right. exists (S j). split; [lia | exact Hj].
      * intros y [<-|Hy]; [lra | now apply Hall].
Qed.

(** [np.argmin] gives the place of an entry that no other is below. *)
Lemma argmin_least (l : list Q) (k : nat) :
  argmin l = Ok k ->
  exists x, nth_error l k = Some x /\ forall y, In y l -> x <= y.
Proof.
  destruct l as [|x0 r]; [discriminate|]. cbn [argmin]. intro H. injection H as <-.
  destruct (argmin_from_least r 1 x0 0) as (x & Hk & Hle & Hall).
  exists x. split.
  - destruct Hk as [[-> ->]|(j & -> & Hj)]; [reflexivity | exact Hj].
  - intros y [<-|Hy]; [exact Hle | now apply Hall].
Qed.

Lemma take_each (A : Type) (a : list A) (idx : list Z) (vs : list A) :
  take a idx = Ok vs -> Forall2 (fun i v => getitem a i = Ok v) idx vs.
Proof.
  unfold take. revert vs. induction idx as [|i idx IH]; intros vs H; cbn [mapM] in H.
  - injection H as <-. constructor.
  - destruct (getitem a i) as [v| |] eqn:E; cbn [Py.bind] in H; try discriminate.
    destruct (mapM (getitem a) idx) as [vs'| |]; cbn [Py.bind] in H; try discriminate.
    injection H as <-. constructor; [exact E | now apply IH].
Qed.

Lemma insert_sorted_In (x y : Z) (l : list Z) :
  In y (insert_sorted x l) <-> y = x \/ In y l.
Proof.
  induction l as [|z l IH]; cbn [insert_sorted In]; [intuition|].
  destruct (x <? z)%Z; cbn [In]; [intuition|].
  destruct (x =? z)%Z eqn:E; cbn [In].
  - apply Z.eqb_eq in E. subst z. intuition.
  - rewrite IH. intuition.
Qed.

Lemma unique_In (y : Z) (l : list Z) : In y (unique l) <-> In y l.
Proof.
  unfold unique. induction l as [|x l IH]; cbn [fold_right In]; [reflexivity|].
  rewrite insert_sorted_In, IH. intuition.
Qed.

(** [np.intersect1d] holds the values found in both lists. *)
Lemma intersect1d_In (y : Z) (a b : list Z) :
  In y (intersect1d a b) <-> In y a /\ In y b.
Proof.
  unfold intersect1d, contains. rewrite filter_In, unique_In, existsb_exists.
  split; intros [Ha Hb]; (split; [exact Ha|]).
  - destruct Hb as (z & Hz & E). apply Z.eqb_eq in E. now subst z.
  - exists y. split; [exact Hb | apply Z.eqb_refl].
Qed.

(** The entry picked by [l[np.argmin(densities[l])]]: a member of [l] of
    least density. *)
Lemma least_dense_member (densities : list Q) (l : list Z) (dens : list Q) (k : nat) (n : Z) :
  take densities l = Ok dens -> argmin dens = Ok k -> getitem l (Z.of_nat k) = Ok n ->
  In n l
  /\ exists d, getitem densities n = Ok d
               /\ forall n' d', In n' l -> getitem densities n' = Ok d' -> d <= d'.
Proof.
  intros Ht Ha Hn. apply take_each in Ht. apply argmin_least in Ha.
  destruct Ha as (d & Hd & Hleast).
  rewrite VoidFacts.getitem_nonneg in Hn by lia. rewrite Nat2Z.id in Hn.
  destruct (nth_error l k) as [n0|] eqn:Hk; [|discriminate]. injection Hn as ->.
  split; [eapply nth_error_In; exact Hk|].
  exists d. split.
  - clear Hleast. revert k Hk Hd. induction Ht as [|i v idx vs Hiv Ht IH]; intros [|k] Hk Hd;
      try discriminate; cbn [nth_error] in *.
    + injection Hk as ->. injection Hd as ->. exact Hiv.
    + eapply IH; eassumption.
  - intros n' d' Hin Hd'. apply Hleast. clear Hleast Hk Hd.
    induction Ht as [|i v idx vs Hiv Ht IH]; [destruct Hin|].
    destruct Hin as [->|Hin]; [left; congruence | right; now apply IH].
Qed.

(** X24.  When the three neighbours are found, they are adjacent to the
    core particle and to each other as the adjacency lists have it: the
    first is the neighbour of the core particle of least density, the
    second the least dense among the neighbours of both, and the third the
    least dense among the neighbours of all three. *)
Theorem vertices_are_mutual_neighbours (partadjs : list (list Z)) (densities : list Q)
    (core first_nbr second_nbr third_nbr : Z) :
  select_vertices partadjs densities core = Ok (Vertices first_nbr second_nbr third_nbr) ->
  exists coreadjs adjs1 adjs2 d1 d2 d3,
    getitem partadjs core = Ok coreadjs
    /\ getitem partadjs first_nbr = Ok adjs1
    /\ getitem partadjs second_nbr = Ok adjs2
    /\ getitem densities first_nbr = Ok d1
    /\ getitem densities second_nbr = Ok d2
    /\ getitem densities third_nbr = Ok d3
    /\ In first_nbr coreadjs
    /\ (In second_nbr coreadjs /\ In second_nbr adjs1)
    /\ (In third_nbr coreadjs /\ In third_nbr adjs1 /\ In third_nbr adjs2)
    /\ (forall n d, In n coreadjs -> getitem densities n = Ok d -> d1 <= d)
    /\ (forall n d, In n coreadjs -> In n adjs1 -> getitem densities n = Ok d -> d2 <= d)
    /\ (forall n d, In n coreadjs -> In n adjs1 -> In n adjs2 ->
                    getitem densities n = Ok d -> d3 <= d).
Proof.
  unfold select_vertices. intro H.
  destruct (getitem partadjs core) as [coreadjs| |]; cbn [Py.bind] in H; try discriminate.
  destruct (take densities coreadjs) as [dens0| |] eqn:T0; cbn [Py.bind] in H;
    try discriminate.
  destruct (argmin dens0) as [k0| |] eqn:A0; cbn [Py.bind] in H; try discriminate.
  destruct (getitem coreadjs (Z.of_nat k0)) as [n1| |] eqn:G0; cbn [Py.bind] in H;
    try discriminate.
  destruct (getitem partadjs n1) as [adjs1| |] eqn:P1; cbn [Py.bind] in H; try discriminate.
  destruct (length (intersect1d coreadjs adjs1) =? 0)%nat; [discriminate|].
  destruct (take densities (intersect1d coreadjs adjs1)) as [dens1| |] eqn:T1;
    cbn [Py.bind] in H; try discriminate.
  destruct (argmin dens1) as [k1| |] eqn:A1; cbn [Py.bind] in H; try discriminate.
  destruct (getitem (intersect1d coreadjs adjs1) (Z.of_nat k1)) as [n2| |] eqn:G1;
    cbn [Py.bind] in H; try discriminate.
  destruct (getitem partadjs n2) as [adjs2| |] eqn:P2; cbn [Py.bind] in H; try discriminate.
  destruct (length (intersect1d (intersect1d coreadjs adjs1) adjs2) =? 0)%nat;
    [discriminate|].
  destruct (take densities (intersect1d (intersect1d coreadjs adjs1) adjs2))
    as [dens2| |] eqn:T2; cbn [Py.bind] in H; try discriminate.
  destruct (argmin dens2) as [k2| |] eqn:A2; cbn [Py.bind] in H; try discriminate.
  destruct (getitem (intersect1d (intersect1d coreadjs adjs1) adjs2) (Z.of_nat k2))
    as [n3| |] eqn:G2; cbn [Py.bind] in H; try discriminate.
  injection H as -> -> ->.
  destruct (least_dense_member _ _ T0 A0 G0) as (I1 & d1 & D1 & L1).
  destruct (least_dense_member _ _ T1 A1 G1) as (I2 & d2 & D2 & L2).
  destruct (least_dense_member _ _ T2 A2 G2) as (I3 & d3 & D3 & L3).
  apply intersect1d_In in I2. apply intersect1d_In in I3.
  destruct I3 as [I3 I3']. apply intersect1d_In in I3.
  exists coreadjs, adjs1, adjs2, d1, d2, d3.
  repeat split; try assumption; try tauto.
  - intros n d Hn Hn1 Hd. apply (L2 n d); [|exact Hd]. apply intersect1d_In. tauto.
  - intros n d Hn Hn1 Hn2 Hd. apply (L3 n d); [|exact Hd].
    apply intersect1d_In. split; [|exact Hn2]. apply intersect1d_In. tauto.
Qed.

Lemma vertices_are_mutual_neighbours_sample :
  exists coreadjs adjs1 adjs2 d1 d2 d3,
    getitem MoreSamples.tetra_adjs 0 = Ok coreadjs
    /\ getitem MoreSamples.tetra_adjs 2 = Ok adjs1
    /\ getitem MoreSamples.tetra_adjs 3 = Ok adjs2
    /\ getitem MoreSamples.tetra_dens 2 = Ok d1
    /\ getitem MoreSamples.tetra_dens 3 = Ok d2
    /\ getitem MoreSamples.tetra_dens 1 = Ok d3
    /\ In 2%Z coreadjs
    /\ (In 3%Z coreadjs /\ In 3%Z adjs1)
    /\ (In 1%Z coreadjs /\ In 1%Z adjs1 /\ In 1%Z adjs2).
Proof.
  destruct (@vertices_are_mutual_neighbours MoreSamples.tetra_adjs MoreSamples.tetra_dens
              0 2 3 1 eq_refl)
    as (coreadjs & adjs1 & adjs2 & d1 & d2 & d3 & H).
  exists coreadjs, adjs1, adjs2, d1, d2, d3. tauto.
Defined.

(** ** The array [circumcentre] *)

Section Truncation.

Variable circumcentre_of : list point -> point.
Variable is_box : bool.
Variable box_length : Q.
Variable positions : list point.
Variable partadjs : list (list Z).
Variable densities : list Q.

#[local] Abbreviation centre_of :=
  (void_centre circumcentre_of is_box box_length positions partadjs densities).
#[local] Abbreviation centres_of :=
  (void_centres circumcentre_of is_box box_length positions partadjs densities).

Lemma cast_whole (x : Q) : whole (cast Int64 x).
Proof.
  now exists (to_int x).
Qed.

Lemma wrap_array_whole (a : centre_array) :
  dt a = Int64 -> whole_point (coords a) ->
  dt (wrap_array box_length a) = Int64 /\ whole_point (coords (wrap_array box_length a)).
Proof.
  destruct a as [d [[x y] z]]. cbn [dt coords]. intros -> (Hx & Hy & Hz).
  unfold wrap_array. cbn [dt coords]. split; [reflexivity|].
  cbn [whole_point].
  repeat split;
    match goal with
    | |- whole (if ?b then _ else _) => destruct b; [apply cast_whole | assumption]
    end.
Qed.

(** Once the array holds integers, it goes on holding integers. *)
Lemma void_centre_stays_whole (a a' : centre_array) (core : Z) (flag : bool) :
  dt a = Int64 -> centre_of a core = Ok (a', flag) ->
  dt a' = Int64 /\ whole_point (coords a').
Proof.
  intros Ha H. unfold void_centre in H.
  destruct (select_vertices partadjs densities core) as [sel| |]; cbn [Py.bind] in H;
    try discriminate.
  assert (Hfound : forall found : centre_array * bool,
            dt (fst found) = Int64 -> whole_point (coords (fst found)) ->
            Ok (if is_box then wrap_array box_length (fst found) else fst found, snd found)
            = Ok (a', flag) ->
            dt a' = Int64 /\ whole_point (coords a')).
  { intros found Hd Hw E. injection E as <- _.
    destruct is_box; [now apply wrap_array_whole | now split]. }
  destruct sel as [|n1 n2 n3].
  - cbn [Py.bind] in H. eapply Hfound; [| |exact H].
    + reflexivity.
    + cbn. repeat split; now exists 0%Z.
  - VoidFacts.bind_ok H. VoidFacts.bind_ok E. injection E as <-.
    eapply Hfound; [| |exact H].
    + cbn [fst]. unfold assign. destruct (circumcentre_of _) as [[x y] z]. exact Ha.
    + cbn [fst]. unfold assign. rewrite Ha.
      destruct (circumcentre_of _) as [[x y] z]. cbn [coords whole_point].
      repeat split; apply cast_whole.
Qed.

Lemma void_centres_stay_whole (a : centre_array) (coreparts : list Z)
    (outs : list (centre_array * bool)) :
  dt a = Int64 -> centres_of a coreparts = Ok outs ->
  Forall (fun r => whole_point (coords (fst r))) outs.
Proof.
  revert a outs. induction coreparts as [|core rest IH]; intros a outs Ha H;
    cbn [void_centres] in H.
  - injection H as <-. constructor.
  - destruct (centre_of a core) as [[a1 f1]| |] eqn:E; cbn [Py.bind fst] in H;
      try discriminate.
    destruct (centres_of a1 rest) as [rs| |] eqn:Er; cbn [Py.bind] in H; try discriminate.
    injection H as <-.
    eapply void_centre_stays_whole in E; [|exact Ha]. destruct E as [Ha1 Hw1].
    constructor; [exact Hw1 | exact (IH _ _ Ha1 Er)].
Qed.

(** A void without three mutual neighbours leaves an array of integers. *)
Lemma flagged_void_array (a a' : centre_array) (core : Z) :
  0 <= box_length ->
  centre_of a core = Ok (a', true) ->
  a' = CentreArray Int64 (0, 0, 0).
Proof.
  intros HL H. unfold void_centre in H.
  destruct (select_vertices partadjs densities core) as [[|n1 n2 n3]| |];
    cbn [Py.bind] in H; try discriminate.
  - injection H as <-. destruct is_box; [|reflexivity].
    unfold wrap_array. cbn [coords dt fst].
    replace (Qltb 0 0) with false by reflexivity.
    replace (Qltb box_length 0) with false
      by (symmetry; apply BoxFacts.Qltb_ge; exact HL).
    reflexivity.
  - VoidFacts.bind_ok H. VoidFacts.bind_ok E. injection E as <-.
    cbn [snd] in H. discriminate.
Qed.

End Truncation.

(** X25.  A void whose core particle has no three mutually adjacent
    neighbours gets the centre (0, 0, 0) and the flag 2, and the array
    [circumcentre] is from then on an array of integers: for every void
    treated after it, the coordinates of the circumcentre are cut to whole
    numbers when they are stored. *)
Theorem centres_after_flagged_void_are_whole (circumcentre_of : list point -> point)
    (is_box : bool) (box_length : Q) (positions : list point) (partadjs : list (list Z))
    (densities : list Q) (a : centre_array) (coreparts : list Z)
    (outs : list (centre_array * bool)) (k : nat) (ak : centre_array) :
  0 <= box_length ->
  void_centres circumcentre_of is_box box_length positions partadjs densities a coreparts
  = Ok outs ->
  nth_error outs k = Some (ak, true) ->
  coords ak = (0, 0, 0)
  /\ forall j aj flag, (k < j)%nat -> nth_error outs j = Some (aj, flag) ->
       whole_point (coords aj).
Proof.
  intros HL. revert a outs k. induction coreparts as [|core rest IH]; intros a outs k H Hk;
    cbn [void_centres] in H.
  - injection H as <-. destruct k; discriminate.
  - destruct (void_centre circumcentre_of is_box box_length positions partadjs densities
                          a core) as [[a1 f1]| |] eqn:E; cbn [Py.bind fst] in H;
      try discriminate.
    destruct (void_centres circumcentre_of is_box box_length positions partadjs densities
                           a1 rest) as [rs| |] eqn:Er; cbn [Py.bind] in H;
      try discriminate.
    injection H as <-. destruct k as [|k]; cbn [nth_error] in Hk.
    + injection Hk as -> ->. apply flagged_void_array in E; [|exact HL]. subst ak.
      split; [reflexivity|].
      intros [|j] aj flag Hj Hnth; [lia|]. cbn [nth_error] in Hnth.
      pose proof Er as Hall. eapply void_centres_stay_whole in Hall; [|reflexivity].
      rewrite Forall_forall in Hall.
      exact (Hall _ (nth_error_In _ _ Hnth)).
    + destruct (IH _ _ _ Er Hk) as [H0 Hlater]. split; [exact H0|].
      intros [|j] aj flag Hj Hnth; [lia|]. cbn [nth_error] in Hnth.
      apply (Hlater j aj flag); [lia | exact Hnth].
Qed.

(** The second void of the sample has its vertices at (2, 2, 2), (3, 2, 2),
    (2, 3, 2) and (2, 2, 3); the solver gives (9/4, 9/4, 9/4), and
    (2, 2, 2) is stored. *)
Lemma centres_after_flagged_void_are_whole_sample :
  nth_error MoreSamples.chain_centres 0 = Some (CentreArray Int64 (0, 0, 0), true)
  /\ nth_error MoreSamples.chain_centres 1 = Some (CentreArray Int64 (2, 2, 2), false)
  /\ MoreSamples.mean_vertex [(2, 2, 2); (3, 2, 2); (2, 3, 2); (2, 2, 3)]
     = (9 # 4, 9 # 4, 9 # 4)
  /\ whole_point (2, 2, 2).
Proof.
  destruct (@centres_after_flagged_void_are_whole MoreSamples.mean_vertex true 10
              MoreSamples.chain_positions MoreSamples.chain_adjs MoreSamples.chain_dens
              (CentreArray Float64 (0, 0, 0)) [0; 1]%Z MoreSamples.chain_centres 0
              (CentreArray Int64 (0, 0, 0)))
    as [_ Hlater].
  - discriminate.
  - reflexivity.
  - reflexivity.
  - split; [reflexivity|]. split; [reflexivity|]. split; [reflexivity|].
    exact (Hlater 1%nat (CentreArray Int64 (2, 2, 2)) false (Nat.lt_0_1) eq_refl).
Defined.

End CentreFacts.

(* ================================================================== *)
(** * Properties of the adjacencies *)

Module AdjacencyFacts.

Import Adjacency.

(** ** Lists changed at one place *)

Lemma list_set_length (A : Type) (j : nat) (x : A) (l : list A) :
  length (Np.list_set j x l) = length l.
Proof.
  revert j. induction l as [|a l IH]; intros [|j]; cbn [Np.list_set length];
    try reflexivity. now rewrite IH.
Qed.

Lemma list_set_nth (A : Type) (d : A) (j p : nat) (x : A) (l : list A) :
  (j < length l)%nat ->
  nth p (Np.list_set j x l) d = if (p =? j)%nat then x else nth p l d.
Proof.
  revert j p. induction l as [|a l IH]; intros j p Hj; cbn [length] in Hj; [lia|].
  destruct j as [|j]; destruct p as [|p]; cbn [Np.list_set nth Nat.eqb]; try reflexivity.
  apply IH. lia.
Qed.

Lemma getitem_at (A : Type) (d : A) (l : list A) (p : nat) :
  (p < length l)%nat -> getitem l (Z.of_nat p) = Ok (nth p l d).
Proof.
  intro Hp. rewrite VoidFacts.getitem_nonneg by lia. rewrite Nat2Z.id.
  destruct (nth_error l p) eqn:E.
  - f_equal. symmetry. now apply nth_error_nth.
  - apply nth_error_None in E. lia.
Qed.

Lemma setitem_at (A : Type) (l : list A) (p : nat) (x : A) :
  (p < length l)%nat -> setitem l (Z.of_nat p) x = Ok (Np.list_set p x l).
Proof.
  intro Hp. unfold setitem.
  replace (Z.of_nat p <? 0)%Z with false by (symmetry; apply Z.ltb_ge; lia).
  replace (Z.of_nat p <? 0)%Z with false by (symmetry; apply Z.ltb_ge; lia).
  replace (Z.of_nat (length l) <=? Z.of_nat p)%Z with false
    by (symmetry; apply Z.leb_gt; lia).
  cbn [orb]. now rewrite Nat2Z.id.
Qed.

(** On a list that has [oldcount] entries, the slice assignment appends. *)
Lemma set_slice_appends (own adj : list Z) (newcount : Z) :
  set_slice own (Z.of_nat (length own)) newcount adj = own ++ adj.
Proof.
  unfold set_slice, bound.
  replace (Z.of_nat (length own) <? 0)%Z with false by (symmetry; apply Z.ltb_ge; lia).
  rewrite Z.min_id, Z.max_r by lia.
  set (b := Z.max 0 (Z.min (Z.of_nat (length own))
                           (if (newcount <? 0)%Z then (newcount + Z.of_nat (length own))%Z
                            else newcount))).
  assert (Hb : Z.max (Z.of_nat (length own)) b = Z.of_nat (length own)) by (unfold b; lia).
  rewrite Hb, Nat2Z.id, firstn_all, skipn_all. now rewrite app_nil_r.
Qed.

Lemma contains_In (x : Z) (l : list Z) : contains x l = true <-> In x l.
Proof.
  unfold contains. rewrite existsb_exists. split.
  - intros (y & Hy & E). apply Z.eqb_eq in E. now subst y.
  - intro H. exists x. split; [exact H | apply Z.eqb_refl].
Qed.

Lemma contains_not_In (x : Z) (l : list Z) : contains x l = false <-> ~ In x l.
Proof.
  rewrite <- contains_In. destruct (contains x l); split; intro H; congruence.
Qed.

(** ** The two updates for the particles named by an entry *)

Section Turn.

Variable n : nat.

(** Particle [i] is appended to the list of each particle named. *)
Lemma append_each_lists (i : Z) (adj : list Z) (P : list (list Z)) :
  Forall (fun index => (0 <= index < Z.of_nat n)%Z) adj -> NoDup adj -> length P = n ->
  exists P',
    append_each i adj P = Ok P'
    /\ length P' = n
    /\ forall p, (p < n)%nat ->
         nth p P' [] = nth p P [] ++ (if contains (Z.of_nat p) adj then [i] else []).
Proof.
  revert P. induction adj as [|index rest IH]; intros P Hr Hnd HP; cbn [append_each].
  - exists P. split; [reflexivity|]. split; [exact HP|].
    intros p _. cbn. now rewrite app_nil_r.
  - inversion Hr as [|? ? Hi Hrest]; subst. inversion Hnd as [|? ? Hfresh Hnd']; subst.
    set (j := Z.to_nat index). assert (Hj : index = Z.of_nat j) by (unfold j; lia).
    rewrite Hj in *. clear Hj. clearbody j.
    rewrite (@getitem_at _ [] P j) by lia. cbn [Py.bind].
    rewrite setitem_at by lia. cbn [Py.bind].
    destruct (IH (Np.list_set j (nth j P [] ++ [i]) P) Hrest Hnd')
      as (P' & -> & HP' & Hnth); [now rewrite list_set_length|].
    exists P'. split; [reflexivity|]. split; [exact HP'|].
    intros p Hp. rewrite (Hnth p Hp), list_set_nth by lia.
    unfold contains at 2. cbn [existsb]. fold (contains (Z.of_nat p) rest).
    destruct (p =? j)%nat eqn:E.
    + apply Nat.eqb_eq in E. subst p. rewrite Z.eqb_refl. cbn [orb].
      apply contains_not_In in Hfresh. rewrite Hfresh. now rewrite app_nil_r.
    + apply Nat.eqb_neq in E.
      replace (Z.of_nat p =? Z.of_nat j)%Z with false by (symmetry; apply Z.eqb_neq; lia).
      reflexivity.
Qed.

Lemma take_counts (C : list Z) (adj : list Z) :
  Forall (fun index => (0 <= index < Z.of_nat n)%Z) adj -> length C = n ->
  Centres.take C adj = Ok (map (fun index => nth (Z.to_nat index) C 0%Z) adj).
Proof.
  intros Hr HC. unfold Centres.take. induction Hr as [|index rest Hi Hrest IH]; [reflexivity|].
  cbn [mapM map]. rewrite IH.
  replace index with (Z.of_nat (Z.to_nat index)) at 1 by lia.
  rewrite (@getitem_at _ 0%Z C (Z.to_nat index)) by lia. reflexivity.
Qed.

Lemma store_each_counts (g : nat -> Z) (adj : list Z) (a : list Z) :
  Forall (fun index => (0 <= index < Z.of_nat n)%Z) adj -> length a = n ->
  exists a',
    store_each adj (map (fun index => g (Z.to_nat index)) adj) a = Ok a'
    /\ length a' = n
    /\ forall p, (p < n)%nat ->
         nth p a' 0%Z = if contains (Z.of_nat p) adj then g p else nth p a 0%Z.
Proof.
  revert a. induction adj as [|index rest IH]; intros a Hr Ha; cbn [store_each map].
  - exists a. split; [reflexivity|]. split; [exact Ha|]. intros p _. reflexivity.
  - inversion Hr as [|? ? Hi Hrest]; subst.
    set (j := Z.to_nat index). assert (Hj : index = Z.of_nat j) by (unfold j; lia).
    clearbody j. subst index. rewrite setitem_at by lia. cbn [Py.bind].
    destruct (IH (Np.list_set j (g j) a) Hrest) as (a' & -> & Ha' & Hnth);
      [now rewrite list_set_length|].
    exists a'. split; [reflexivity|]. split; [exact Ha'|].
    intros p Hp. rewrite (Hnth p Hp), list_set_nth by lia.
    unfold contains at 2. cbn [existsb]. fold (contains (Z.of_nat p) rest).
    destruct (contains (Z.of_nat p) rest); [now rewrite orb_true_r|]. rewrite orb_false_r.
    destruct (p =? j)%nat eqn:E.
    + apply Nat.eqb_eq in E. subst p. now rewrite Z.eqb_refl.
    + apply Nat.eqb_neq in E.
      replace (Z.of_nat p =? Z.of_nat j)%Z with false by (symmetry; apply Z.eqb_neq; lia).
      reflexivity.
Qed.

(** The counter of each particle named goes up by one. *)
Lemma increment_at_counts (adj : list Z) (C : list Z) :
  Forall (fun index => (0 <= index < Z.of_nat n)%Z) adj -> length C = n ->
  exists C',
    increment_at adj C = Ok C'
    /\ length C' = n
    /\ forall p, (p < n)%nat ->
         nth p C' 0%Z
         = if contains (Z.of_nat p) adj then TracerStore.int32_wrap (nth p C 0%Z + 1)
           else nth p C 0%Z.
Proof.
  intros Hr HC. unfold increment_at. rewrite (@take_counts C adj Hr HC). cbn [Py.bind].
  rewrite map_map.
  apply (@store_each_counts (fun p => TracerStore.int32_wrap (nth p C 0%Z + 1)) adj C Hr HC).
Qed.

End Turn.

(** ** The loop *)

Lemma adjacency_count_app (done rest : list entry) :
  adjacency_count (done ++ rest) = (adjacency_count done + adjacency_count rest)%nat.
Proof.
  unfold adjacency_count. induction done as [|e done IH]; cbn [app fold_right]; [reflexivity|].
  rewrite IH. lia.
Qed.

Lemma entry_after (done : list entry) (e e0 : entry) (i : nat) :
  nth_error (done ++ [e]) i = Some e0
  <-> nth_error done i = Some e0 \/ (i = length done /\ e0 = e).
Proof.
  destruct (Nat.lt_ge_cases i (length done)) as [Hlt|Hge].
  - rewrite nth_error_app1 by exact Hlt. split; [now left|].
    intros [H|[-> _]]; [exact H | lia].
  - rewrite nth_error_app2 by exact Hge.
    assert (Hnone : nth_error done i = None) by now apply nth_error_None.
    rewrite Hnone. split.
    + intro H. right. destruct (i - length done)%nat as [|k] eqn:E; cbn [nth_error] in H.
      * injection H as <-. split; [lia | reflexivity].
      * destruct k; discriminate.
    + intros [H|[-> ->]]; [discriminate|]. now rewrite Nat.sub_diag.
Qed.

Lemma int32_wrap_small (z : Z) : (0 <= z < 2 ^ 31)%Z -> TracerStore.int32_wrap z = z.
Proof.
  intro H. unfold TracerStore.int32_wrap.
  rewrite Z.mod_small by (change (2 ^ 32)%Z with (2 ^ 31 + 2 ^ 31)%Z; lia). lia.
Qed.

(** One turn of the loop keeps the lists and the counters as described. *)
Lemma load_entry_loaded (n : nat) (done : list entry) (e : entry)
    (st : list (list Z) * list Z) :
  loaded n done st -> well_formed n e -> (length done < n)%nat ->
  (2 * Z.of_nat (adjacency_count (done ++ [e])) < 2 ^ 31)%Z ->
  exists st', load_entry (Z.of_nat (length done)) e st = Ok st'
              /\ loaded n (done ++ [e]) st'.
Proof.
  destruct st as [P C]. intros (HP & HC & Hinv) (Hnum & Hrange & Hnd) Hi Hbound.
  rewrite adjacency_count_app in Hbound. cbn [adjacency_count fold_right] in Hbound.
  unfold load_entry.
  set (adj := adjpartnumbers e) in *. set (i := length done) in *.
  destruct (0 <? numtomatch e)%Z eqn:G.
  - (* the entry names particles *)
    apply Z.ltb_lt in G.
    destruct (Hinv i Hi) as (Hci & Hli & _).
    rewrite (@getitem_at _ 0%Z C i) by lia. cbn [Py.bind].
    rewrite setitem_at by lia. cbn [Py.bind].
    rewrite (@getitem_at _ [] P i) by lia. cbn [Py.bind].
    rewrite setitem_at by lia. cbn [Py.bind].
    rewrite Hci, set_slice_appends.
    set (P1 := Np.list_set i (nth i P [] ++ adj) P).
    set (C1 := Np.list_set i (TracerStore.int32_wrap
                                (Z.of_nat (length (nth i P [])) + Z.of_nat (length adj))) C).
    destruct (@append_each_lists n (Z.of_nat i) adj P1 Hrange Hnd)
      as (P2 & -> & HP2 & Hnth2); [unfold P1; now rewrite list_set_length|].
    cbn [Py.bind].
    destruct (@increment_at_counts n adj C1 Hrange) as (C2 & -> & HC2 & Hcnt2);
      [unfold C1; now rewrite list_set_length|].
    cbn [Py.bind]. eexists. split; [reflexivity|].
    split; [exact HP2|]. split; [exact HC2|].
    intros p Hp. destruct (Hinv p Hp) as (Hcp & Hlp & Hmem).
    rewrite (Hnth2 p Hp), (Hcnt2 p Hp). unfold P1, C1.
    rewrite !list_set_nth by lia.
    rewrite adjacency_count_app. cbn [adjacency_count fold_right]. fold adj.
    assert (Hadj : (1 <= length adj)%nat) by lia.
    split; [|split].
    + (* the counter is the length *)
      destruct (p =? i)%nat eqn:E.
      * apply Nat.eqb_eq in E. subst p.
        destruct (contains (Z.of_nat i) adj);
          rewrite !length_app; cbn [length];
          rewrite !int32_wrap_small; try lia;
          rewrite int32_wrap_small; lia.
      * destruct (contains (Z.of_nat p) adj); rewrite ?length_app; cbn [length];
          rewrite ?int32_wrap_small; lia.
    + destruct (p =? i)%nat; destruct (contains (Z.of_nat p) adj);
        rewrite ?length_app; cbn [length]; lia.
    + (* the members *)
      intro q.
      assert (Hhere : In q ((if (p =? i)%nat then nth i P [] ++ adj else nth p P [])
                            ++ (if contains (Z.of_nat p) adj then [Z.of_nat i] else []))
                      <-> In q (nth p P []) \/ (p = i /\ In q adj)
                          \/ (q = Z.of_nat i /\ In (Z.of_nat p) adj)).
      { rewrite in_app_iff.
        destruct (p =? i)%nat eqn:E;
          [apply Nat.eqb_eq in E; subst p; rewrite in_app_iff | apply Nat.eqb_neq in E];
          destruct (contains (Z.of_nat _) adj) eqn:Cn;
          [apply contains_In in Cn | apply contains_not_In in Cn
          | apply contains_In in Cn | apply contains_not_In in Cn];
          cbn [In]; intuition (try congruence). }
      rewrite Hhere, Hmem. clear Hhere. split.
      * intros [[(e0 & He0 & Hq)|(i0 & e0 & He0 & Hq & Hpin)]|[[-> Hq]|[-> Hpin]]].
        -- left. exists e0. split; [apply entry_after; now left | exact Hq].
        -- right. exists i0, e0. split; [apply entry_after; now left | now split].
        -- left. exists e. split; [apply entry_after; right; now split | exact Hq].
        -- right. exists i, e. split; [apply entry_after; right; now split | now split].
      * intros [(e0 & He0 & Hq)|(i0 & e0 & He0 & Hq & Hpin)];
          apply entry_after in He0; destruct He0 as [He0|[-> ->]].
        -- left. left. now exists e0.
        -- right. left. now split.
        -- left. right. now exists i0, e0.
        -- right. right. now split.
  - (* nothing to match: by its count the entry is empty *)
    apply Z.ltb_ge in G.
    assert (Hempty : adj = []) by (destruct adj; [reflexivity | cbn [length] in Hnum; lia]).
    exists (P, C). split; [reflexivity|].
    split; [exact HP|]. split; [exact HC|].
    intros p Hp. destruct (Hinv p Hp) as (Hcp & Hlp & Hmem).
    split; [exact Hcp|]. split; [rewrite adjacency_count_app; lia|].
    intro q. rewrite Hmem. split.
    + intros [(e0 & He0 & Hq)|(i0 & e0 & He0 & Hq & Hpin)].
      * left. exists e0. split; [apply entry_after; now left | exact Hq].
      * right. exists i0, e0. split; [apply entry_after; now left | now split].
    + intros [(e0 & He0 & Hq)|(i0 & e0 & He0 & Hq & Hpin)];
        apply entry_after in He0; destruct He0 as [He0|[-> ->]].
      * left. now exists e0.
      * fold adj in Hq. rewrite Hempty in Hq. destruct Hq.
      * right. now exists i0, e0.
      * fold adj in Hpin. rewrite Hempty in Hpin. destruct Hpin.
Qed.

Lemma load_from_loaded (n : nat) (rest done : list entry) (st : list (list Z) * list Z) :
  loaded n done st -> Forall (well_formed n) rest ->
  (length done + length rest <= n)%nat ->
  (2 * Z.of_nat (adjacency_count (done ++ rest)) < 2 ^ 31)%Z ->
  exists st', load_from (Z.of_nat (length done)) rest st = Ok st'
              /\ loaded n (done ++ rest) st'.
Proof.
  revert done st. induction rest as [|e rest IH]; intros done st Hst Hwf Hlen Hbound;
    cbn [load_from].
  - exists st. split; [reflexivity|]. now rewrite app_nil_r.
  - inversion Hwf as [|? ? He Hrest]; subst. cbn [length] in Hlen.
    destruct (@load_entry_loaded n done e st Hst He) as (st1 & -> & Hst1); [lia| |].
    { rewrite adjacency_count_app in *. cbn [adjacency_count fold_right] in *. lia. }
    cbn [Py.bind].
    replace (Z.of_nat (length done) + 1)%Z with (Z.of_nat (length (done ++ [e])))
      by (rewrite length_app; cbn [length]; lia).
    replace (done ++ e :: rest) with ((done ++ [e]) ++ rest) in *
      by (now rewrite <- app_assoc).
    apply IH; try assumption. rewrite length_app. cbn [length]. lia.
Qed.

(** X26.  For an adjacency file in the format of the tessellator (each
    entry holds as many particle numbers as it announces, all of them
    particles, none twice) the lists of adjacencies are built without
    error, and they are mutual: particle [q] is in the list of particle [p]
    exactly when the file names one of the two in the entry of the other,
    and so exactly when [p] is in the list of [q]. *)
Theorem loaded_adjacencies_are_mutual (n : nat) (entries : list entry) :
  length entries = n ->
  Forall (well_formed n) entries ->
  (2 * Z.of_nat (adjacency_count entries) < 2 ^ 31)%Z ->
  exists partadjs,
    load_adjacencies n entries = Ok partadjs
    /\ length partadjs = n
    /\ forall p q, (p < n)%nat -> (q < n)%nat ->
         (In (Z.of_nat q) (nth p partadjs []) <-> recorded entries p q)
         /\ (In (Z.of_nat q) (nth p partadjs []) <-> In (Z.of_nat p) (nth q partadjs [])).
Proof.
  intros Hlen Hwf Hbound. unfold load_adjacencies.
  destruct (@load_from_loaded n entries [] (repeat [] n, repeat 0%Z n))
    as ([P C] & HP & Hloaded); try assumption.
  - split; [apply repeat_length|]. split; [apply repeat_length|].
    intros p Hp. rewrite !nth_repeat. cbn [length adjacency_count fold_right].
    split; [reflexivity|]. split; [lia|].
    intro q. split; [intros []|].
    intros [(e & He & _)|(i & e & He & _)]; [destruct p | destruct i]; discriminate.
  - cbn [length]. lia.
  - cbn [length app Z.of_nat] in HP. rewrite HP. cbn [Py.bind fst app] in *.
    destruct Hloaded as (HPn & _ & Hinv).
    exists P. split; [reflexivity|]. split; [exact HPn|].
    assert (Hmem : forall p q, (p < n)%nat -> (q < n)%nat ->
              (In (Z.of_nat q) (nth p P []) <-> recorded entries p q)).
    { intros p q Hp Hq. destruct (Hinv p Hp) as (_ & _ & Hm). rewrite Hm.
      unfold recorded. split.
      - intros [H|(i & e & He & Hi & Hin)]; [now left|].
        apply Nat2Z.inj in Hi. subst i. right. now exists e.
      - intros [H|(e & He & Hin)]; [now left|]. right. now exists q, e. }
    intros p q Hp Hq. split; [now apply Hmem|].
    rewrite (Hmem p q Hp Hq), (Hmem q p Hq Hp). unfold recorded. tauto.
Qed.

Lemma loaded_adjacencies_are_mutual_sample :
  exists partadjs,
    load_adjacencies 3 MoreSamples.adjacency_entries = Ok partadjs
    /\ partadjs = [[1; 2]; [0; 2]; [0; 1]]%Z
    /\ (In 0%Z (nth 2 partadjs []) <-> In 2%Z (nth 0 partadjs [])).
Proof.
  destruct (@loaded_adjacencies_are_mutual 3 MoreSamples.adjacency_entries)
    as (partadjs & Hload & _ & Hmutual).
  - reflexivity.
  - repeat constructor; cbn; try lia; intuition lia.
  - reflexivity.
  - exists partadjs. split; [exact Hload|].
    split; [cbn in Hload; now injection Hload as <-|].
    apply (Hmutual 2%nat 0%nat); lia.
Defined.

End AdjacencyFacts.

(* ================================================================== *)
(** * Properties of the catalogue of clusters *)

Module ClusterFacts.

Import Voids VoidFiles ClusterCatalogue.

(** ** Rows of an array *)

Lemma set_row_ncols (A : Type) (t t' : Np.array2 A) (i : nat) (v : list A) :
  Np.set_row t i v = Ok t' -> Np.ncols t' = Np.ncols t.
Proof.
  unfold Np.set_row, Np.ncols. intro H.
  destruct (i <? Np.nrows t)%nat; [|discriminate].
  destruct (length v =? length (Np.columns t))%nat eqn:E.
  - injection H as <-. cbn [Np.columns]. apply Nat.eqb_eq in E.
    rewrite length_map, length_combine. lia.
  - destruct v as [|x [|y v]]; try discriminate.
    injection H as <-. cbn [Np.columns]. apply length_map.
Qed.

(** The array after [X[i] = v], for a list with one entry per column. *)
Definition with_row (X : Np.array2 Q) (i : nat) (v : list Q) : Np.array2 Q :=
  Np.Array2 (Np.nrows X)
            (map (fun cv : list Q * Q => Np.list_set i (snd cv) (fst cv))
                 (combine (Np.columns X) v)).

Lemma set_row_ok (X : Np.array2 Q) (i : nat) (v : list Q) :
  (i < Np.nrows X)%nat -> length v = Np.ncols X ->
  Np.set_row X i v = Ok (with_row X i v).
Proof.
  intros Hi Hv. unfold Np.set_row.
  replace (i <? Np.nrows X)%nat with true by (symmetry; now apply Nat.ltb_lt).
  now rewrite Hv, Nat.eqb_refl.
Qed.

Lemma with_row_shape (X : Np.array2 Q) (i : nat) (v : list Q) :
  Np.wf X -> length v = Np.ncols X ->
  Np.wf (with_row X i v)
  /\ Np.nrows (with_row X i v) = Np.nrows X
  /\ Np.ncols (with_row X i v) = Np.ncols X.
Proof.
  unfold Np.wf, Np.ncols, with_row. cbn [Np.columns Np.nrows]. intros Hwf Hv.
  split; [|split; [reflexivity|]].
  - rewrite Forall_forall in *. intros c Hc. apply in_map_iff in Hc.
    destruct Hc as ([c0 x] & <- & Hin). cbn [fst snd].
    rewrite AdjacencyFacts.list_set_length. apply Hwf.
    eapply in_combine_l; exact Hin.
  - rewrite length_map, length_combine. lia.
Qed.

Lemma row_at (t : Np.array2 Q) (k : nat) :
  (k < Np.nrows t)%nat ->
  row t (Z.of_nat k) = Ok (map (fun c => nth k c 0) (Np.columns t)).
Proof.
  intro Hk. unfold row.
  replace (Z.of_nat k <? 0)%Z with false by (symmetry; apply Z.ltb_ge; lia).
  replace (Z.of_nat k <? 0)%Z with false by (symmetry; apply Z.ltb_ge; lia).
  replace (Z.of_nat (Np.nrows t) <=? Z.of_nat k)%Z with false
    by (symmetry; apply Z.leb_gt; lia).
  cbn [orb]. now rewrite Nat2Z.id.
Qed.

(** The row just assigned is read back, and the other rows are as they were. *)
Lemma with_row_same (cols : list (list Q)) (i : nat) (v : list Q) :
  Forall (fun c => (i < length c)%nat) cols -> length v = length cols ->
  map (fun c => nth i c 0)
      (map (fun cv : list Q * Q => Np.list_set i (snd cv) (fst cv)) (combine cols v))
  = v.
Proof.
  revert v. induction cols as [|c cols IH]; intros [|x v] Hc Hv; cbn [length] in Hv;
    try discriminate; [reflexivity|].
  inversion Hc as [|? ? Hi Hrest]; subst.
  cbn [combine map fst snd]. rewrite (@AdjacencyFacts.list_set_nth Q 0 i i x c Hi), Nat.eqb_refl.
  f_equal. apply IH; [exact Hrest | now injection Hv].
Qed.

Lemma with_row_other (cols : list (list Q)) (i j : nat) (v : list Q) :
  Forall (fun c => (i < length c)%nat) cols -> length v = length cols -> j <> i ->
  map (fun c => nth j c 0)
      (map (fun cv : list Q * Q => Np.list_set i (snd cv) (fst cv)) (combine cols v))
  = map (fun c => nth j c 0) cols.
Proof.
  intros Hc Hv Hj. revert v Hc Hv.
  induction cols as [|c cols IH]; intros [|x v] Hc Hv; cbn [length] in Hv;
    try discriminate; [reflexivity|].
  inversion Hc as [|? ? Hi Hrest]; subst.
  cbn [combine map fst snd]. rewrite (@AdjacencyFacts.list_set_nth Q 0 i j x c Hi).
  replace (j =? i)%nat with false by (symmetry; now apply Nat.eqb_neq).
  f_equal. apply IH; [exact Hrest | now injection Hv].
Qed.

Lemma rows_reach (X : Np.array2 Q) (i : nat) :
  Np.wf X -> (i < Np.nrows X)%nat -> Forall (fun c => (i < length c)%nat) (Np.columns X).
Proof.
  unfold Np.wf. intros Hwf Hi. eapply Forall_impl; [|exact Hwf].
  cbn. intros c Hc. lia.
Qed.

(** ** The list file, loaded *)

Lemma at2_loadtxt (p : Q -> Q) (rows : list list_row) (i j : nat) (r : list_row) :
  (2 <= length rows)%nat -> nth_error rows i = Some r -> (j < 8)%nat ->
  at2 (loadtxt p rows) (Z.of_nat i) j = Ok (nth j (fields p r) 0).
Proof.
  intros Hrows Hr Hj.
  destruct rows as [|r0 [|r1 rows]]; cbn [length] in Hrows; try lia.
  unfold loadtxt, at2, Np.col. cbn [Np.columns].
  set (all := r0 :: r1 :: rows) in *.
  assert (Hcol : nth_error (map (fun j0 => map (fun r' => nth j0 (fields p r') 0) all)
                                (seq 0 8)) j
                 = Some (map (fun r' => nth j (fields p r') 0) all)).
  { do 8 (destruct j as [|j]; [reflexivity|]). lia. }
  rewrite Hcol. cbn [Py.bind].
  rewrite VoidFacts.getitem_nonneg by lia. rewrite Nat2Z.id, nth_error_map, Hr.
  reflexivity.
Qed.

Lemma to_int_whole (z : Z) : to_int (inject_Z z) = z.
Proof.
  unfold to_int, inject_Z. cbn [Qnum Qden]. apply Z.quot_1_r.
Qed.

(** What is read of each line, when all lines can be read. *)
Lemma member_zones_of_line (lines : list (list token)) (zones : list (list Z)) :
  mapM member_zones lines = Ok zones ->
  length zones = length lines
  /\ forall i zs, nth_error zones i = Some zs -> member_zones (nth i lines []) = Ok zs.
Proof.
  revert zones. induction lines as [|l lines IH]; intros zones H; cbn [mapM] in H.
  - injection H as <-. split; [reflexivity|]. intros [|i] zs Hi; discriminate.
  - destruct (member_zones l) as [z0| |] eqn:El; cbn [Py.bind] in H; try discriminate.
    destruct (mapM member_zones lines) as [zr| |]; cbn [Py.bind] in H; try discriminate.
    injection H as <-. destruct (IH _ eq_refl) as [IHl IHn].
    split; [cbn [length]; now rewrite IHl|].
    intros [|i] zs Hi; cbn [nth_error nth] in *.
    + now injection Hi as <-.
    + now apply IHn.
Qed.

(** ** The loop over the clusters *)

Section Rows.

Variable lib : library.
Variable pol : policy.
Variable strip_density_threshold : Q.
Variable is_box : bool.
Variable box_length : Q.
Variable meanvol_trc : Q.
Variable positions : Np.array2 Q.
Variable zonedata : list Z.
Variables vols densities : list Q.

#[local] Abbreviation row_of_cluster :=
  (info_row lib pol strip_density_threshold is_box box_length meanvol_trc positions
            zonedata vols densities).
#[local] Abbreviation fill_from :=
  (fill lib pol strip_density_threshold is_box box_length meanvol_trc positions
        zonedata vols densities).

(** Filling the rows does not change the number of columns. *)
Lemma fill_ncols (list_array : ndarray) (flags : list Z) (lines : list (list token))
    (todo : list nat) (X X' : Np.array2 Q) :
  fill_from list_array flags lines todo X = Ok X' -> Np.ncols X' = Np.ncols X.
Proof.
  revert X. induction todo as [|i todo IH]; intros X H; cbn [fill] in H.
  - now injection H as <-.
  - destruct (row_of_cluster _ _ _ _) as [r| |]; cbn [Py.bind] in H; try discriminate.
    destruct (Np.set_row X i r) as [X1| |] eqn:E; cbn [Py.bind] in H; try discriminate.
    rewrite (IH _ H). eapply set_row_ncols. exact E.
Qed.

(** When each row can be computed and has one entry per column, the loop
    ends with an array that holds these rows at their indices. *)
Lemma fill_rows (list_array : ndarray) (flags : list Z) (lines : list (list token))
    (rowf : nat -> list Q) (todo : list nat) (X : Np.array2 Q) :
  Np.wf X -> NoDup todo ->
  (forall i, In i todo ->
     (i < Np.nrows X)%nat
     /\ row_of_cluster list_array flags (nth i lines []) (Z.of_nat i) = Ok (rowf i)
     /\ length (rowf i) = Np.ncols X) ->
  exists X',
    fill_from list_array flags lines todo X = Ok X'
    /\ Np.wf X' /\ Np.nrows X' = Np.nrows X /\ Np.ncols X' = Np.ncols X
    /\ (forall i, In i todo -> row X' (Z.of_nat i) = Ok (rowf i))
    /\ (forall j, ~ In j todo -> (j < Np.nrows X)%nat ->
          row X' (Z.of_nat j) = row X (Z.of_nat j)).
Proof.
  revert X. induction todo as [|i todo IH]; intros X Hwf Hnd Hall; cbn [fill].
  - exists X. repeat split; try reflexivity; try assumption. intros i [].
  - inversion Hnd as [|? ? Hni Hnd']; subst.
    destruct (Hall i (or_introl eq_refl)) as (Hi & Hrow & Hlen).
    rewrite Hrow. cbn [Py.bind]. rewrite (@set_row_ok X i (rowf i) Hi Hlen). cbn [Py.bind].
    destruct (@with_row_shape X i (rowf i) Hwf Hlen) as (Hwf1 & Hn1 & Hc1).
    destruct (IH (with_row X i (rowf i)) Hwf1 Hnd') as (X' & HX' & Hwf' & Hn' & Hc' & Hin & Hout).
    { intros k Hk. destruct (Hall k (or_intror Hk)) as (Hk1 & Hk2 & Hk3).
      rewrite Hn1, Hc1. now repeat split. }
    exists X'. split; [exact HX'|]. split; [exact Hwf'|].
    split; [congruence|]. split; [congruence|]. split.
    + intros k [<-|Hk]; [|now apply Hin].
      rewrite (Hout i Hni) by (rewrite Hn1; exact Hi).
      rewrite row_at by (rewrite Hn1; exact Hi).
      unfold with_row. cbn [Np.columns]. f_equal.
      apply with_row_same; [now apply rows_reach | exact Hlen].
    + intros j Hj Hjn.
      assert (j <> i) by (intro; subst; apply Hj; now left).
      rewrite Hout; [|intro; apply Hj; now right | rewrite Hn1; exact Hjn].
      rewrite !row_at by (rewrite ?Hn1; exact Hjn).
      unfold with_row. cbn [Np.columns]. f_equal.
      apply with_row_other; [now apply rows_reach | exact Hlen | assumption].
Qed.

(** The position of a core particle that is among the tracers. *)
Lemma centre_of_core (k : Z) :
  Np.wf positions -> Np.ncols positions = 3%nat ->
  (0 <= k < Z.of_nat (Np.nrows positions))%Z ->
  exists x y z, row positions k = Ok [x; y; z].
Proof.
  intros _ Hc Hk. unfold row.
  replace (k <? 0)%Z with false by (symmetry; apply Z.ltb_ge; lia).
  replace (k <? 0)%Z with false by (symmetry; apply Z.ltb_ge; lia).
  replace (Z.of_nat (Np.nrows positions) <=? k)%Z with false
    by (symmetry; apply Z.leb_gt; lia).
  cbn [orb]. unfold Np.ncols in Hc.
  destruct (Np.columns positions) as [|cx [|cy [|cz [|c cols]]]]; try discriminate.
  cbn [map]. eexists _, _, _. reflexivity.
Qed.

Variable printed : Q -> Q.
Variable rows : list list_row.

#[local] Abbreviation list_array := (loadtxt (fun q => printed (printed q)) rows).

(** The row of a cluster in box mode. *)
Lemma info_row_box (flags : list Z) (structline : list token) (i : nat) (r : list_row)
    (zs : list Z) (x y z : Q) :
  is_box = true ->
  (2 <= length rows)%nat -> nth_error rows i = Some r ->
  member_zones structline = Ok zs ->
  row positions (CoreParticle r) = Ok [x; y; z] ->
  row_of_cluster list_array flags structline (Z.of_nat i)
  = Ok [inject_Z (VoidID r); x; y; z;
        eff_rad lib pol strip_density_threshold meanvol_trc zonedata vols densities zs;
        printed (printed (CoreDens r));
        wtd_avg_dens_of pol strip_density_threshold zonedata vols densities zs;
        (wtd_avg_dens_of pol strip_density_threshold zonedata vols densities zs - 1)
        * pow lib (eff_rad lib pol strip_density_threshold meanvol_trc zonedata vols
                           densities zs) (16 # 10);
        printed (printed (VoidDensRatio r))].
Proof.
  intros Hbox Hrows Hr Hz Hc. unfold info_row. rewrite Hz, Hbox. cbn [Py.bind].
  rewrite !(@at2_loadtxt _ rows i _ r Hrows Hr) by lia.
  cbn [fields nth Py.bind]. rewrite to_int_whole, Hc. reflexivity.
Qed.

(** The row of a cluster in survey mode has eleven entries. *)
Lemma info_row_survey (flags : list Z) (structline : list token) (i : nat) (r : list_row)
    (zs : list Z) (x y z : Q) :
  is_box = false ->
  (2 <= length rows)%nat -> nth_error rows i = Some r ->
  member_zones structline = Ok zs ->
  row positions (CoreParticle r) = Ok [x; y; z] ->
  (i < length flags)%nat ->
  exists v, row_of_cluster list_array flags structline (Z.of_nat i) = Ok v
            /\ length v = 11%nat.
Proof.
  intros Hbox Hrows Hr Hz Hc Hi. unfold info_row. rewrite Hz, Hbox. cbn [Py.bind].
  rewrite !(@at2_loadtxt _ rows i _ r Hrows Hr) by lia.
  cbn [fields nth Py.bind]. rewrite to_int_whole, Hc. cbn [Py.bind map].
  change (getitem [x - box_length / 2; y - box_length / 2; z - box_length / 2] 2)
    with (Ok (z - box_length / 2)).
  change (getitem [x - box_length / 2; y - box_length / 2; z - box_length / 2] 1)
    with (Ok (y - box_length / 2)).
  change (getitem [x - box_length / 2; y - box_length / 2; z - box_length / 2] 0)
    with (Ok (x - box_length / 2)).
  cbn [Py.bind]. rewrite (@AdjacencyFacts.getitem_at Z 0%Z flags i Hi). cbn [Py.bind].
  eexists. split; reflexivity.
Qed.

End Rows.

(** ** The end of the method *)

Section End_of_method.

Variable printed : Q -> Q.
Variable lib : library.
Variable pol : policy.
Variable strip_density_threshold : Q.
Variable is_box : bool.
Variable box_length : Q.
Variable meanvol_trc : Q.
Variable positions : Np.array2 Q.
Variable zonedata : list Z.
Variables vols densities : list Q.

#[local] Abbreviation rows_of :=
  (catalogue_rows printed lib pol strip_density_threshold is_box box_length meanvol_trc
                  positions zonedata vols densities).
#[local] Abbreviation row_in :=
  (info_row lib pol strip_density_threshold is_box box_length meanvol_trc positions
            zonedata vols densities).

(** With two clusters or more, lines that can be read and core particles
    among the tracers, every row of the catalogue is computed and stored:
    the array has one row for each cluster, and the row of cluster [i] is
    the list the loop computed for it. *)
Lemma catalogue_rows_built (st : out_state) (zones : list (list Z)) :
  num__acc st = Z.of_nat (length (Fnewlist st)) ->
  length (Fnewvoid st) = length (Fnewlist st) ->
  length (edge_flag st) = length (Fnewlist st) ->
  (2 <= length (Fnewlist st))%nat ->
  mapM member_zones (Fnewvoid st) = Ok zones ->
  Np.wf positions -> Np.ncols positions = 3%nat ->
  Forall (fun r => (0 <= CoreParticle r < Z.of_nat (Np.nrows positions))%Z) (Fnewlist st) ->
  exists X,
    rows_of st = Ok X
    /\ Np.nrows X = length (Fnewlist st)
    /\ Np.ncols X = (if is_box then 9 else 11)%nat
    /\ (forall i, (i < length (Fnewlist st))%nat ->
          exists v,
            row_in (loadtxt (fun q => printed (printed q)) (Fnewlist st)) (edge_flag st)
                   (nth i (Fnewvoid st) []) (Z.of_nat i) = Ok v
            /\ row X (Z.of_nat i) = Ok v).
Proof.
  intros Hn Hlines Hflags Htwo Hz Hwf Hc Hcore.
  destruct (@member_zones_of_line _ _ Hz) as [Hzl Hzn].
  set (n := length (Fnewlist st)) in *.
  set (la := loadtxt (fun q => printed (printed q)) (Fnewlist st)).
  set (rowf := fun i : nat =>
                 match row_in la (edge_flag st) (nth i (Fnewvoid st) []) (Z.of_nat i) with
                 | Ok v => v
                 | _ => []
                 end).
  assert (Hrow : forall i, (i < n)%nat ->
            row_in la (edge_flag st) (nth i (Fnewvoid st) []) (Z.of_nat i) = Ok (rowf i)
            /\ length (rowf i) = (if is_box then 9 else 11)%nat).
  { intros i Hi.
    destruct (nth_error (Fnewlist st) i) as [r|] eqn:Er;
      [|apply nth_error_None in Er; fold n in Er; lia].
    destruct (nth_error zones i) as [zs|] eqn:Ezs;
      [|apply nth_error_None in Ezs; lia].
    assert (Hr : (0 <= CoreParticle r < Z.of_nat (Np.nrows positions))%Z).
    { rewrite Forall_forall in Hcore. apply Hcore. eapply nth_error_In; exact Er. }
    destruct (@centre_of_core positions (CoreParticle r) Hwf Hc Hr) as (x & y & z & Hxyz).
    unfold rowf, la. destruct is_box eqn:B.
    - rewrite (@info_row_box lib pol strip_density_threshold true box_length meanvol_trc
                 positions zonedata vols densities printed (Fnewlist st) (edge_flag st)
                 (nth i (Fnewvoid st) []) i r zs x y z eq_refl Htwo Er (Hzn i zs Ezs) Hxyz).
      split; reflexivity.
    - destruct (@info_row_survey lib pol strip_density_threshold false box_length
                  meanvol_trc positions zonedata vols densities printed (Fnewlist st)
                  (edge_flag st) (nth i (Fnewvoid st) []) i r zs x y z eq_refl Htwo Er
                  (Hzn i zs Ezs) Hxyz)
        as (v & Hv & Hlen); [lia|].
      rewrite Hv. now split. }
  unfold catalogue_rows. rewrite Hn, Nat2Z.id. fold n. fold la.
  set (X0 := Np.full 0 n (if is_box then 9 else 11)%nat).
  assert (Hwf0 : Np.wf X0).
  { unfold Np.wf, X0, Np.full. cbn [Np.columns Np.nrows]. rewrite Forall_forall.
    intros c Hin. apply repeat_spec in Hin. subst c. apply repeat_length. }
  assert (Hc0 : Np.ncols X0 = (if is_box then 9 else 11)%nat).
  { unfold Np.ncols, X0, Np.full. cbn [Np.columns]. apply repeat_length. }
  destruct (@fill_rows lib pol strip_density_threshold is_box box_length meanvol_trc
              positions zonedata vols densities la (edge_flag st) (Fnewvoid st) rowf
              (seq 0 n) X0 Hwf0 (seq_NoDup n 0))
    as (X & HX & _ & HnX & HcX & Hin & _).
  { intros i Hi. apply in_seq in Hi. destruct (Hrow i) as [H1 H2]; [lia|].
    split; [cbn; lia|]. split; [exact H1|]. now rewrite Hc0. }
  exists X. split; [exact HX|]. split; [exact HnX|]. split; [congruence|].
  intros i Hi. exists (rowf i). split; [now apply Hrow|].
  apply Hin. apply in_seq. lia.
Qed.

End End_of_method.

(** ** The lines and the rows the pruning writes *)

(** The line of a cluster that keeps its own zone: it is read back as that
    zone. *)
Lemma member_zones_own_zone (lines : list (list token)) :
  Forall (fun line => exists z r, line = [TInt z; TInt 0; TFloat r]) lines ->
  exists zones, mapM member_zones lines = Ok zones.
Proof.
  induction 1 as [|line lines (z & r & ->) _ (zones & IH)]; cbn [mapM].
  - now exists [].
  - rewrite IH. now exists ([z] :: zones).
Qed.

Lemma slice_to_front (A : Type) (a b : A) (rest : list A) :
  slice_to (a :: b :: rest) 1 = [a] /\ slice_to (a :: b :: rest) 2 = [a; b].
Proof.
  unfold slice_to, bound. cbn [Z.ltb Z.compare length].
  split.
  - replace (Z.to_nat _) with 1%nat by lia. reflexivity.
  - replace (Z.to_nat _) with 2%nat by lia. reflexivity.
Qed.

Section Dont_merge.

Variable pol : policy.
Hypothesis Hdm : dont_merge pol = true.
Variable max_dens_cut : Q.
Variable cluster_min_num : Z.
Variable meanvol_trc : Q.
Variable clustersread : list candidate.
Variable hierarchy : list (list token).
Variable zonedata : list Z.
Variables vols densities : list Q.

(** When nothing is merged an accepted candidate writes its zone, a count
    of 0 and the ratio at which it stops. *)
Lemma cluster_step_line (st st' : out_state) (ck : candidate * Z) (clustline : list token) :
  ClusterPrune.candidate_step pol max_dens_cut cluster_min_num meanvol_trc clustersread
                              hierarchy zonedata vols densities st ck = Ok st' ->
  getitem hierarchy (snd ck) = Ok clustline -> starts_well clustline = true ->
  st' = st \/ exists z r, Fnewvoid st' = Fnewvoid st ++ [[TInt z; TInt 0; TFloat r]].
Proof.
  intros H Eline W. unfold ClusterPrune.candidate_step in H. rewrite Eline in H.
  cbn [Py.bind] in H.
  destruct clustline as [|[z|q] [|[n|q'] rest]]; try discriminate W.
  cbn [starts_well] in W. apply Z.leb_le in W.
  change (getitem (TInt z :: TInt n :: rest) 1) with (Ok (TInt n)) in H.
  cbn [Py.bind int_of] in H.
  destruct (getitem (TInt z :: TInt n :: rest) 2) as [tr| |]; cbn [Py.bind] in H;
    try discriminate.
  destruct (float_of tr) as [r| |]; cbn [Py.bind] in H; try discriminate.
  destruct (ClusterPrune.passes _ _ _ _ _ _); [|left; now injection H].
  right. destruct (slice_to_front (TInt z) (TInt n) rest) as [S1 S2].
  destruct (length (TInt z :: TInt n :: rest)) as [|f] eqn:L; [discriminate L|].
  cbn [ClusterPrune.while_loop num_zones_to_add add_more] in H.
  destruct (0 <? n)%Z eqn:Gn; cbn [andb] in H.
  - destruct (ClusterPrune.merge_turn pol clustersread _ _ _) as [l| |] eqn:T;
      cbn [Py.bind] in H; try discriminate.
    unfold ClusterPrune.merge_turn, ClusterPrune.cannot_add in T. rewrite Hdm in T.
    cbn [pos num_zones_to_add finalpos rval rstopadd num_adds zonelist total_vol
         total_num_parts] in T.
    VoidFacts.bind_ok T. injection T as <-.
    assert (Wl : forall l0, add_more l0 = false ->
                ClusterPrune.while_loop pol clustersread f (TInt z :: TInt n :: rest)
                                        (col3 (fst ck)) l0 = Ok l0).
    { intros l0 Hl0. destruct f; cbn [ClusterPrune.while_loop];
        rewrite Hl0, andb_false_r; reflexivity. }
    rewrite Wl in H by reflexivity. cbn [Py.bind] in H. injection H as <-.
    unfold ClusterPrune.record_cluster. cbn [Fnewvoid finalpos add_more rstopadd].
    match goal with
    | |- context [slice_to _ ?k] =>
        assert (Ek : k = 1%Z) by (change ((1 + n + 1 - (n + 1))%Z = 1%Z); lia);
        rewrite Ek
    end.
    rewrite S1.
    eexists _, _. reflexivity.
  - apply Z.ltb_ge in Gn. assert (n = 0%Z) by lia. subst n.
    cbn [Py.bind] in H. injection H as <-.
    unfold ClusterPrune.record_cluster. cbn [Fnewvoid finalpos add_more rstopadd].
    change (1 + 0 + 1)%Z with 2%Z. rewrite S2.
    eexists _, _. reflexivity.
Qed.

(** The lines written are of that form, and each row written carries the
    core particle of a candidate. *)
Lemma cluster_prune_writes (core_ok : Z -> Prop) (todo : list (candidate * Z))
    (st st' : out_state) :
  ClusterPrune.prune pol max_dens_cut cluster_min_num meanvol_trc clustersread hierarchy
                     zonedata vols densities todo st = Ok st' ->
  Forall (fun line => starts_well line = true) hierarchy ->
  Forall (fun ck : candidate * Z => core_ok (to_int (col2 (fst ck)))) todo ->
  Forall (fun line => exists z r, line = [TInt z; TInt 0; TFloat r]) (Fnewvoid st) ->
  Forall (fun row => core_ok (CoreParticle row)) (Fnewlist st) ->
  Forall (fun line => exists z r, line = [TInt z; TInt 0; TFloat r]) (Fnewvoid st')
  /\ Forall (fun row => core_ok (CoreParticle row)) (Fnewlist st').
Proof.
  intros H Hlines. revert st H.
  induction todo as [|ck todo IH]; intros st H Hcores Hv Hl; cbn [ClusterPrune.prune] in H.
  - injection H as <-. now split.
  - destruct (ClusterPrune.candidate_step _ _ _ _ _ _ _ _ _ st ck) as [st1| |] eqn:S1;
      cbn [Py.bind] in H; try discriminate.
    inversion Hcores as [|? ? Hck Hrest]; subst.
    apply (IH _ H Hrest).
    + pose proof S1 as S2. unfold ClusterPrune.candidate_step in S2.
      destruct (getitem hierarchy (snd ck)) as [clustline| |] eqn:Eline;
        cbn [Py.bind] in S2; try discriminate.
      assert (W : starts_well clustline = true).
      { rewrite Forall_forall in Hlines. apply Hlines.
        unfold getitem in Eline. destruct (_ <? 0)%Z; [discriminate|].
        destruct (nth_error hierarchy _) eqn:N; [|discriminate].
        injection Eline as <-. eapply nth_error_In; exact N. }
      destruct (cluster_step_line _ _ S1 Eline W) as [->|(z & r & ->)]; [exact Hv|].
      apply Forall_app. split; [exact Hv|]. constructor; [|constructor]. now exists z, r.
    + destruct (@ClusterPruneFacts.cluster_step_cases pol max_dens_cut cluster_min_num
                  meanvol_trc clustersread hierarchy zonedata vols densities st st1 ck S1)
        as [->|(clustline & l & r & _ & _ & ->)]; [exact Hl|].
      unfold ClusterPrune.record_cluster. cbn [Fnewlist].
      apply Forall_app. split; [exact Hl|]. constructor; [exact Hck | constructor].
Qed.

End Dont_merge.

(** The rows taken from the list file in the sorted order are rows of it. *)
Lemma sorted_rows_from (P : candidate -> Prop) (listfile rows : list candidate)
    (order : list Z) :
  mapM (getitem listfile) order = Ok rows -> Forall P listfile -> Forall P rows.
Proof.
  intros H Hall. revert rows H.
  induction order as [|k order IH]; intros rows H; cbn [mapM] in H.
  - injection H as <-. constructor.
  - destruct (getitem listfile k) as [c| |] eqn:E; cbn [Py.bind] in H; try discriminate.
    destruct (mapM (getitem listfile) order) as [cs| |]; cbn [Py.bind] in H;
      try discriminate.
    injection H as <-. constructor; [|now apply IH].
    unfold getitem in E. destruct (_ <? 0)%Z; [discriminate|].
    destruct (nth_error listfile _) eqn:N; [|discriminate]. injection E as ->.
    rewrite Forall_forall in Hall. apply Hall. eapply nth_error_In; exact N.
Qed.

(** When nothing is merged and the files have the format of the
    tessellator, the lines the method writes can be read back and the core
    particles it writes are those of candidates. *)
Lemma pruned_lines_and_cores (pol : policy) (max_dens_cut : Q) (cluster_min_num : Z)
    (meanvol_trc : Q) (listfile : list candidate) (clustfile : list (list token))
    (zonedata : list Z) (vols densities : list Q) (st : out_state)
    (core_ok : Z -> Prop) :
  dont_merge pol = true ->
  Forall (fun line => starts_well line = true) (tl clustfile) ->
  Forall (fun c => core_ok (to_int (col2 c))) listfile ->
  ClusterPrune.postprocess_clusters pol max_dens_cut cluster_min_num meanvol_trc listfile
                                    clustfile zonedata vols densities = Ok st ->
  (exists zones, mapM member_zones (Fnewvoid st) = Ok zones)
  /\ Forall (fun row => core_ok (CoreParticle row)) (Fnewlist st).
Proof.
  intros Hdm Hlines Hcores H. apply ClusterPruneFacts.postprocess_clusters_prune in H.
  destruct H as (clustersread & Hsort & H).
  apply (@sorted_rows_from (fun c => core_ok (to_int (col2 c)))) in Hsort; [|exact Hcores].
  eapply (@cluster_prune_writes pol Hdm) with (core_ok := core_ok) in H.
  - destruct H as [Hv Hl]. split; [now apply member_zones_own_zone | exact Hl].
  - exact Hlines.
  - rewrite Forall_forall in *. intros [c k] Hck. cbn [fst]. apply Hsort.
    eapply in_combine_l; exact Hck.
  - constructor.
  - constructor.
Qed.

(** What the loop over the candidates hands to the end of the method. *)
Lemma pruned_counts (pol : policy) (max_dens_cut : Q) (cluster_min_num : Z)
    (meanvol_trc : Q) (listfile : list candidate) (clustfile : list (list token))
    (zonedata : list Z) (vols densities : list Q) (st : out_state) :
  ClusterPrune.postprocess_clusters pol max_dens_cut cluster_min_num meanvol_trc listfile
                                    clustfile zonedata vols densities = Ok st ->
  num__acc st = Z.of_nat (length (Fnewlist st))
  /\ length (Fnewvoid st) = length (Fnewlist st)
  /\ length (edge_flag st) = length (Fnewlist st).
Proof.
  intro H. apply ClusterPruneFacts.postprocess_clusters_prune in H.
  destruct H as (clustersread & _ & H).
  eapply ClusterPruneFacts.cluster_prune_keeps in H; [exact (proj2 H) | constructor |].
  repeat split.
Qed.

(** In box mode the method never returns: whenever the rows of the
    catalogue are computed, they have 9 entries for a format of 11. *)
Lemma box_catalogue_never_returns (printed : Q -> Q) (lib : library) (pol : policy)
    (strip_density_threshold box_length meanvol_trc : Q) (positions : Np.array2 Q)
    (zonedata : list Z) (vols densities : list Q) (st : out_state) (u : unit) :
  write_catalogue printed lib pol strip_density_threshold true box_length meanvol_trc
                  positions zonedata vols densities st = Ok u ->
  False.
Proof.
  unfold write_catalogue, catalogue_rows. intro H.
  destruct (rewrite_list_file printed (Fnewlist st)); cbn [Py.bind] in H; try discriminate.
  destruct (fill _ _ _ _ _ _ _ _ _ _ _ _ _ _ _) as [X| |] eqn:F; cbn [Py.bind] in H;
    try discriminate.
  apply fill_ncols in F. unfold Clusters.savetxt in H. rewrite F in H.
  discriminate H.
Qed.

(** The end of the method in box mode, for any setting of the switches,
    when the lines of the new [.void] file can be read and the core
    particles written are among the tracers. *)
Lemma box_catalogue_rows (printed : Q -> Q) (lib : library) (pol : policy)
    (box_length : Q) (positions : Np.array2 Q) (max_dens_cut : Q) (cluster_min_num : Z)
    (meanvol_trc : Q) (listfile : list candidate) (clustfile : list (list token))
    (zonedata : list Z) (vols densities : list Q) (st : out_state)
    (zones : list (list Z)) :
  ClusterPrune.postprocess_clusters pol max_dens_cut cluster_min_num meanvol_trc listfile
                                    clustfile zonedata vols densities = Ok st ->
  (2 <= num__acc st)%Z ->
  mapM member_zones (Fnewvoid st) = Ok zones ->
  Np.wf positions -> Np.ncols positions = 3%nat ->
  Forall (fun r => (0 <= CoreParticle r < Z.of_nat (Np.nrows positions))%Z) (Fnewlist st) ->
  exists info_output,
    catalogue_rows printed lib pol (ClusterPrune.strip_threshold pol max_dens_cut) true
                   box_length meanvol_trc positions zonedata vols densities st
    = Ok info_output
    /\ Np.nrows info_output = length (Fnewlist st)
    /\ Np.ncols info_output = 9%nat
    /\ (forall i r zs,
          nth_error (Fnewlist st) i = Some r -> nth_error zones i = Some zs ->
          exists x y z,
            row positions (CoreParticle r) = Ok [x; y; z]
            /\ row info_output (Z.of_nat i)
               = Ok [inject_Z (VoidID r); x; y; z;
                     eff_rad lib pol (ClusterPrune.strip_threshold pol max_dens_cut)
                             meanvol_trc zonedata vols densities zs;
                     printed (printed (CoreDens r));
                     wtd_avg_dens_of pol (ClusterPrune.strip_threshold pol max_dens_cut)
                                     zonedata vols densities zs;
                     (wtd_avg_dens_of pol (ClusterPrune.strip_threshold pol max_dens_cut)
                                      zonedata vols densities zs - 1)
                     * pow lib (eff_rad lib pol
                                        (ClusterPrune.strip_threshold pol max_dens_cut)
                                        meanvol_trc zonedata vols densities zs) (16 # 10);
                     printed (printed (VoidDensRatio r))])
    /\ Clusters.count_percent Clusters.fmt_box = 11%nat
    /\ Clusters.savetxt info_output Clusters.fmt_box = Raise ValueError
    /\ postprocess_clusters_files printed lib pol true box_length positions max_dens_cut
                                  cluster_min_num meanvol_trc listfile clustfile zonedata
                                  vols densities
       = Raise ValueError.
Proof.
  intros Hrun Htwo Hz Hwf Hc Hcore.
  destruct (@pruned_counts _ _ _ _ _ _ _ _ _ _ Hrun) as (Hn & Hlines & Hflags).
  assert (Hrows : (2 <= length (Fnewlist st))%nat) by lia.
  destruct (@catalogue_rows_built printed lib pol (ClusterPrune.strip_threshold pol max_dens_cut)
              true box_length meanvol_trc positions zonedata vols densities st zones
              Hn Hlines Hflags Hrows Hz Hwf Hc Hcore)
    as (X & HX & HnX & HcX & Hall).
  destruct (@member_zones_of_line _ _ Hz) as [_ Hzn].
  assert (Hsave : Clusters.savetxt X Clusters.fmt_box = Raise ValueError).
  { unfold Clusters.savetxt. rewrite HcX. reflexivity. }
  exists X. split; [exact HX|]. split; [exact HnX|]. split; [exact HcX|]. split.
  - intros i r zs Er Ezs.
    assert (Hr : (0 <= CoreParticle r < Z.of_nat (Np.nrows positions))%Z).
    { rewrite Forall_forall in Hcore. apply Hcore. eapply nth_error_In; exact Er. }
    destruct (@centre_of_core positions (CoreParticle r) Hwf Hc Hr) as (x & y & z & Hxyz).
    exists x, y, z. split; [exact Hxyz|].
    destruct (Hall i) as (v & Hv & Hrow).
    { apply nth_error_Some. congruence. }
    rewrite Hrow. rewrite <- Hv.
    apply (@info_row_box lib pol (ClusterPrune.strip_threshold pol max_dens_cut) true
             box_length meanvol_trc positions zonedata vols densities printed (Fnewlist st)
             (edge_flag st) (nth i (Fnewvoid st) []) i r zs x y z eq_refl Hrows Er
             (Hzn i zs Ezs) Hxyz).
  - split; [reflexivity|]. split; [exact Hsave|].
    unfold postprocess_clusters_files. rewrite Hrun. cbn [Py.bind].
    unfold write_catalogue. rewrite VoidFileFacts.rewrite_list_file_cases.
    replace (length (Fnewlist st) <? 2)%nat with false by (symmetry; apply Nat.ltb_ge; lia).
    cbn [Py.bind]. rewrite HX. cbn [Py.bind]. exact Hsave.
Qed.

(** C10.  In box mode with two accepted clusters or more, for files in
    the format of the tessellator (each line of the hierarchy starts with
    its zone and a count, each core particle is among the tracers) and
    nothing merged, the end of the method computes the catalogue: an array
    of one row for each cluster and 9 columns, the row of a cluster holding
    its number, the position of its core particle, its effective radius,
    its core density, its weighted density, [lambda_c] and its density
    ratio.  Writing this array with the format of line 1581, which has 11
    specifiers, raises [ValueError], and this is how the method ends. *)
Theorem box_cluster_catalogue_fails (printed : Q -> Q) (lib : library) (pol : policy)
    (box_length : Q) (positions : Np.array2 Q) (max_dens_cut : Q) (cluster_min_num : Z)
    (meanvol_trc : Q) (listfile : list candidate) (clustfile : list (list token))
    (zonedata : list Z) (vols densities : list Q) (st : out_state) :
  dont_merge pol = true ->
  Forall (fun line => starts_well line = true) (tl clustfile) ->
  Forall (fun c => (0 <= to_int (col2 c) < Z.of_nat (Np.nrows positions))%Z) listfile ->
  Np.wf positions -> Np.ncols positions = 3%nat ->
  ClusterPrune.postprocess_clusters pol max_dens_cut cluster_min_num meanvol_trc listfile
                                    clustfile zonedata vols densities = Ok st ->
  (2 <= num__acc st)%Z ->
  exists zones info_output,
    mapM member_zones (Fnewvoid st) = Ok zones
    /\ catalogue_rows printed lib pol (ClusterPrune.strip_threshold pol max_dens_cut) true
                      box_length meanvol_trc positions zonedata vols densities st
       = Ok info_output
    /\ Np.nrows info_output = length (Fnewlist st)
    /\ Np.ncols info_output = 9%nat
    /\ (forall i r zs,
          nth_error (Fnewlist st) i = Some r -> nth_error zones i = Some zs ->
          exists x y z,
            row positions (CoreParticle r) = Ok [x; y; z]
            /\ row info_output (Z.of_nat i)
               = Ok [inject_Z (VoidID r); x; y; z;
                     eff_rad lib pol (ClusterPrune.strip_threshold pol max_dens_cut)
                             meanvol_trc zonedata vols densities zs;
                     printed (printed (CoreDens r));
                     wtd_avg_dens_of pol (ClusterPrune.strip_threshold pol max_dens_cut)
                                     zonedata vols densities zs;
                     (wtd_avg_dens_of pol (ClusterPrune.strip_threshold pol max_dens_cut)
                                      zonedata vols densities zs - 1)
                     * pow lib (eff_rad lib pol
                                        (ClusterPrune.strip_threshold pol max_dens_cut)
                                        meanvol_trc zonedata vols densities zs) (16 # 10);
                     printed (printed (VoidDensRatio r))])
    /\ Clusters.count_percent Clusters.fmt_box = 11%nat
    /\ Clusters.savetxt info_output Clusters.fmt_box = Raise ValueError
    /\ postprocess_clusters_files printed lib pol true box_length positions max_dens_cut
                                  cluster_min_num meanvol_trc listfile clustfile zonedata
                                  vols densities
       = Raise ValueError.
Proof.
  intros Hdm Hlines Hcores Hwf Hc Hrun Htwo.
  destruct (@pruned_lines_and_cores pol max_dens_cut cluster_min_num meanvol_trc listfile
              clustfile zonedata vols densities st
              (fun k => (0 <= k < Z.of_nat (Np.nrows positions))%Z)
              Hdm Hlines Hcores Hrun)
    as [(zones & Hz) Hcore].
  exists zones.
  destruct (@box_catalogue_rows printed lib pol box_length positions max_dens_cut
              cluster_min_num meanvol_trc listfile clustfile zonedata vols densities st
              zones Hrun Htwo Hz Hwf Hc Hcore)
    as (X & HX).
  exists X. split; [exact Hz | exact HX].
Qed.

Lemma sample_two_clusters :
  ClusterPrune.postprocess_clusters ClusterPrune.hard_coded (1 # 10) 1 100
                                    MoreSamples.cluster_listfile Samples.voidfile
                                    Samples.zonedata Samples.vols Samples.densities
  = Ok MoreSamples.two_clusters.
Proof.
  vm_compute. reflexivity.
Qed.

Lemma sample_one_cluster :
  ClusterPrune.postprocess_clusters ClusterPrune.hard_coded (3 # 10) 1 100
                                    MoreSamples.cluster_listfile Samples.voidfile
                                    Samples.zonedata Samples.vols Samples.densities
  = Ok MoreSamples.one_cluster.
Proof.
  vm_compute. reflexivity.
Qed.

(** Two clusters in a box of side 10: two rows of nine entries, and the
    method ends with [ValueError]. *)
Lemma box_cluster_catalogue_fails_sample :
  (exists info_output,
     catalogue_rows (fun q => q) MoreSamples.sample_library ClusterPrune.hard_coded 1 true 10
                    100 MoreSamples.cluster_positions Samples.zonedata Samples.vols
                    Samples.densities MoreSamples.two_clusters
     = Ok info_output
     /\ Np.nrows info_output = 2%nat
     /\ Np.ncols info_output = 9%nat
     /\ Clusters.savetxt info_output Clusters.fmt_box = Raise ValueError)
  /\ postprocess_clusters_files (fun q => q) MoreSamples.sample_library
                                ClusterPrune.hard_coded true 10
                                MoreSamples.cluster_positions (1 # 10) 1 100
                                MoreSamples.cluster_listfile Samples.voidfile
                                Samples.zonedata Samples.vols Samples.densities
     = Raise ValueError.
Proof.
  destruct (@box_cluster_catalogue_fails (fun q => q) MoreSamples.sample_library
              ClusterPrune.hard_coded 10 MoreSamples.cluster_positions (1 # 10) 1 100
              MoreSamples.cluster_listfile Samples.voidfile Samples.zonedata Samples.vols
              Samples.densities MoreSamples.two_clusters)
    as (zones & X & _ & HX & Hn & Hc & _ & _ & Hsave & Hend).
  - reflexivity.
  - repeat constructor.
  - repeat constructor; cbn; lia.
  - repeat constructor.
  - reflexivity.
  - exact sample_two_clusters.
  - cbn. lia.
  - split; [|exact Hend].
    exists X. split; [exact HX|]. split; [exact Hn|]. split; [exact Hc | exact Hsave].
Defined.

(** C10, the claim as stated fails for a single accepted cluster.  With the
    cut on the core density at 3/10 zone 8 alone is accepted; the list file
    of one row is loaded as a one-dimensional array, and writing it again
    with the format of eight fields raises [ValueError] at line 1518: the
    method ends there, in survey mode as in box mode, before any row of the
    catalogue is computed. *)
Lemma one_cluster_stops_at_the_list_file :
  exists st,
    ClusterPrune.postprocess_clusters ClusterPrune.hard_coded (3 # 10) 1 100
                                      MoreSamples.cluster_listfile Samples.voidfile
                                      Samples.zonedata Samples.vols Samples.densities
    = Ok st
    /\ num__acc st = 1%Z
    /\ rewrite_list_file (fun q => q) (Fnewlist st) = Raise ValueError
    /\ postprocess_clusters_files (fun q => q) MoreSamples.sample_library
                                  ClusterPrune.hard_coded true 10
                                  MoreSamples.cluster_positions (3 # 10) 1 100
                                  MoreSamples.cluster_listfile Samples.voidfile
                                  Samples.zonedata Samples.vols Samples.densities
       = Raise ValueError
    /\ postprocess_clusters_files (fun q => q) MoreSamples.sample_library
                                  ClusterPrune.hard_coded false 10
                                  MoreSamples.cluster_positions (3 # 10) 1 100
                                  MoreSamples.cluster_listfile Samples.voidfile
                                  Samples.zonedata Samples.vols Samples.densities
       = Raise ValueError.
Proof.
  exists MoreSamples.one_cluster. split; [exact sample_one_cluster|].
  repeat split; vm_compute; reflexivity.
Qed.

End ClusterFacts.

(* ================================================================== *)
(** * The catalogue of clusters in survey mode *)

Module ClusterMore.

Import Voids VoidFiles ClusterCatalogue.

(** X27.  In survey mode, for files in the format of the tessellator (each
    line of the hierarchy starts with its zone and a count, each core
    particle is among the tracers) and nothing merged, the end of the
    method goes through as soon as two clusters or more are accepted: the
    list file is written again, the rows of the catalogue have the eleven
    entries of the array, and the format of line 1586 has eleven fields.
    With one cluster or none the list file is loaded as a one-dimensional
    array and the method ends with [ValueError] at line 1518, without a
    catalogue. *)
Theorem survey_cluster_catalogue_is_written (printed : Q -> Q) (lib : library)
    (pol : policy) (box_length : Q) (positions : Np.array2 Q) (max_dens_cut : Q)
    (cluster_min_num : Z) (meanvol_trc : Q) (listfile : list candidate)
    (clustfile : list (list token)) (zonedata : list Z) (vols densities : list Q)
    (st : out_state) :
  dont_merge pol = true ->
  Forall (fun line => starts_well line = true) (tl clustfile) ->
  Forall (fun c => (0 <= to_int (col2 c) < Z.of_nat (Np.nrows positions))%Z) listfile ->
  Np.wf positions -> Np.ncols positions = 3%nat ->
  ClusterPrune.postprocess_clusters pol max_dens_cut cluster_min_num meanvol_trc listfile
                                    clustfile zonedata vols densities = Ok st ->
  postprocess_clusters_files printed lib pol false box_length positions max_dens_cut
                             cluster_min_num meanvol_trc listfile clustfile zonedata vols
                             densities
  = if (num__acc st <? 2)%Z then Raise ValueError else Ok tt.
Proof.
  intros Hdm Hfmt Hcores Hwf Hc Hrun.
  destruct (@ClusterFacts.pruned_lines_and_cores pol max_dens_cut cluster_min_num
              meanvol_trc listfile clustfile zonedata vols densities st
              (fun k => (0 <= k < Z.of_nat (Np.nrows positions))%Z)
              Hdm Hfmt Hcores Hrun)
    as [(zones & Hz) Hcore].
  destruct (@ClusterFacts.pruned_counts _ _ _ _ _ _ _ _ _ _ Hrun) as (Hn & Hlines & Hflags).
  unfold postprocess_clusters_files. rewrite Hrun. cbn [Py.bind].
  unfold write_catalogue. rewrite VoidFileFacts.rewrite_list_file_cases.
  destruct (num__acc st <? 2)%Z eqn:Two.
  - apply Z.ltb_lt in Two.
    replace (length (Fnewlist st) <? 2)%nat with true by (symmetry; apply Nat.ltb_lt; lia).
    reflexivity.
  - apply Z.ltb_ge in Two.
    replace (length (Fnewlist st) <? 2)%nat with false by (symmetry; apply Nat.ltb_ge; lia).
    cbn [Py.bind].
    destruct (@ClusterFacts.catalogue_rows_built printed lib pol
                (ClusterPrune.strip_threshold pol max_dens_cut) false box_length meanvol_trc
                positions zonedata vols densities st zones Hn Hlines Hflags)
      as (X & -> & _ & HcX & _); try assumption; [lia|].
    cbn [Py.bind]. unfold Clusters.savetxt. rewrite HcX. reflexivity.
Qed.

Lemma survey_cluster_catalogue_is_written_sample :
  postprocess_clusters_files (fun q => q) MoreSamples.sample_library ClusterPrune.hard_coded
                             false 10 MoreSamples.cluster_positions (1 # 10) 1 100
                             MoreSamples.cluster_listfile Samples.voidfile Samples.zonedata
                             Samples.vols Samples.densities
  = Ok tt
  /\ postprocess_clusters_files (fun q => q) MoreSamples.sample_library
                                ClusterPrune.hard_coded false 10
                                MoreSamples.cluster_positions (3 # 10) 1 100
                                MoreSamples.cluster_listfile Samples.voidfile
                                Samples.zonedata Samples.vols Samples.densities
     = Raise ValueError.
Proof.
  split.
  - apply (@survey_cluster_catalogue_is_written (fun q => q) MoreSamples.sample_library
             ClusterPrune.hard_coded 10 MoreSamples.cluster_positions (1 # 10) 1 100
             MoreSamples.cluster_listfile Samples.voidfile Samples.zonedata Samples.vols
             Samples.densities MoreSamples.two_clusters).
    + reflexivity.
    + repeat constructor.
    + repeat constructor; cbn; lia.
    + repeat constructor.
    + reflexivity.
    + exact ClusterFacts.sample_two_clusters.
  - apply (@survey_cluster_catalogue_is_written (fun q => q) MoreSamples.sample_library
             ClusterPrune.hard_coded 10 MoreSamples.cluster_positions (3 # 10) 1 100
             MoreSamples.cluster_listfile Samples.voidfile Samples.zonedata Samples.vols
             Samples.densities MoreSamples.one_cluster).
    + reflexivity.
    + repeat constructor.
    + repeat constructor; cbn; lia.
    + repeat constructor.
    + reflexivity.
    + exact ClusterFacts.sample_one_cluster.
Defined.

End ClusterMore.
